(** * airtable-scraper: a shallow embedding of the scraper's decoding pipeline

    The development follows the layout of the Python package:
    - [typing.py]          : [join_list_like], [cast_to_str], [is_date], [none_filter]
    - [table_utils.py]     : [flatten_lookup_column_r], [ColumnTypeAnalyzer.analyze]
    - [_models.py]         : [ColumnDefinition], [create_row_model]
    - [airtable_scraper.py]: the text extractors, [_get_column_definition],
                             the cell handlers, [_get_table_data], the property
                             accessors and [to_dict].

    Python values are a tagged union, exceptions are an error result, and the
    logger and the HTTP session are threaded as an explicit world. *)

From Stdlib Require Import ZArith List String Ascii Bool Lia DecimalString SpecFloat.
Import ListNotations.

Set Implicit Arguments.

#[local] Open Scope string_scope.
#[local] Open Scope list_scope.
#[local] Open Scope Z_scope.

Notation "a +:+ b" := (String.append a b) (at level 60, right associativity).

(* ------------------------------------------------------------------ *)
(** ** Exceptions and the error result *)

(** The exception classes the code can meet.  All of them derive from
    [Exception], so every [except Exception] clause catches each of them. *)
Inductive exn : Type :=
| AttributeError | KeyError | TypeError | ValueError | IndexError
| RuntimeError | OverflowError | AssertionError | SyntaxError | NameError
| ValidationError | UnknownTimeZoneError | JSONDecodeError.

Inductive res (A : Type) : Type :=
| Ok (a : A)
| Raise (e : exn).
Arguments Ok {A} a.
Arguments Raise {A} e.

Definition rbind {A B} (m : res A) (k : A -> res B) : res B :=
  match m with
  | Ok a => k a
  | Raise e => Raise e
  end.

Declare Scope res_scope.
Delimit Scope res_scope with res.
Notation "x <- m ;; k" := (rbind m (fun x => k))
  (at level 61, m at next level, right associativity) : res_scope.
Notation "' pat <- m ;; k" := (rbind m (fun x => match x with pat => k end))
  (at level 61, pat pattern, m at next level, right associativity) : res_scope.

Fixpoint rmap {A B} (f : A -> res B) (l : list A) : res (list B) :=
  match l with
  | [] => Ok []
  | x :: r => (y <- f x ;; ys <- rmap f r ;; Ok (y :: ys))%res
  end.

Definition is_ok {A} (m : res A) : bool :=
  match m with Ok _ => true | Raise _ => false end.

(* ------------------------------------------------------------------ *)
(** ** Python strings

    A [str] is modelled by a Rocq [string], the bytes of its UTF-8
    encoding.  The character classes below are the ASCII ones: [lower] and
    [strip] stand for [str.lower] and [str.strip] only where the text is
    ASCII by construction (the output of [strftime], a suffix compared with
    an ASCII text).  On a text that comes from the table, [str.lower] and
    [str.strip] follow Unicode, and are functions of the library (see
    [PyLib]).  The class [\s] of the patterns is the ASCII one as well: a
    page is matched byte by byte, and a white space outside ASCII is not
    skipped where [re] would skip it. *)

Module PyStr.

Definition chr (n : nat) : ascii := ascii_of_nat n.

Definition quote : ascii := chr 34.
Definition backslash : ascii := chr 92.
Definition newline : ascii := chr 10.

(** [str.isspace] on one character: TAB LF VT FF CR, FS GS RS US, SPACE. *)
Definition isspace (c : ascii) : bool :=
  let n := nat_of_ascii c in
  ((9 <=? n) && (n <=? 13) || (28 <=? n) && (n <=? 31) || (n =? 32))%nat.

Definition isdigit (c : ascii) : bool :=
  let n := nat_of_ascii c in ((48 <=? n) && (n <=? 57))%nat.

Definition lower_char (c : ascii) : ascii :=
  let n := nat_of_ascii c in
  if ((65 <=? n) && (n <=? 90))%nat then ascii_of_nat (n + 32) else c.

(** [s.lower()] *)
Fixpoint lower (s : string) : string :=
  match s with
  | EmptyString => EmptyString
  | String c r => String (lower_char c) (lower r)
  end.

Fixpoint lstrip (s : string) : string :=
  match s with
  | EmptyString => EmptyString
  | String c r => if isspace c then lstrip r else s
  end.

Fixpoint rev_string (s : string) (acc : string) : string :=
  match s with
  | EmptyString => acc
  | String c r => rev_string r (String c acc)
  end.

Definition rstrip (s : string) : string :=
  rev_string (lstrip (rev_string s "")) "".

(** [s.strip()] *)
Definition strip (s : string) : string := rstrip (lstrip s).

Fixpoint mem_char (c : ascii) (s : string) : bool :=
  match s with
  | EmptyString => false
  | String d r => Ascii.eqb c d || mem_char c r
  end.

(** [s.translate(str.maketrans("", "", deleted))] *)
Fixpoint delete_chars (deleted : string) (s : string) : string :=
  match s with
  | EmptyString => EmptyString
  | String c r =>
      if mem_char c deleted then delete_chars deleted r
      else String c (delete_chars deleted r)
  end.

Fixpoint drop (n : nat) (s : string) : string :=
  match n, s with
  | O, _ => s
  | S _, EmptyString => EmptyString
  | S k, String _ r => drop k r
  end.

(** [s.replace(old, new)] for a non-empty [old]: occurrences are replaced
    from the left, without overlap.  [skip] counts the characters of an
    occurrence that are still to be dropped. *)
Fixpoint replace_from (old new : string) (skip : nat) (s : string) : string :=
  match s with
  | EmptyString => EmptyString
  | String c r =>
      match skip with
      | S k => replace_from old new k r
      | O =>
          if String.prefix old s
          then new +:+ replace_from old new (String.length old - 1) r
          else String c (replace_from old new O r)
      end
  end.

Definition replace (old new : string) (s : string) : string :=
  replace_from old new O s.

(** [sep.join(parts)] *)
Fixpoint join (sep : string) (parts : list string) : string :=
  match parts with
  | [] => ""
  | [x] => x
  | x :: r => x +:+ sep +:+ join sep r
  end.

(** [s.split(sep)] for a non-empty [sep]; [cur] is the piece being read,
    in reverse. *)
Fixpoint split_from (sep : string) (skip : nat) (cur : string) (s : string)
  : list string :=
  match s with
  | EmptyString => [rev_string cur ""]
  | String c r =>
      match skip with
      | S k => split_from sep k cur r
      | O =>
          if String.prefix sep s
          then rev_string cur "" :: split_from sep (String.length sep - 1) "" r
          else split_from sep O (String c cur) r
      end
  end.

Definition split (sep : string) (s : string) : list string :=
  split_from sep O "" s.

Definition of_Z (z : Z) : string := NilZero.string_of_int (Z.to_int z).

(** a number printed with at least two digits, as [%d], [%m], [%I], [%M] *)
Definition two_digits (z : Z) : string :=
  if (0 <=? z) && (z <? 10) then "0" +:+ of_Z z else of_Z z.

Definition contains_char (c : ascii) (s : string) : Prop :=
  In c (list_ascii_of_string s).

End PyStr.

(* ------------------------------------------------------------------ *)
(** ** Python values

    The values the code handles: what [json.loads] produces ([None], [bool],
    [int], [float], [str], [list], [dict]) and the other two containers that
    [cast_to_str] names in its signature ([tuple], [set]).  A [float] is an
    IEEE-754 value; a [dict] keeps its items in insertion order; a [set] is
    given by its elements in iteration order. *)

#[warnings="-register-all"]
Inductive pyval : Type :=
| PNone
| PBool (b : bool)
| PInt (z : Z)
| PFloat (f : spec_float)
| PStr (s : string)
| PList (l : list pyval)
| PTuple (l : list pyval)
| PSet (l : list pyval)
| PDict (d : list (pyval * pyval)).

Definition pydict : Type := list (pyval * pyval).

(** [type(v)] *)
Inductive pytype : Type :=
| TNoneType | Tbool | Tint | Tfloat | Tstr | Tlist | Ttuple | Tset | Tdict.

Definition type_of (v : pyval) : pytype :=
  match v with
  | PNone => TNoneType
  | PBool _ => Tbool
  | PInt _ => Tint
  | PFloat _ => Tfloat
  | PStr _ => Tstr
  | PList _ => Tlist
  | PTuple _ => Ttuple
  | PSet _ => Tset
  | PDict _ => Tdict
  end.

Definition pytype_eqb (a b : pytype) : bool :=
  match a, b with
  | TNoneType, TNoneType | Tbool, Tbool | Tint, Tint | Tfloat, Tfloat
  | Tstr, Tstr | Tlist, Tlist | Ttuple, Ttuple | Tset, Tset | Tdict, Tdict => true
  | _, _ => false
  end.

(** [t.__name__] *)
Definition type_name (t : pytype) : string :=
  match t with
  | TNoneType => "NoneType"
  | Tbool => "bool"
  | Tint => "int"
  | Tfloat => "float"
  | Tstr => "str"
  | Tlist => "list"
  | Ttuple => "tuple"
  | Tset => "set"
  | Tdict => "dict"
  end.

Definition float_is_zero (f : spec_float) : bool :=
  match f with S754_zero _ => true | _ => false end.

(** truth value of an object, as tested by [if v], [not v], [x if v else y] *)
Definition truthy (v : pyval) : bool :=
  match v with
  | PNone => false
  | PBool b => b
  | PInt z => negb (z =? 0)
  | PFloat f => negb (float_is_zero f)
  | PStr s => negb (String.eqb s "")
  | PList l | PTuple l | PSet l => match l with [] => false | _ => true end
  | PDict d => match d with [] => false | _ => true end
  end.

(** *** Keys: hashing and equality *)

Definition signed (s : bool) (m : positive) : Z :=
  if s then Z.neg m else Z.pos m.

(** [f == z] for a float and an int: the values are compared exactly *)
Definition float_eq_int (f : spec_float) (z : Z) : bool :=
  match f with
  | S754_zero _ => z =? 0
  | S754_finite s m e =>
      if 0 <=? e then signed s m * 2 ^ e =? z
      else signed s m =? z * 2 ^ (- e)
  | S754_infinity _ | S754_nan => false
  end.

(** [f == g] for two floats: [nan] differs from everything, [0.0 == -0.0] *)
Definition float_eq (f g : spec_float) : bool :=
  match f, g with
  | S754_zero _, S754_zero _ => true
  | S754_infinity a, S754_infinity b => Bool.eqb a b
  | S754_finite s1 m1 e1, S754_finite s2 m2 e2 =>
      let e := Z.min e1 e2 in
      signed s1 m1 * 2 ^ (e1 - e) =? signed s2 m2 * 2 ^ (e2 - e)
  | _, _ => false
  end.

Definition int_of_bool (b : bool) : Z := if b then 1 else 0.

(** equality of two numbers ([bool] is a subclass of [int]: [True == 1]) *)
Definition num_eqb (a b : pyval) : bool :=
  match a, b with
  | PBool x, PBool y => int_of_bool x =? int_of_bool y
  | PBool x, PInt y => int_of_bool x =? y
  | PInt x, PBool y => x =? int_of_bool y
  | PInt x, PInt y => x =? y
  | PFloat f, PBool y => float_eq_int f (int_of_bool y)
  | PFloat f, PInt y => float_eq_int f y
  | PBool x, PFloat g => float_eq_int g (int_of_bool x)
  | PInt x, PFloat g => float_eq_int g x
  | PFloat f, PFloat g => float_eq f g
  | _, _ => false
  end.

(** [hash(v)] succeeds *)
Fixpoint hashable (v : pyval) : bool :=
  match v with
  | PList _ | PSet _ | PDict _ => false
  | PTuple l => forallb hashable l
  | PNone | PBool _ | PInt _ | PFloat _ | PStr _ => true
  end.

(** [a == b] between two hashable values, as a dict compares its keys *)
Fixpoint key_eqb (a b : pyval) : bool :=
  match a with
  | PNone => match b with PNone => true | _ => false end
  | PStr s => match b with PStr t => String.eqb s t | _ => false end
  | PBool _ | PInt _ | PFloat _ => num_eqb a b
  | PTuple l =>
      match b with
      | PTuple m =>
          (fix all2 (l m : list pyval) {struct l} : bool :=
             match l, m with
             | [], [] => true
             | x :: l', y :: m' => key_eqb x y && all2 l' m'
             | _, _ => false
             end) l m
      | _ => false
      end
  | PList _ | PSet _ | PDict _ => false
  end.

(** *** Dictionaries *)

Fixpoint dict_find (d : pydict) (k : pyval) : option pyval :=
  match d with
  | [] => None
  | (k', v) :: r => if key_eqb k' k then Some v else dict_find r k
  end.

Definition dict_lookup (d : pydict) (k : pyval) : res (option pyval) :=
  if hashable k then Ok (dict_find d k) else Raise TypeError.

(** [d[k]] *)
Definition dict_getitem (d : pydict) (k : pyval) : res pyval :=
  (o <- dict_lookup d k ;;
   match o with Some v => Ok v | None => Raise KeyError end)%res.

(** [d.get(k)] *)
Definition dict_get (d : pydict) (k : pyval) : res pyval :=
  (o <- dict_lookup d k ;;
   Ok (match o with Some v => v | None => PNone end))%res.

(** [d[k] = v] on a hashable key: an existing key keeps its place *)
Fixpoint dict_put (d : pydict) (k v : pyval) : pydict :=
  match d with
  | [] => [(k, v)]
  | (k', v') :: r =>
      if key_eqb k' k then (k', v) :: r else (k', v') :: dict_put r k v
  end.

Definition dict_setitem (d : pydict) (k v : pyval) : res pydict :=
  if hashable k then Ok (dict_put d k v) else Raise TypeError.

(** [k in d.keys()] for a string [k] *)
Definition dict_has (d : pydict) (k : string) : bool :=
  match dict_find d (PStr k) with Some _ => true | None => false end.

(** *** Operations on arbitrary objects *)

(** [v[key]] with a string key: only a dict can be subscripted by a string *)
Definition py_subscript (v : pyval) (key : string) : res pyval :=
  match v with
  | PDict d => dict_getitem d (PStr key)
  | _ => Raise TypeError
  end.

(** [v.get(key)]: only a dict has the method *)
Definition py_get (v : pyval) (key : pyval) : res pyval :=
  match v with
  | PDict d => dict_get d key
  | _ => Raise AttributeError
  end.

(** [v.values()], [v.items()], [v.keys()] *)
Definition py_values (v : pyval) : res (list pyval) :=
  match v with
  | PDict d => Ok (map snd d)
  | _ => Raise AttributeError
  end.

Definition py_items (v : pyval) : res pydict :=
  match v with
  | PDict d => Ok d
  | _ => Raise AttributeError
  end.

Definition py_keys (v : pyval) : res (list pyval) :=
  match v with
  | PDict d => Ok (map fst d)
  | _ => Raise AttributeError
  end.

Fixpoint chars (s : string) : list pyval :=
  match s with
  | EmptyString => []
  | String c r => PStr (String c EmptyString) :: chars r
  end.

(** [for x in v]: the elements the iteration yields *)
Definition py_iter (v : pyval) : res (list pyval) :=
  match v with
  | PList l | PTuple l | PSet l => Ok l
  | PDict d => Ok (map fst d)
  | PStr s => Ok (chars s)
  | PNone | PBool _ | PInt _ | PFloat _ => Raise TypeError
  end.

(** [sep.join(items)]: every item has to be a [str] *)
Fixpoint as_strings (items : list pyval) : res (list string) :=
  match items with
  | [] => Ok []
  | PStr s :: r => (ss <- as_strings r ;; Ok (s :: ss))%res
  | _ :: _ => Raise TypeError
  end.

Definition str_join (sep : string) (items : list pyval) : res string :=
  (ss <- as_strings items ;; Ok (PyStr.join sep ss))%res.

(** [v == text] for a string literal [text] *)
Definition str_equals (v : pyval) (text : string) : bool :=
  match v with
  | PStr s => String.eqb s text
  | _ => false
  end.

Definition is_str_or_none (v : pyval) : bool :=
  match v with
  | PStr _ | PNone => true
  | _ => false
  end.

(* ------------------------------------------------------------------ *)
(** ** The libraries behind the code

    What the package imports and this development does not define: the text
    of a float and the [repr] of a string (CPython), [dateutil.parser.parse],
    [datetime.strptime] with the one format the code uses, the zone tables
    of [pytz], [json.loads], the naming rules of [eval] and pydantic's
    [create_model], and the HTTP transport.  The package is defined, and
    the theorems are proved, for any such library; the examples run on the
    reference library that follows the package. *)

Record datetime : Type := mk_datetime {
  year : Z; month : Z; day : Z;
  hour : Z; minute : Z; second : Z; microsecond : Z
}.

Class PyLib : Type := {
  (** [repr(f)], which is also [str(f)], of a float *)
  float_repr : spec_float -> string;
  (** [repr(s)] of a string: quotes chosen, special characters escaped *)
  str_repr : string -> string;
  (** [dateutil.parser.parse(s, fuzzy=False)]: [None] when it returns a
      date, [Some e] when it raises [e] ([ValueError] for an unknown format) *)
  dateutil_parse : string -> option exn;
  (** [datetime.strptime(s, "%Y-%m-%dT%H:%M:%S.%f%z")]: the fields read, or
      [None] for the [ValueError] of a string that does not match *)
  strptime_iso : string -> option datetime;
  (** [pytz.timezone(name)]: the zone's UTC offset in seconds at a UTC
      instant given in seconds since 1970, or [None] for an unknown zone *)
  pytz_timezone : string -> option (Z -> Z);
  (** [json.loads(s)], [None] for a [JSONDecodeError] *)
  json_loads : string -> option pyval;
  (** [name] can be written as a keyword argument in source text: a Python
      identifier that is not a reserved word *)
  is_identifier : string -> bool;
  (** what pydantic's [create_model] raises for a field of that name, if
      anything (a leading underscore, a name of [BaseModel] itself) *)
  pydantic_field_check : string -> option exn;
  (** the body of the response to [GET url] with the given headers *)
  http_get_text : string -> pydict -> string;
  (** [s.lower()]: the lower case that Unicode gives every character *)
  str_lower : string -> string;
  (** [s.strip()]: without the white space, as Unicode has it, at both ends *)
  str_strip : string -> string
}.

Section Package.

Context {L : PyLib}.

(** [repr(v)] *)
Fixpoint py_repr (v : pyval) : string :=
  match v with
  | PNone => "None"
  | PBool true => "True"
  | PBool false => "False"
  | PInt z => PyStr.of_Z z
  | PFloat f => float_repr f
  | PStr s => str_repr s
  | PList l => "[" +:+ PyStr.join ", " (map py_repr l) +:+ "]"
  | PTuple l =>
      match l with
      | [x] => "(" +:+ py_repr x +:+ ",)"
      | _ => "(" +:+ PyStr.join ", " (map py_repr l) +:+ ")"
      end
  | PSet l =>
      match l with
      | [] => "set()"
      | _ => "{" +:+ PyStr.join ", " (map py_repr l) +:+ "}"
      end
  | PDict d =>
      "{" +:+ PyStr.join ", "
                (map (fun kv => let '(k, x) := kv in
                                py_repr k +:+ ": " +:+ py_repr x) d) +:+ "}"
  end.

(** [str(v)], which is also what an f-string field [{v}] prints *)
Definition py_str (v : pyval) : string :=
  match v with
  | PStr s => s
  | _ => py_repr v
  end.

(* ------------------------------------------------------------------ *)
(** ** typing.py *)

(** [join_list_like(lst, sep)] *)
Definition join_list_like (lst : list pyval) (sep : string) : string :=
  match lst with
  | [] => ""
  | _ =>
      PyStr.join sep
        (map (fun v => match v with PNone => "" | _ => py_str v end) lst)
  end.

(** [is_date(string)]: only the [ValueError] of the parser is caught *)
Definition is_date (s : string) : res bool :=
  match dateutil_parse s with
  | None => Ok true
  | Some ValueError => Ok false
  | Some e => Raise e
  end.

(** *** Calendar arithmetic of [datetime] (proleptic Gregorian) *)

(** days from 1970-01-01 to the civil date [y]-[m]-[d] *)
Definition days_from_civil (y m d : Z) : Z :=
  let y' := if m <=? 2 then y - 1 else y in
  let era := y' / 400 in
  let yoe := y' - era * 400 in
  let mp := (m + 9) mod 12 in
  let doy := (153 * mp + 2) / 5 + d - 1 in
  let doe := yoe * 365 + yoe / 4 - yoe / 100 + doy in
  era * 146097 + doe - 719468.

Definition civil_from_days (n : Z) : Z * Z * Z :=
  let z := n + 719468 in
  let era := z / 146097 in
  let doe := z - era * 146097 in
  let yoe := (doe - doe / 1460 + doe / 36524 - doe / 146096) / 365 in
  let doy := doe - (365 * yoe + yoe / 4 - yoe / 100) in
  let mp := (5 * doy + 2) / 153 in
  let d := doy - (153 * mp + 2) / 5 + 1 in
  let m := if mp <? 10 then mp + 3 else mp - 9 in
  let y := yoe + era * 400 in
  (if m <=? 2 then y + 1 else y, m, d).

(** seconds since 1970 of a date-time read as UTC *)
Definition to_epoch (dt : datetime) : Z :=
  days_from_civil (year dt) (month dt) (day dt) * 86400
  + hour dt * 3600 + minute dt * 60 + second dt.

Definition of_epoch (t : Z) (us : Z) : datetime :=
  let '(y, m, d) := civil_from_days (t / 86400) in
  let r := t mod 86400 in
  mk_datetime y m d (r / 3600) ((r mod 3600) / 60) (r mod 60) us.

(** [datetime] holds the years 1 to 9999 *)
Definition in_range (dt : datetime) : res datetime :=
  if (1 <=? year dt) && (year dt <=? 9999) then Ok dt else Raise OverflowError.

(** [dt.replace(tzinfo=utc).astimezone(zone)]: the fields of [dt] are taken
    as UTC, whatever offset the string carried, and moved to the zone *)
Definition astimezone (dt_utc : datetime) (zone : Z -> Z) : res datetime :=
  let t := to_epoch dt_utc in
  in_range (of_epoch (t + zone t) (microsecond dt_utc)).

(** [dt + timedelta(days=n)]: the wall clock moves, the zone stays *)
Definition add_days (dt : datetime) (n : Z) : res datetime :=
  let '(y, m, d) :=
    civil_from_days (days_from_civil (year dt) (month dt) (day dt) + n) in
  in_range (mk_datetime y m d (hour dt) (minute dt) (second dt) (microsecond dt)).

Definition month_name (m : Z) : string :=
  match m with
  | 1 => "January" | 2 => "February" | 3 => "March" | 4 => "April"
  | 5 => "May" | 6 => "June" | 7 => "July" | 8 => "August"
  | 9 => "September" | 10 => "October" | 11 => "November" | _ => "December"
  end.

(** [dt.strftime("%B %d, %Y")] (the year has four digits from 1000 on) *)
Definition strftime_date (dt : datetime) : string :=
  month_name (month dt) +:+ " " +:+ PyStr.two_digits (day dt) +:+ ", "
  +:+ PyStr.of_Z (year dt).

(** [dt.strftime("%m/%d/%Y %I:%M%p")] *)
Definition strftime_stamp (dt : datetime) : string :=
  let h12 := if hour dt mod 12 =? 0 then 12 else hour dt mod 12 in
  PyStr.two_digits (month dt) +:+ "/" +:+ PyStr.two_digits (day dt) +:+ "/"
  +:+ PyStr.of_Z (year dt) +:+ " " +:+ PyStr.two_digits h12 +:+ ":"
  +:+ PyStr.two_digits (minute dt) +:+ (if hour dt <? 12 then "AM" else "PM").

(** the keyword arguments of [cast_to_str]; a missing one is a [KeyError]
    at the place that reads it *)
Record kwargs : Type := mk_kwargs {
  kw_sep : option string;
  kw_tz : option string;
  kw_date_only : option bool
}.

Definition kw_read {A} (o : option A) : res A :=
  match o with Some a => Ok a | None => Raise KeyError end.

(** [cast_to_str(value, **kwargs)] *)
Definition cast_to_str (value : pyval) (kw : kwargs) : res string :=
  match value with
  | PNone => Ok ""
  | PStr s =>
      (b <- is_date s ;;
       if b : bool then
         dt_utc <- match strptime_iso s with
                   | Some dt => Ok dt
                   | None => Raise ValueError
                   end ;;
         tz <- kw_read (kw_tz kw) ;;
         zone <- match pytz_timezone tz with
                 | Some z => Ok z
                 | None => Raise UnknownTimeZoneError
                 end ;;
         dt <- astimezone dt_utc zone ;;
         date_only <- kw_read (kw_date_only kw) ;;
         if date_only : bool then
           dt' <- add_days dt 1 ;;
           Ok (strftime_date dt')
         else Ok (PyStr.lower (strftime_stamp dt))
       else Ok (py_str value))%res
  | PList l | PTuple l | PSet l =>
      (sep <- kw_read (kw_sep kw) ;; Ok (join_list_like l sep))%res
  | PDict d =>
      (sep <- kw_read (kw_sep kw) ;; Ok (join_list_like (map snd d) sep))%res
  | PBool _ | PInt _ | PFloat _ => Ok (py_str value)
  end.

(** [none_filter(x)] *)
Definition none_filter (x : pyval) : string :=
  match x with
  | PNone => ""
  | _ => py_str x
  end.

(* ------------------------------------------------------------------ *)
(** ** _models.py: [ColumnDefinition] *)

Record ColumnDefinition : Type := mk_ColumnDefinition {
  name : string;
  type : string;
  resultType : option string;
  typeOptions : option (list (string * string))
}.

(** the option map as the dict it is *)
Definition options_dict (o : list (string * string)) : pydict :=
  map (fun kv => (PStr (fst kv), PStr (snd kv))) o.

(* ------------------------------------------------------------------ *)
(** ** table_utils.py *)

Definition type_options_of (o : option (list (string * string))) : option pydict :=
  option_map options_dict o.

(** neither a dict nor a list: the elements that go through the option map *)
Definition is_scalar (item : pyval) : bool :=
  match item with
  | PDict _ | PList _ => false
  | _ => true
  end.

(** what one element of the list adds to the flat list *)
Fixpoint flatten_item (type_options : option pydict) (item : pyval) : list pyval :=
  match item with
  | PDict d =>
      [match dict_find d (PStr "foreignRowDisplayName") with
       | Some v => v
       | None => PNone
       end]
  | PList l =>
      (fix each (l : list pyval) : list pyval :=
         match l with
         | [] => []
         | x :: r => flatten_item type_options x ++ each r
         end) l
  | _ =>
      [match type_options with
       | Some d =>
           match dict_getitem d item with
           | Ok v => v
           | Raise _ => item
           end
       | None => item
       end]
  end.

(** [flatten_lookup_column_r(lst, type_options, flat_list)]: a list that is
    empty is replaced by a new one, the elements are visited in order, and
    the flat list is returned *)
Definition flatten_lookup_column_r
  (lst : list pyval) (type_options : option pydict) (flat_list : list pyval)
  : list pyval :=
  fold_left (fun acc item => acc ++ flatten_item type_options item) lst
    (match flat_list with [] => [] | _ => flat_list end).

(** the column map: column id to definition, in insertion order *)
Definition colmap : Type := list (pyval * ColumnDefinition).

Fixpoint colmap_find (m : colmap) (k : pyval) : option ColumnDefinition :=
  match m with
  | [] => None
  | (k', cd) :: r => if key_eqb k' k then Some cd else colmap_find r k
  end.

Fixpoint colmap_put (m : colmap) (k : pyval) (cd : ColumnDefinition) : colmap :=
  match m with
  | [] => [(k, cd)]
  | (k', cd') :: r =>
      if key_eqb k' k then (k', cd) :: r else (k', cd') :: colmap_put r k cd
  end.

(** [col_id_map[k]] *)
Definition colmap_getitem (m : option colmap) (k : pyval) : res ColumnDefinition :=
  match m with
  | None => Raise TypeError
  | Some m =>
      if hashable k then
        match colmap_find m k with
        | Some cd => Ok cd
        | None => Raise KeyError
        end
      else Raise TypeError
  end.

(** [col_id_map.values()] *)
Definition colmap_values (m : option colmap) : res (list ColumnDefinition) :=
  match m with
  | None => Raise AttributeError
  | Some m => Ok (map snd m)
  end.

(** the analyzer's result: Airtable column type to the set of the types of
    its raw values (a set is kept as a list without repetition) *)
Definition dtypes_t : Type := list (string * list pytype).

Definition set_add (t : pytype) (s : list pytype) : list pytype :=
  if existsb (pytype_eqb t) s then s else s ++ [t].

(** [type_collection[ty].add(t)] on a [defaultdict(set)] *)
Fixpoint collect (tc : dtypes_t) (ty : string) (t : pytype) : dtypes_t :=
  match tc with
  | [] => [(ty, [t])]
  | (ty', s) :: r =>
      if String.eqb ty' ty then (ty', set_add t s) :: r
      else (ty', s) :: collect r ty t
  end.

Fixpoint rfold {A B} (f : A -> B -> res A) (l : list B) (a : A) : res A :=
  match l with
  | [] => Ok a
  | x :: r => (a' <- f a x ;; rfold f r a')%res
  end.

(** [ColumnTypeAnalyzer.analyze], the type collection it returns *)
Definition analyze (rows : pyval) (col_id_map : option colmap) : res dtypes_t :=
  (rs <- py_iter rows ;;
   rfold (fun tc r =>
            cur_row <- py_subscript r "cellValuesByColumnId" ;;
            items <- py_items cur_row ;;
            rfold (fun tc kv =>
                     cd <- colmap_getitem col_id_map (fst kv) ;;
                     Ok (collect tc (type cd) (type_of (snd kv))))
                  items tc)
         rs [])%res.

(** [ColumnTypeAnalyzer(raw_rows_json, column_id_map).dtypes] *)
Definition ColumnTypeAnalyzer_dtypes (rows : pyval) (col_id_map : option colmap)
  : res dtypes_t :=
  (_ <- colmap_values col_id_map ;;
   analyze rows col_id_map)%res.

(** [ColumnTypeAnalyzer.get_column_by_type(airtable_col_type)]: the loop of
    the method, over the rows and the column map the analyzer holds *)
Definition get_column_by_type (rows : pyval) (col_id_map : option colmap)
  (airtable_col_type : string) : res (list pyval) :=
  (rs <- py_iter rows ;;
   rfold (fun column_collection r =>
            cur_row <- py_subscript r "cellValuesByColumnId" ;;
            items <- py_items cur_row ;;
            rfold (fun column_collection kv =>
                     cd <- colmap_getitem col_id_map (fst kv) ;;
                     Ok (if String.eqb (type cd) airtable_col_type
                         then column_collection ++ [snd kv]
                         else column_collection))
                  items column_collection)
         rs [])%res.

(** [ColumnTypeAnalyzer(raw_rows_json, column_id_map).get_column_by_type(ty)]:
    the constructor analyzes the table before the method runs *)
Definition ColumnTypeAnalyzer_get_column_by_type (rows : pyval)
  (col_id_map : option colmap) (airtable_col_type : string) : res (list pyval) :=
  (_ <- ColumnTypeAnalyzer_dtypes rows col_id_map ;;
   get_column_by_type rows col_id_map airtable_col_type)%res.

(** [ColumnTypeAnalyzer(...).available_airtable_types]: the keys of [dtypes] *)
Definition available_airtable_types (rows : pyval) (col_id_map : option colmap)
  : res (list string) :=
  (tc <- ColumnTypeAnalyzer_dtypes rows col_id_map ;; Ok (map fst tc))%res.

(* ------------------------------------------------------------------ *)
(** ** _models.py: [create_row_model] *)

Definition dq : string := String PyStr.quote "".

(** [string.punctuation] *)
Definition punctuation : string :=
  "!" +:+ dq +:+ "#$%&'()*+,-./:;<=>?@[\]^_`{|}~".

Definition punct : string := PyStr.replace "_" "" punctuation.

(** [name.strip().lower().translate(str.maketrans("", "", punct)).replace(" ", "_")] *)
Definition field_name_of (nm : string) : string :=
  PyStr.replace " " "_" (PyStr.delete_chars punct (str_lower (str_strip nm))).

(** the dynamic row model: its fields in order, each with the names of the
    types of its annotation *)
Definition row_model : Type := list (string * list string).

Fixpoint has_dup (l : list string) : bool :=
  match l with
  | [] => false
  | x :: r => existsb (String.eqb x) r || has_dup r
  end.

(** the names that [eval] resolves in [_models.py]: the builtin types and [Any] *)
Definition resolvable (t : string) : bool :=
  negb (String.eqb t "NoneType").

Definition first_error (checks : list (option exn)) : option exn :=
  fold_right (fun c rest => match c with Some e => Some e | None => rest end)
             None checks.

(** [eval("create_model('Row', f1=(T | Any, None), ...)")]: the text has to
    parse (identifiers as keywords, none repeated), its type names have to
    resolve, and pydantic has to accept the fields *)
Definition eval_create_model (fields : row_model) : res row_model :=
  let names := map fst fields in
  if negb (forallb is_identifier names) || has_dup names then Raise SyntaxError
  else if negb (forallb (fun f => forallb resolvable (snd f)) fields)
       then Raise NameError
  else match first_error (map pydantic_field_check names) with
       | Some e => Raise e
       | None => Ok fields
       end.

Definition dtypes_get (d : dtypes_t) (ty : string) : list pytype :=
  match find (fun kv => String.eqb (fst kv) ty) d with
  | Some kv => snd kv
  | None => []
  end.

(** [create_row_model(table_dtypes, col_id_map)] *)
Definition create_row_model (table_dtypes : option dtypes_t) (col_id_map : option colmap)
  : res row_model :=
  (cds <- colmap_values col_id_map ;;
   fields <- rmap (fun col_def =>
                     let field_name := field_name_of (name col_def) in
                     d <- match table_dtypes with
                          | Some d => Ok d
                          | None => Raise AttributeError
                          end ;;
                     Ok (field_name,
                         map type_name (dtypes_get d (type col_def)) ++ ["Any"]))
                  cds ;;
   eval_create_model fields)%res.

(** a row record: field name to value, in field order ([model_dump()]) *)
Definition row : Type := list (string * pyval).

Fixpoint sdict_find {A} (d : list (string * A)) (k : string) : option A :=
  match d with
  | [] => None
  | (k', v) :: r => if String.eqb k' k then Some v else sdict_find r k
  end.

(** [d[k] = v] on a dict with string keys *)
Fixpoint sdict_put {A} (d : list (string * A)) (k : string) (v : A) : list (string * A) :=
  match d with
  | [] => [(k, v)]
  | (k', v') :: r =>
      if String.eqb k' k then (k', v) :: r else (k', v') :: sdict_put r k v
  end.

(** [Row] called with the keyword arguments [row_vals]: every declared field, [None] where no value came
    (the annotation ends in [Any], so every value is accepted as it is) *)
Definition Row (model : row_model) (row_vals : list (string * pyval)) : row :=
  map (fun f => (fst f,
                 match sdict_find row_vals (fst f) with
                 | Some v => v
                 | None => PNone
                 end)) model.

(* ------------------------------------------------------------------ *)
(** ** The object and its surroundings

    A scraper object, the records the logger has received, and the URLs the
    HTTP session has been asked for.  A method is a function of this state
    that returns a value or raises, and leaves a new state either way. *)

Inductive level : Type := ERROR | WARNING.

(** a log record: level, the fixed text of the message, and the exception
    that the message interpolates, if any *)
Record log_record : Type := mk_log {
  levelname : level;
  message : string;
  exc : option exn
}.

Record session : Type := mk_session {
  _url : string;
  timezone : string;
  _headers : pydict;
  __page : string;
  _new_url : string;
  _data : pyval;
  __table : pyval;
  __status : string;
  (** [self.__type_handlers] has been assigned *)
  __type_handlers : bool
}.

Record state : Type := mk_state {
  self : session;
  log : list log_record;
  requests : list string
}.

Definition M (A : Type) : Type := state -> res A * state.

Definition ret {A} (a : A) : M A := fun st => (Ok a, st).

Definition bind {A B} (m : M A) (k : A -> M B) : M B :=
  fun st =>
    match m st with
    | (Ok a, st') => k a st'
    | (Raise e, st') => (Raise e, st')
    end.

Definition raise {A} (e : exn) : M A := fun st => (Raise e, st).

Definition lift {A} (r : res A) : M A := fun st => (r, st).

Declare Scope M_scope.
Delimit Scope M_scope with M.
Notation "x <- m ;; k" := (bind m (fun x => k))
  (at level 61, m at next level, right associativity) : M_scope.
Notation "m ;;; k" := (bind m (fun _ => k))
  (at level 61, right associativity) : M_scope.

Definition get_self : M session := fun st => (Ok (self st), st).

Definition set_self (s : session) : M unit :=
  fun st => (Ok tt, mk_state s (log st) (requests st)).

Definition emit (r : log_record) : M unit :=
  fun st => (Ok tt, mk_state (self st) (log st ++ [r]) (requests st)).

(** [logger.error(msg)], [logger.warning(msg)] *)
Definition logger_error (msg : string) (e : option exn) : M unit :=
  emit (mk_log ERROR msg e).

Definition logger_warning (msg : string) : M unit :=
  emit (mk_log WARNING msg None).

(** the body of a property:
    [try: return m  except Exception as e: logger.error(f"{msg}: {e}"); return] *)
Definition guarded {A} (msg : string) (m : M A) : M (option A) :=
  fun st =>
    match m st with
    | (Ok a, st') => (Ok (Some a), st')
    | (Raise e, st') => (Ok None, snd (logger_error msg (Some e) st'))
    end.

(* ------------------------------------------------------------------ *)
(** ** The regular expressions of the text extractors

    Each pattern of the source is a sequence of one-character classes, each
    taken once, greedily ([*], [+]) or lazily ([*?]), around one group.  The
    matcher backtracks in the order of [re]: a greedy class first tries to
    take one more character, a lazy one first tries to stop. *)

Inductive quant : Type := One | Star | Plus | LazyStar.

Inductive item : Type :=
| Atom (c : ascii -> bool) (q : quant)
| Open
| Close.

Definition pattern : Type := list item.

Definition is_char (x : ascii) : ascii -> bool := fun c => Ascii.eqb c x.
Definition not_char (x : ascii) : ascii -> bool := fun c => negb (Ascii.eqb c x).
(** [.] : any character but a newline *)
Definition any_char : ascii -> bool := not_char PyStr.newline.

Fixpoint lit (s : string) : pattern :=
  match s with
  | EmptyString => []
  | String c r => Atom (is_char c) One :: lit r
  end.

Fixpoint star_greedy {R} (c : ascii -> bool) (k : string -> option R) (s : string)
  : option R :=
  match s with
  | String x r =>
      if c x then
        match star_greedy c k r with
        | Some m => Some m
        | None => k s
        end
      else k s
  | EmptyString => k s
  end.

Fixpoint star_lazy {R} (c : ascii -> bool) (k : string -> option R) (s : string)
  : option R :=
  match k s with
  | Some m => Some m
  | None =>
      match s with
      | String x r => if c x then star_lazy c k r else None
      | EmptyString => None
      end
  end.

(** the text left where the group opened and where it closed *)
Definition caps : Type := (string * string)%type.

(** the pattern matched at the start of [s]: the text left after the match *)
Fixpoint match_here (p : pattern) (s : string) (g : caps) : option (string * caps) :=
  match p with
  | [] => Some (s, g)
  | Open :: p' => match_here p' s (s, snd g)
  | Close :: p' => match_here p' s (fst g, s)
  | Atom c One :: p' =>
      match s with
      | String x r => if c x then match_here p' r g else None
      | EmptyString => None
      end
  | Atom c Star :: p' => star_greedy c (fun r => match_here p' r g) s
  | Atom c Plus :: p' =>
      match s with
      | String x r =>
          if c x then star_greedy c (fun r' => match_here p' r' g) r else None
      | EmptyString => None
      end
  | Atom c LazyStar :: p' => star_lazy c (fun r => match_here p' r g) s
  end.

(** a match object: [m.group()] and [m.group(1)] *)
Record rmatch : Type := mk_rmatch { group0 : string; group1 : string }.

Definition upto (s rest : string) : string :=
  String.substring 0 (String.length s - String.length rest) s.

(** [re.search(p, s)]: the first position where the pattern matches *)
Fixpoint re_search (p : pattern) (s : string) : option rmatch :=
  match match_here p s ("", "") with
  | Some (rest, (gs, ge)) => Some (mk_rmatch (upto s rest) (upto gs ge))
  | None =>
      match s with
      | String _ r => re_search p r
      | EmptyString => None
      end
  end.

(** [m.group(1)] and [m.group()] on the result of [re.search], which is
    [None] when nothing matches *)
Definition group_1 (m : option rmatch) : res string :=
  match m with Some r => Ok (group1 r) | None => Raise AttributeError end.

Definition group_0 (m : option rmatch) : res string :=
  match m with Some r => Ok (group0 r) | None => Raise AttributeError end.

Definition ws : item := Atom PyStr.isspace Star.
Definition qt : item := Atom (is_char PyStr.quote) One.
Definition bs : item := Atom (is_char PyStr.backslash) One.
Definition quoted_group : pattern :=
  [qt; Open; Atom (not_char PyStr.quote) Plus; Close; qt].

(** [urlWithParams:\s*\"(.*?)\"] *)
Definition re_urlWithParams : pattern :=
  lit "urlWithParams:" ++ [ws; qt; Open; Atom any_char LazyStar; Close; qt].

(** [var\s*headers\s*=\s*{(.*?)}] *)
Definition re_headers : pattern :=
  lit "var" ++ [ws] ++ lit "headers" ++ [ws] ++ lit "=" ++ [ws] ++ lit "{"
  ++ [Open; Atom any_char LazyStar; Close] ++ lit "}".

(** a backslash, a quote, [applicationId], a backslash, a quote, [\s*:\s*],
    any number of backslashes, then the quoted group closed by a backslash
    and a quote *)
Definition re_applicationId : pattern :=
  [bs; qt] ++ lit "applicationId" ++ [bs; qt; ws] ++ lit ":"
  ++ [ws; Atom (is_char PyStr.backslash) Star; qt; Open;
      Atom (not_char PyStr.quote) Plus; Close; bs; qt].

(** a quoted [url], a colon, [\s*], and the quoted group *)
Definition re_url : pattern :=
  [qt] ++ lit "url" ++ [qt] ++ lit ":" ++ [ws] ++ quoted_group.

(** [requestId:], [\s*], and the quoted group *)
Definition re_requestId : pattern :=
  lit "requestId:" ++ [ws] ++ quoted_group.

(** a quoted [sharedViewId], a colon, [\s*], and the quoted group *)
Definition re_sharedViewId : pattern :=
  [qt] ++ lit "sharedViewId" ++ [qt] ++ lit ":" ++ [ws] ++ quoted_group.

(** a quoted [sharedViewTableId], a colon, [\s*], and the quoted group *)
Definition re_sharedViewTableId : pattern :=
  [qt] ++ lit "sharedViewTableId" ++ [qt] ++ lit ":" ++ [ws] ++ quoted_group.

(* ------------------------------------------------------------------ *)
(** ** airtable_scraper.py: construction and the text extractors *)

Definition with_page (s : session) (p : string) : session :=
  mk_session (_url s) (timezone s) (_headers s) p (_new_url s) (_data s)
             (__table s) (__status s) (__type_handlers s).

Definition with_new_url (s : session) (u : string) : session :=
  mk_session (_url s) (timezone s) (_headers s) (__page s) u (_data s)
             (__table s) (__status s) (__type_handlers s).

Definition with_headers (s : session) (h : pydict) : session :=
  mk_session (_url s) (timezone s) h (__page s) (_new_url s) (_data s)
             (__table s) (__status s) (__type_handlers s).

Definition with_data (s : session) (d : pyval) : session :=
  mk_session (_url s) (timezone s) (_headers s) (__page s) (_new_url s) d
             (__table s) (__status s) (__type_handlers s).

Definition with_table (s : session) (t : pyval) (status : string) : session :=
  mk_session (_url s) (timezone s) (_headers s) (__page s) (_new_url s) (_data s)
             t status (__type_handlers s).

Definition with_type_handlers (s : session) : session :=
  mk_session (_url s) (timezone s) (_headers s) (__page s) (_new_url s) (_data s)
             (__table s) (__status s) true.

(** [self._get(url, headers)]: one request on the HTTP session *)
Definition _get (url : string) (headers : pydict) : M string :=
  fun st =>
    (Ok (http_get_text url headers),
     mk_state (self st) (log st) (requests st ++ [url])).

(** [_get_new_url] *)
Definition _get_new_url : M string :=
  (s <- get_self ;;
   url_with_params <- lift (group_1 (re_search re_urlWithParams (__page s))) ;;
   if String.eqb url_with_params "" then
     logger_error ("Could not parse urlWithParams. Failed to scrape table: " +:+ _url s) None ;;;
     raise RuntimeError
   else
     ret ("https://airtable.com"
          +:+ PyStr.replace "\" "/" (PyStr.replace "u002F" "" url_with_params)))%M.

(** [_get_auth_data] *)
Definition _get_auth_data : M pyval :=
  (s <- get_self ;;
   dirty_auth_json <- lift (group_0 (re_search re_headers (__page s))) ;;
   if String.eqb dirty_auth_json "" then
     logger_error ("Could not parse authorization data. Failed to scrape table: " +:+ _url s) None ;;;
     raise RuntimeError
   else
     match json_loads (PyStr.replace "var headers = " "" dirty_auth_json) with
     | Some v => ret v
     | None => raise JSONDecodeError
     end)%M.

Definition user_agent : string :=
  "Mozilla/5.0 (Macintosh; Intel Mac OS X 10_15_7) AppleWebKit/537.36 (KHTML, like Gecko) Chrome/122.0.0.0 Safari/537.36".

Definition base_headers : list (string * string) :=
  [("Accept", "*/*"); ("Accept-Language", "en-ZA,en;q=0.9");
   ("Cache-Control", "no-cache"); ("Connection", "keep-alive");
   ("Host", "airtable.com"); ("Pragma", "no-cache")].

Definition str_items (l : list (string * string)) : pydict :=
  map (fun kv => (PStr (fst kv), PStr (snd kv))) l.

(** the headers of the first request *)
Definition initial_headers : pydict :=
  str_items (base_headers ++ [("User-Agent", user_agent)]).

Definition sec_ch_ua : string :=
  dq +:+ " Not;A Brand" +:+ dq +:+ ";v=" +:+ dq +:+ "99" +:+ dq +:+ ", "
  +:+ dq +:+ "Google Chrome" +:+ dq +:+ ";v=" +:+ dq +:+ "97" +:+ dq +:+ ", "
  +:+ dq +:+ "Chromium" +:+ dq +:+ ";v=" +:+ dq +:+ "97" +:+ dq.

Definition auth_fields : list string :=
  ["x-early-prefetch"; "x-user-locale"; "x-airtable-application-id";
   "x-airtable-page-load-id"; "X-Requested-With"; "x-airtable-inter-service-client"].

(** [_get_full_headers] *)
Definition _get_full_headers : M pydict :=
  (auth_json <- _get_auth_data ;;
   s <- get_self ;;
   auth <- lift (rmap (fun k => v <- py_subscript auth_json k ;; Ok (PStr k, v))%res
                      auth_fields) ;;
   ret (str_items (base_headers
                   ++ [("sec-ch-ua", sec_ch_ua); ("sec-ch-ua-mobile", "?0");
                       ("sec-ch-ua-platform", dq +:+ "macOS" +:+ dq);
                       ("Sec-Fetch-Dest", "empty"); ("Sec-Fetch-Mode", "cors");
                       ("Sec-Fetch-Site", "none"); ("User-Agent", user_agent);
                       ("x-time-zone", timezone s)])
        ++ auth))%M.

Definition modify (f : session -> session) : M unit :=
  (s <- get_self ;; set_self (f s))%M.

(** [AirtableScraper(url, timezone)]: the two requests and the table *)
Definition __init__ (url tz : string) : M unit :=
  (set_self (mk_session url tz initial_headers "" "" PNone PNone "" false) ;;;
   page <- _get url initial_headers ;;
   modify (fun s => with_page s page) ;;;
   new_url <- _get_new_url ;;
   modify (fun s => with_new_url s new_url) ;;;
   headers <- _get_full_headers ;;
   modify (fun s => with_headers s headers) ;;;
   body <- _get new_url headers ;;
   data <- match json_loads body with
           | Some v => ret v
           | None => raise JSONDecodeError
           end ;;
   modify (fun s => with_data s data) ;;;
   msg <- lift (py_get data (PStr "msg")) ;;
   if str_equals msg "SUCCESS" then
     d <- lift (py_get data (PStr "data")) ;;
     t <- lift (py_get d (PStr "table")) ;;
     modify (fun s => with_table s t "success")
   else modify (fun s => with_table s (PDict []) "failed"))%M.

Definition table_present (s : session) : bool := truthy (__table s).

(** [_get_app_id] *)
Definition _get_app_id : M pyval :=
  (s <- get_self ;;
   if table_present s then lift (py_get (__table s) (PStr "applicationId"))
   else
     h <- lift (dict_get (_headers s) (PStr "x-airtable-application-id")) ;;
     if truthy h then ret h
     else
       g <- lift (group_1 (re_search re_applicationId (__page s))) ;;
       ret (PStr g))%M.

Fixpoint index_of (x : string) (l : list string) (i : nat) : option nat :=
  match l with
  | [] => None
  | y :: r => if String.eqb y x then Some i else index_of x r (S i)
  end.

(** [_get_view_id] *)
Definition _get_view_id : M pyval :=
  (s <- get_self ;;
   if table_present s then
     view_id <- lift (py_get (__table s) (PStr "viewOrder")) ;;
     match view_id with
     | PList l =>
         match l with
         | v :: _ => ret v
         | [] => raise IndexError
         end
     | _ => ret view_id
     end
   else
     view_id <- lift (group_1 (re_search re_url (__page s))) ;;
     if String.eqb view_id "" then
       logger_error "Could not pasrse view id" None ;;; raise RuntimeError
     else
       let view_id_list := PyStr.split "\u002F" view_id in
       match index_of "view" view_id_list O with
       | None => raise ValueError
       | Some i =>
           match nth_error view_id_list (S i) with
           | Some v => ret (PStr v)
           | None => raise IndexError
           end
       end)%M.

(** [_get_request_id] *)
Definition _get_request_id : M string :=
  (s <- get_self ;;
   request_id <- lift (group_1 (re_search re_requestId (__page s))) ;;
   if String.eqb request_id "" then
     logger_error "Could not parse request id. Empty string returned" None ;;;
     ret ""
   else ret request_id)%M.

(** [_get_share_id] *)
Definition _get_share_id : M string :=
  (s <- get_self ;;
   share_id <- lift (group_1 (re_search re_sharedViewId (__page s))) ;;
   if String.eqb share_id "" then
     logger_error "Could not parse share id. Empty string returned" None ;;;
     ret ""
   else ret share_id)%M.

(** [_get_table_id] *)
Definition _get_table_id : M pyval :=
  (s <- get_self ;;
   if table_present s then lift (py_get (__table s) (PStr "id"))
   else
     g <- lift (group_1 (re_search re_sharedViewTableId (__page s))) ;;
     ret (PStr g))%M.

(** the properties [app_id], [view_id], [request_id], [share_id], [table_id]:
    [None] stands for the [None] a property returns after logging *)
Definition app_id : M (option pyval) := guarded "Error getting app ID" _get_app_id.
Definition view_id : M (option pyval) := guarded "Error getting view ID" _get_view_id.
Definition request_id : M (option string) :=
  guarded "Error getting request ID" _get_request_id.
Definition share_id : M (option string) :=
  guarded "Error getting share ID" _get_share_id.
Definition table_id : M (option pyval) := guarded "Error getting table ID" _get_table_id.

(* ------------------------------------------------------------------ *)
(** ** airtable_scraper.py: the schema *)

(** [raw_columns_json] and [raw_rows_json] *)
Definition raw_json (key missing_table missing_key : string) : M pyval :=
  (s <- get_self ;;
   if negb (table_present s) then logger_error missing_table None ;;; ret PNone
   else
     _ <- lift (py_keys (__table s)) ;;
     match __table s with
     | PDict d =>
         if negb (dict_has d key) then logger_error missing_key None ;;; ret PNone
         else lift (dict_get d (PStr key))
     | _ => raise AttributeError
     end)%M.

Definition raw_columns_json : M pyval :=
  raw_json "columns" "Table does not exist. Cannot find column data"
           "Table does not contain column data".

Definition raw_rows_json : M pyval :=
  raw_json "rows" "Table does not exist. Cannot find row data"
           "Table does not contain row data".

(** one entry of the comprehension: [choice["id"]: choice["name"]] *)
Definition add_choice (d : pydict) (choice : pyval) : res pydict :=
  (k <- py_subscript choice "id" ;;
   v <- py_subscript choice "name" ;;
   dict_setitem d k v)%res.

(** the dict comprehension over [col["typeOptions"]["choices"].values()] *)
Definition extract_choices (type_options : pyval) : res pydict :=
  (choices <- py_subscript type_options "choices" ;;
   entries <- py_values choices ;;
   rfold add_choice entries [])%res.

(** pydantic's validation of the fields of a [ColumnDefinition] *)
Definition validate_str (v : pyval) : res string :=
  match v with
  | PStr s => Ok s
  | _ => Raise ValidationError
  end.

Definition validate_optional_str (v : pyval) : res (option string) :=
  match v with
  | PNone => Ok None
  | PStr s => Ok (Some s)
  | _ => Raise ValidationError
  end.

Definition validate_options (o : option pydict) : res (option (list (string * string))) :=
  match o with
  | None => Ok None
  | Some d =>
      (l <- rmap (fun kv => k <- validate_str (fst kv) ;;
                            v <- validate_str (snd kv) ;;
                            Ok (k, v)) d ;;
       Ok (Some l))%res
  end.

(** [ColumnDefinition(name=..., type=..., resultType=..., typeOptions=...)] *)
Definition new_ColumnDefinition (nm ty result_type : pyval) (options : option pydict)
  : res ColumnDefinition :=
  (n <- validate_str nm ;;
   t <- validate_str ty ;;
   r <- validate_optional_str result_type ;;
   o <- validate_options options ;;
   Ok (mk_ColumnDefinition n t r o))%res.

(** the options and the result type that one turn of the loop computes *)
Definition column_options (col : pyval) : res (option pydict * pyval) :=
  (type_options <- py_subscript col "typeOptions" ;;
   if truthy type_options then
     let options :=
       match extract_choices type_options with
       | Ok d => Some d
       | Raise _ => None
       end in
     result_type <- py_get type_options (PStr "resultType") ;;
     Ok (options, result_type)
   else Ok (None, PNone))%res.

(** one turn of the loop of [_get_column_definition]: the key and the
    definition it stores *)
Definition column_entry (col : pyval) : res (pyval * ColumnDefinition) :=
  (' (options, result_type) <- column_options col ;;
   nm <- py_subscript col "name" ;;
   ty <- py_subscript col "type" ;;
   cd <- new_ColumnDefinition nm ty result_type options ;;
   id <- py_subscript col "id" ;;
   if hashable id then Ok (id, cd) else Raise TypeError)%res.

Definition column_dict_of (columns : list pyval) : res colmap :=
  rfold (fun column_dict col =>
           ' (id, cd) <- column_entry col ;;
           Ok (colmap_put column_dict id cd))%res
        columns [].

(** [_get_column_definition] *)
Definition _get_column_definition : M colmap :=
  (s <- get_self ;;
   if negb (table_present s) then
     logger_error "Table don't exist. Cannot get column definitions" None ;;;
     raise RuntimeError
   else
     _ <- lift (py_keys (__table s)) ;;
     match __table s with
     | PDict d =>
         if negb (dict_has d "columns") then
           logger_error "Table does not contain column data" None ;;;
           raise RuntimeError
         else
           columns <- lift (dict_get d (PStr "columns")) ;;
           cols <- lift (py_iter columns) ;;
           lift (column_dict_of cols)
     | _ => raise AttributeError
     end)%M.

(** the properties [column_by_id] and [column_definitions] *)
Definition column_by_id : M (option colmap) :=
  guarded "Error getting column definition" _get_column_definition.

Definition column_definitions : M (option (list ColumnDefinition)) :=
  guarded "Error getting column definition"
          (m <- _get_column_definition ;; ret (map snd m))%M.

(** the property [dtypes] *)
Definition dtypes : M (option dtypes_t) :=
  guarded "Error getting table datatypes"
          (rows <- raw_rows_json ;;
           cm <- column_by_id ;;
           lift (ColumnTypeAnalyzer_dtypes rows cm))%M.

(** the comprehension of [__get_appBlanket_userInfoById] *)
Definition user_info_of (table : pyval) : res pydict :=
  (app_blanket <- py_get table (PStr "appBlanket") ;;
   info <- py_get app_blanket (PStr "userInfoById") ;;
   users <- py_values info ;;
   rfold (fun d user =>
            id <- py_subscript user "id" ;;
            first <- py_subscript user "firstName" ;;
            last <- py_subscript user "lastName" ;;
            full <- str_join " " [first; last] ;;
            dict_setitem d id (PStr full))
         users [])%res.

(** [__get_appBlanket_userInfoById] *)
Definition __get_appBlanket_userInfoById : M (option pydict) :=
  (s <- get_self ;;
   if table_present s then
     match user_info_of (__table s) with
     | Ok d => ret (Some d)
     | Raise _ =>
         logger_warning
           "Warning: No user in table. Ignore if there are no user column in the Airtable" ;;;
         ret None
     end
   else ret None)%M.

(* ------------------------------------------------------------------ *)
(** ** airtable_scraper.py: the cell handlers and the rows *)

Definition handler : Type := pyval -> res pyval.

(** the f-string that puts a text between double quotes *)
Definition quoted (s : string) : pyval := PStr (dq +:+ s +:+ dq).

(** [d.get(k)] on a dict that may be [None] *)
Definition get_of (d : option pydict) (k : pyval) : res pyval :=
  match d with
  | Some d => dict_get d k
  | None => Raise AttributeError
  end.

(** [",".join([f[field] for f in cell_val])] between quotes *)
Definition join_field (field : string) (cell_val : pyval) : res pyval :=
  (fs <- py_iter cell_val ;;
   vals <- rmap (fun f => py_subscript f field) fs ;;
   s <- str_join "," vals ;;
   Ok (quoted s))%res.

Definition cast_kwargs (tz : string) (date_only : bool) : kwargs :=
  mk_kwargs (Some ",") (Some tz) (Some date_only).

(** [self.__type_handlers]: the handlers by Airtable column type.  They read
    [user_by_id], [self.timezone] and the [col_def] of the cell at hand. *)
Definition type_handlers (user_by_id : option pydict) (tz : string)
  (col_def : ColumnDefinition) : list (string * handler) :=
  [ ("autoNumber", fun cell_val => Ok cell_val);
    ("barcode", fun cell_val => py_get cell_val (PStr "text"));
    ("button", fun cell_val => py_get cell_val (PStr "url"));
    ("checkbox", fun cell_val =>
       Ok (if truthy cell_val then PStr "checked" else PNone));
    ("collaborator", fun cell_val => get_of user_by_id cell_val);
    ("computation", fun cell_val => get_of user_by_id cell_val);
    ("count", fun cell_val => Ok cell_val);
    ("date", fun cell_val =>
       (s <- cast_to_str cell_val (cast_kwargs tz true) ;; Ok (quoted s))%res);
    ("foreignKey", join_field "foreignRowDisplayName");
    ("formula", fun cell_val =>
       (s <- cast_to_str cell_val (cast_kwargs tz false) ;; Ok (PStr s))%res);
    ("lookup", fun cell_val =>
       (v <- py_subscript cell_val "valuesByForeignRowId" ;;
        vals <- py_values v ;;
        Ok (quoted (join_list_like
                      (flatten_lookup_column_r
                         vals (type_options_of (typeOptions col_def)) [])
                      ",")))%res);
    ("multilineText", fun cell_val => Ok (quoted (py_str cell_val)));
    ("multipleAttachment", join_field "filename");
    ("multiSelect", fun cell_val =>
       (vals <- py_iter cell_val ;;
        labels <- rmap (fun val => get_of (type_options_of (typeOptions col_def)) val)
                       vals ;;
        s <- str_join "," labels ;;
        Ok (quoted s))%res);
    ("number", fun cell_val => Ok cell_val);
    ("phone", fun cell_val => Ok cell_val);
    ("rating", fun cell_val => Ok cell_val);
    ("richText", fun cell_val =>
       (doc <- py_get cell_val (PStr "documentValue") ;;
        sections <- py_iter doc ;;
        parts <- rmap (fun section => py_subscript section "insert") sections ;;
        s <- str_join "" parts ;;
        Ok (quoted (str_strip s)))%res);
    ("rollup", fun cell_val =>
       (s <- cast_to_str cell_val (cast_kwargs tz false) ;; Ok (quoted s))%res);
    ("select", fun cell_val => get_of (type_options_of (typeOptions col_def)) cell_val);
    ("text", fun cell_val => Ok cell_val) ].

(** the Airtable column types that have a handler *)
Definition known_types : list string :=
  map fst (type_handlers None "" (mk_ColumnDefinition "" "" None None)).

Fixpoint mfold {A B} (f : A -> B -> M A) (l : list B) (a : A) : M A :=
  match l with
  | [] => ret a
  | x :: r => (a' <- f a x ;; mfold f r a')%M
  end.

Fixpoint mmap {A B} (f : A -> M B) (l : list A) : M (list B) :=
  match l with
  | [] => ret []
  | x :: r => (y <- f x ;; ys <- mmap f r ;; ret (y :: ys))%M
  end.

Definition unknown_type_warning (ty : string) : log_record :=
  mk_log WARNING ("Error: Table contains unknown Airtable column type: " +:+ ty) None.

(** [self.column_by_id.get(col_id)] followed by the read of its [name] *)
Definition column_of (cm : option colmap) (col_id : pyval) : res ColumnDefinition :=
  match cm with
  | None => Raise AttributeError
  | Some m =>
      if hashable col_id then
        match colmap_find m col_id with
        | Some cd => Ok cd
        | None => Raise AttributeError
        end
      else Raise TypeError
  end.

(** the body of the inner loop of [_get_table_data]: one cell of a row *)
Definition cell_step (user_by_id : option pydict) (row_vals : list (string * pyval))
  (cell : pyval * pyval) : M (list (string * pyval)) :=
  (let '(col_id, cell_val) := cell in
   cm <- column_by_id ;;
   col_def <- lift (column_of cm col_id) ;;
   let col_name_key := field_name_of (name col_def) in
   s <- get_self ;;
   row_col_val <-
     match sdict_find (type_handlers user_by_id (timezone s) col_def) (type col_def) with
     | Some handler => lift (handler cell_val)
     | None => emit (unknown_type_warning (type col_def)) ;;; ret cell_val
     end ;;
   ret (sdict_put row_vals col_name_key row_col_val))%M.

(** the cells of every raw row:
    [rows_list = [r["cellValuesByColumnId"] for r in self.raw_rows_json]] and
    [row_items = [d.items() for d in rows_list]] *)
Definition row_items_of (raw_rows : pyval) : res (list pydict) :=
  (rs <- py_iter raw_rows ;;
   rows_list <- rmap (fun r => py_subscript r "cellValuesByColumnId") rs ;;
   rmap py_items rows_list)%res.

(** [_get_table_data] *)
Definition _get_table_data : M (list row) :=
  (user_by_id <- __get_appBlanket_userInfoById ;;
   modify with_type_handlers ;;;
   table_dtypes <- dtypes ;;
   col_id_map <- column_by_id ;;
   model <- lift (create_row_model table_dtypes col_id_map) ;;
   raw_rows <- raw_rows_json ;;
   row_items <- lift (row_items_of raw_rows) ;;
   mmap (fun cells =>
           row_vals <- mfold (cell_step user_by_id) cells [] ;;
           ret (Row model row_vals))
        row_items)%M.

(** the property [data] *)
Definition data : M (option (list row)) :=
  guarded "Error getting table data" _get_table_data.

(* ------------------------------------------------------------------ *)
(** ** airtable_scraper.py: [to_dict] *)

Definition record : Type := list (string * string).

Inductive to_dict_result : Type :=
| Records (rows : list record)
| Index (rows : list (string * record)).

Definition getitem {A} (d : list (string * A)) (k : string) : res A :=
  match sdict_find d k with
  | Some v => Ok v
  | None => Raise KeyError
  end.

(** the first comprehension: every value through [none_filter] *)
Definition filter_row (r : row) : res record :=
  rfold (fun acc k => v <- getitem r k ;; Ok (sdict_put acc k (none_filter v)))%res
        (map fst r) [].

Fixpoint enumerate {A} (l : list A) (start : nat) : list (nat * A) :=
  match l with
  | [] => []
  | x :: r => (start, x) :: enumerate r (S start)
  end.

(** the second comprehension: the keys become the column names *)
Definition rename_row (header : list string) (r : record) : res record :=
  rfold (fun acc jv =>
           h <- match nth_error header (fst jv) with
                | Some h => Ok h
                | None => Raise IndexError
                end ;;
           v <- getitem r (snd jv) ;;
           Ok (sdict_put acc h v))%res
        (enumerate (map fst r) O) [].

(** the third comprehension: the double quotes removed from every value *)
Definition strip_quotes (r : record) : record :=
  fold_left (fun acc kv => sdict_put acc (fst kv) (PyStr.replace dq "" (snd kv))) r [].

Definition records_of (res : to_dict_result) : list record :=
  match res with
  | Records rows => rows
  | Index rows => map snd rows
  end.

(** [to_dict(orient, pass_to_json)] *)
Definition to_dict (orient : string) (pass_to_json : bool) : M to_dict_result :=
  (if negb (existsb (String.eqb orient) ["records"; "index"]) then raise AssertionError
   else
     d <- data ;;
     rows <- match d with
             | Some rows => ret rows
             | None => raise TypeError
             end ;;
     cm <- column_by_id ;;
     cds <- lift (colmap_values cm) ;;
     let header := map name cds in
     rows <- lift (rmap (fun r => (f <- filter_row r ;; rename_row header f)%res) rows) ;;
     let rows := if pass_to_json then rows else map strip_quotes rows in
     if String.eqb orient "records" then ret (Records rows)
     else
       ret (Index (map (fun ir => ("row" +:+ PyStr.of_Z (Z.of_nat (fst ir)), snd ir))
                       (enumerate rows 1%nat))))%M.

(* ------------------------------------------------------------------ *)
(** ** [json.dumps] of the result of [to_dict]

    The text that [json.dumps] gives, with its default arguments, for a
    list or a dict of dicts of strings: the items separated by a comma and
    a space, a key and its value by a colon and a space, and in a string
    every character escaped that is a double quote, a backslash or outside
    the printable ASCII characters. *)

Definition json_hex (n : nat) : ascii :=
  if (n <? 10)%nat then ascii_of_nat (48 + n) else ascii_of_nat (87 + n).

Definition escaped (c : ascii) : string := String PyStr.backslash (String c "").

Definition json_escape (c : ascii) : string :=
  let n := nat_of_ascii c in
  if Ascii.eqb c PyStr.quote then escaped PyStr.quote
  else if Ascii.eqb c PyStr.backslash then escaped PyStr.backslash
  else if (n =? 10)%nat then escaped "n"
  else if (n =? 13)%nat then escaped "r"
  else if (n =? 9)%nat then escaped "t"
  else if (n =? 8)%nat then escaped "b"
  else if (n =? 12)%nat then escaped "f"
  else if ((32 <=? n) && (n <=? 126))%nat then String c ""
  else escaped "u" +:+ "00"
       +:+ String (json_hex (n / 16)) (String (json_hex (n mod 16)) "").

Fixpoint json_escape_all (s : string) : string :=
  match s with
  | EmptyString => ""
  | String c r => json_escape c +:+ json_escape_all r
  end.

Definition json_string (s : string) : string := dq +:+ json_escape_all s +:+ dq.

Definition json_record (r : record) : string :=
  "{" +:+ PyStr.join ", "
            (map (fun kv => json_string (fst kv) +:+ ": " +:+ json_string (snd kv)) r)
  +:+ "}".

(** [json.dumps(rows_to_write)] *)
Definition json_dumps (rows_to_write : to_dict_result) : string :=
  match rows_to_write with
  | Records rows => "[" +:+ PyStr.join ", " (map json_record rows) +:+ "]"
  | Index rows =>
      "{" +:+ PyStr.join ", "
                (map (fun kv => json_string (fst kv) +:+ ": " +:+ json_record (snd kv))
                     rows)
      +:+ "}"
  end.

(** a backslash and a double quote: the text that [to_json] removes *)
Definition escaped_quote : string := escaped PyStr.quote.

(* ------------------------------------------------------------------ *)
(** ** airtable_scraper.py: [to_csv] and [to_json]

    The download of the view goes through [requests.get], outside the HTTP
    session of the object; a [response] is what the code reads of its
    answer.  The request is recorded with those of the session.  The suffix
    of a path is the one [pathlib] gives.  A path is given as a string.
    [to_json] reads a downloaded text with [csv.DictReader]. *)

Record response : Type := mk_response {
  status_code : Z;
  (** [resp.text], read with the encoding ["utf-8-sig"] *)
  resp_text : string;
  (** [resp.content] *)
  resp_content : string
}.

(** what [to_csv] and [to_json] hand back: the text returned, or the text
    written at the path before [None] is returned *)
Inductive export_result : Type :=
| Returned (text : string)
| Written (path : string) (text : string).

Definition nl : string := String PyStr.newline "".

Section Download.

(** [requests.get(url, headers=headers)] *)
Variable requests_get : string -> pydict -> response.

(** [Path(path).suffix] *)
Variable path_suffix : string -> string.

(** [__get_stringified_object_params] *)
Definition __get_stringified_object_params : M string :=
  (s <- get_self ;;
   url_with_params <- lift (group_1 (re_search re_urlWithParams (__page s))) ;;
   if String.eqb url_with_params "" then
     logger_error ("Could not parse urlWithParams. Failed to download table as csv: "
                   +:+ _url s) None ;;;
     raise RuntimeError
   else
     let url_with_params :=
       PyStr.replace "\" "/" (PyStr.replace "u002F" "" url_with_params) in
     ret (PyStr.replace "stringifiedObjectParams=" ""
            (last (PyStr.split "?" (last (PyStr.split "/" url_with_params) "")) "")))%M.

(** [_get_download_csv_url] called with the keyword arguments [kwargs] *)
Definition _get_download_csv_url (kwargs : list (string * pyval)) : res string :=
  (view <- getitem kwargs "viewId" ;;
   tz <- getitem kwargs "x-time-zone" ;;
   locale <- getitem kwargs "x-user-locale" ;;
   app <- getitem kwargs "x-airtable-application-id" ;;
   params <- getitem kwargs "stringifiedObjectParams" ;;
   Ok ("https://airtable.com/v0.3/view/" +:+ py_str view
       +:+ "/downloadCsv?x-time-zone=" +:+ py_str tz
       +:+ "&x-user-locale=" +:+ py_str locale
       +:+ "&x-airtable-application-id=" +:+ py_str app
       +:+ "&stringifiedObjectParams=" +:+ py_str params))%res.

Definition csv_headers : pydict :=
  str_items [("User-Agent", user_agent); ("Accept", "text/html");
             ("Accept-Language", "en")].

(** the request of the download *)
Definition download (url : string) : M response :=
  fun st =>
    (Ok (requests_get url csv_headers),
     mk_state (self st) (log st) (requests st ++ [url])).

(** [__get_csv_from_download_csv] *)
Definition __get_csv_from_download_csv : M (option string) :=
  (auth_json <- _get_auth_data ;;
   str_object_params <- __get_stringified_object_params ;;
   view <- view_id ;;
   s <- get_self ;;
   locale <- lift (py_subscript auth_json "x-user-locale") ;;
   app <- lift (py_subscript auth_json "x-airtable-application-id") ;;
   url <- lift (_get_download_csv_url
                  [("viewId", match view with Some v => v | None => PNone end);
                   ("x-time-zone", PStr (timezone s));
                   ("x-user-locale", locale);
                   ("x-airtable-application-id", app);
                   ("stringifiedObjectParams", PStr str_object_params)]) ;;
   resp <- download url ;;
   if status_code resp =? 200 then ret (Some (resp_text resp))
   else
     body <- match json_loads (resp_content resp) with
             | Some v => ret v
             | None => raise JSONDecodeError
             end ;;
     logger_warning ("Error " +:+ PyStr.of_Z (status_code resp) +:+ ": " +:+ py_str body) ;;;
     ret None)%M.

(** the text that [to_csv] builds from the rows when the download gave none *)
Definition csv_of_rows (cds : list ColumnDefinition) (rows : list row) : string :=
  let stringified_rows :=
    map (fun r => PyStr.join "," (map (fun kv => none_filter (snd kv)) r)) rows in
  let body := PyStr.join nl stringified_rows in
  let header := PyStr.join "," (map name cds) +:+ nl in
  header +:+ body.

(** [to_csv(path)] *)
Definition to_csv (path : option string) : M export_result :=
  (downloaded <- __get_csv_from_download_csv ;;
   csv <- match downloaded with
          | Some (String c r) => ret (String c r)
          | _ =>
              d <- data ;;
              rows <- match d with
                      | Some rows => ret rows
                      | None => raise TypeError
                      end ;;
              cm <- column_by_id ;;
              cds <- lift (colmap_values cm) ;;
              ret (csv_of_rows cds rows)
          end ;;
   match path with
   | Some (String c r) =>
       if String.eqb (PyStr.lower (path_suffix (String c r))) ".csv"
       then ret (Written (String c r) csv)
       else raise AssertionError
   | _ => ret (Returned csv)
   end)%M.

(** [json.dumps(list(csv.DictReader(StringIO(data))))] *)
Variable csv_to_json : string -> string.

(** [to_json(path)] *)
Definition to_json (path : option string) : M export_result :=
  (downloaded <- __get_csv_from_download_csv ;;
   json_data <- match downloaded with
                | Some (String c r) => ret (csv_to_json (String c r))
                | _ =>
                    rows_to_write <- to_dict "records" true ;;
                    let json_data := json_dumps rows_to_write in
                    ret (PyStr.replace escaped_quote ""
                           (PyStr.replace escaped_quote "" json_data))
                end ;;
   match path with
   | Some (String c r) =>
       if String.eqb (PyStr.lower (path_suffix (String c r))) ".json"
       then ret (Written (String c r) json_data)
       else raise AssertionError
   | _ => ret (Returned json_data)
   end)%M.

End Download.

End Package.

(* ------------------------------------------------------------------ *)
(** ** A reference library

    A small library on which the model runs.  It is exact on what the
    examples below use and narrower than the real one elsewhere:
    - a float is printed exactly when it is a zero, an infinity, nan, or an
      integer below 10^16; any other float is printed as its mantissa and
      exponent, which is not the text CPython gives;
    - [repr] of a string follows CPython on ASCII text;
    - a date is a text of the one shape Airtable sends,
      [YYYY-MM-DDTHH:MM:SS.fffZ], and [dateutil] and [strptime] accept no
      other;
    - the zones are UTC and America/New_York, the latter by the rule in force
      since 2007 (second Sunday of March to first Sunday of November);
    - [json.loads] reads null, the booleans, integers, strings without
      escapes, arrays and objects;
    - the server knows one shared view: it answers its address with a page
      and the address found in that page with the table, whatever the
      headers, and answers anything else with an empty body;
    - a field name is an identifier of letters of ASCII and of Latin-1,
      digits and underscores that is no reserved word, and pydantic refuses
      a leading underscore;
    - [str.lower] knows the letters of ASCII and of Latin-1 (a text is read
      as UTF-8), and [str.strip] every white space of Unicode. *)

Module Reference.

Definition hex_digit (n : nat) : ascii :=
  ascii_of_nat (if (n <? 10)%nat then 48 + n else 87 + n).

Definition escape_char (q : ascii) (c : ascii) : string :=
  let n := nat_of_ascii c in
  if Ascii.eqb c q || Ascii.eqb c PyStr.backslash then String PyStr.backslash (String c "")
  else if (n =? 9)%nat then "\t"
  else if (n =? 10)%nat then "\n"
  else if (n =? 13)%nat then "\r"
  else if (n <? 32)%nat || (n =? 127)%nat then
    "\x" +:+ String (hex_digit (n / 16)) (String (hex_digit (n mod 16)) "")
  else String c "".

Fixpoint escape (q : ascii) (s : string) : string :=
  match s with
  | EmptyString => EmptyString
  | String c r => escape_char q c +:+ escape q r
  end.

Definition apostrophe : ascii := PyStr.chr 39.

Definition repr_of_str (s : string) : string :=
  let q := if PyStr.mem_char apostrophe s && negb (PyStr.mem_char PyStr.quote s)
           then PyStr.quote else apostrophe in
  String q (escape q s) +:+ String q "".

Definition float_text (f : spec_float) : string :=
  match f with
  | S754_zero s => if s then "-0.0" else "0.0"
  | S754_infinity s => if s then "-inf" else "inf"
  | S754_nan => "nan"
  | S754_finite s m e =>
      if (0 <=? e) && (Z.pos m * 2 ^ e <? 10 ^ 16)
      then PyStr.of_Z (signed s m * 2 ^ e) +:+ ".0"
      else PyStr.of_Z (signed s m) +:+ "*2**" +:+ PyStr.of_Z e
  end.

Definition digit_val (c : ascii) : option Z :=
  if PyStr.isdigit c then Some (Z.of_nat (nat_of_ascii c) - 48) else None.

(** the number written by exactly [n] digits at the start of [s], and the rest *)
Fixpoint digits (n : nat) (s : string) (acc : Z) : option (Z * string) :=
  match n with
  | O => Some (acc, s)
  | S k =>
      match s with
      | String c r =>
          match digit_val c with
          | Some d => digits k r (acc * 10 + d)
          | None => None
          end
      | EmptyString => None
      end
  end.

Definition expect (c : string) (s : string) : option string :=
  if String.prefix c s then Some (PyStr.drop (String.length c) s) else None.

(** one to six digits and then [Z], the end of the text: the microseconds *)
Fixpoint fraction (fuel : nat) (s : string) (acc : Z) (seen : nat) : option Z :=
  match fuel with
  | O => None
  | S k =>
      match s with
      | String c r =>
          match digit_val c with
          | Some d => fraction k r (acc * 10 + d) (S seen)
          | None =>
              if String.eqb s "Z" && (1 <=? seen)%nat
              then Some (acc * 10 ^ Z.of_nat (6 - seen)) else None
          end
      | EmptyString => None
      end
  end.

Definition is_leap (y : Z) : bool :=
  ((y mod 4 =? 0) && negb (y mod 100 =? 0)) || (y mod 400 =? 0).

Definition days_in_month (y m : Z) : Z :=
  match m with
  | 2 => if is_leap y then 29 else 28
  | 4 | 6 | 9 | 11 => 30
  | _ => 31
  end.

Definition bind_opt {A B} (o : option A) (k : A -> option B) : option B :=
  match o with Some a => k a | None => None end.

Definition parse_iso (s : string) : option datetime :=
  bind_opt (digits 4 s 0) (fun '(y, s) =>
  bind_opt (expect "-" s) (fun s =>
  bind_opt (digits 2 s 0) (fun '(m, s) =>
  bind_opt (expect "-" s) (fun s =>
  bind_opt (digits 2 s 0) (fun '(d, s) =>
  bind_opt (expect "T" s) (fun s =>
  bind_opt (digits 2 s 0) (fun '(h, s) =>
  bind_opt (expect ":" s) (fun s =>
  bind_opt (digits 2 s 0) (fun '(mi, s) =>
  bind_opt (expect ":" s) (fun s =>
  bind_opt (digits 2 s 0) (fun '(sec, s) =>
  bind_opt (expect "." s) (fun s =>
  bind_opt (fraction 7 s 0 0) (fun us =>
  if (1 <=? y) && (1 <=? m) && (m <=? 12) && (1 <=? d)
     && (d <=? days_in_month y m) && (h <? 24) && (mi <? 60) && (sec <? 60)
  then Some (mk_datetime y m d h mi sec us) else None))))))))))))).

Definition parse_date (s : string) : option exn :=
  match parse_iso s with
  | Some _ => None
  | None => Some ValueError
  end.

(** the first Sunday on or after the day [n] (days since 1970-01-01, a Thursday) *)
Definition sunday_from (n : Z) : Z := n + (7 - (n + 4) mod 7) mod 7.

Definition new_york (t : Z) : Z :=
  let '(y, _, _) := civil_from_days (t / 86400) in
  let start := (sunday_from (days_from_civil y 3 1) + 7) * 86400 + 7 * 3600 in
  let stop := sunday_from (days_from_civil y 11 1) * 86400 + 6 * 3600 in
  if (start <=? t) && (t <? stop) then -14400 else -18000.

Definition zone_of (tz : string) : option (Z -> Z) :=
  if String.eqb tz "UTC" then Some (fun _ => 0)
  else if String.eqb tz "America/New_York" then Some new_york
  else None.

Definition isalpha_ (c : ascii) : bool :=
  let n := nat_of_ascii c in
  ((65 <=? n) && (n <=? 90) || (97 <=? n) && (n <=? 122) || (n =? 95))%nat.

Fixpoint all_chars (p : ascii -> bool) (s : string) : bool :=
  match s with
  | EmptyString => true
  | String c r => p c && all_chars p r
  end.

Definition keywords : list string :=
  ["False"; "None"; "True"; "and"; "as"; "assert"; "async"; "await"; "break";
   "class"; "continue"; "def"; "del"; "elif"; "else"; "except"; "finally";
   "for"; "from"; "global"; "if"; "import"; "in"; "is"; "lambda"; "nonlocal";
   "not"; "or"; "pass"; "raise"; "return"; "try"; "while"; "with"; "yield"].

(** the characters of an identifier: a letter of ASCII or of Latin-1
    (U+00C0 to U+00FF but the signs U+00D7 and U+00F7, two bytes in UTF-8),
    the underscore, and a digit after the first character *)
Fixpoint identifier_chars (first : bool) (s : string) : bool :=
  match s with
  | EmptyString => true
  | String a r =>
      if (nat_of_ascii a =? 195)%nat then
        match r with
        | String b r' =>
            let y := nat_of_ascii b in
            ((128 <=? y) && (y <=? 191) && negb (y =? 151) && negb (y =? 183))%nat
            && identifier_chars false r'
        | EmptyString => false
        end
      else (isalpha_ a || negb first && PyStr.isdigit a) && identifier_chars false r
  end.

Definition identifier (s : string) : bool :=
  match s with
  | EmptyString => false
  | String _ _ =>
      identifier_chars true s && negb (existsb (String.eqb s) keywords)
  end.

Definition field_check (s : string) : option exn :=
  if String.prefix "_" s then Some NameError else None.

(** *** Reading JSON *)

Definition json_space (c : ascii) : bool :=
  let n := nat_of_ascii c in ((n =? 32) || (n =? 9) || (n =? 10) || (n =? 13))%nat.

Fixpoint skip_space (s : string) : string :=
  match s with
  | String c r => if json_space c then skip_space r else s
  | EmptyString => s
  end.

(** the characters up to the closing quote; [acc] is what was read, reversed *)
Fixpoint read_string (s : string) (acc : string) : option (string * string) :=
  match s with
  | EmptyString => None
  | String c r =>
      if Ascii.eqb c PyStr.quote then Some (PyStr.rev_string acc "", r)
      else if Ascii.eqb c PyStr.backslash then None
      else read_string r (String c acc)
  end.

Fixpoint read_digits (s : string) (acc : Z) (seen : bool) : option (Z * string) :=
  match s with
  | String c r =>
      match digit_val c with
      | Some d => read_digits r (acc * 10 + d) true
      | None => if seen then Some (acc, s) else None
      end
  | EmptyString => if seen then Some (acc, s) else None
  end.

Definition next_is (c : string) (s : string) : option string :=
  expect c (skip_space s).

Fixpoint read_value (fuel : nat) (s : string) : option (pyval * string) :=
  match fuel with
  | O => None
  | S f =>
      let t := skip_space s in
      match t with
      | EmptyString => None
      | String c r =>
          if Ascii.eqb c PyStr.quote then
            bind_opt (read_string r "") (fun '(x, rest) => Some (PStr x, rest))
          else if String.prefix "[" t then
            match next_is "]" r with
            | Some rest => Some (PList [], rest)
            | None => bind_opt (read_items f r) (fun '(l, rest) => Some (PList l, rest))
            end
          else if String.prefix "{" t then
            match next_is "}" r with
            | Some rest => Some (PDict [], rest)
            | None =>
                bind_opt (read_members f r) (fun '(l, rest) =>
                  Some (PDict (fold_left (fun d kv => dict_put d (fst kv) (snd kv)) l []),
                        rest))
            end
          else if String.prefix "null" t then Some (PNone, PyStr.drop 4 t)
          else if String.prefix "true" t then Some (PBool true, PyStr.drop 4 t)
          else if String.prefix "false" t then Some (PBool false, PyStr.drop 5 t)
          else if String.prefix "-" t then
            bind_opt (read_digits r 0 false) (fun '(z, rest) => Some (PInt (- z), rest))
          else bind_opt (read_digits t 0 false) (fun '(z, rest) => Some (PInt z, rest))
      end
  end
with read_items (fuel : nat) (s : string) : option (list pyval * string) :=
  match fuel with
  | O => None
  | S f =>
      bind_opt (read_value f s) (fun '(v, rest) =>
        match next_is "," rest with
        | Some rest' =>
            bind_opt (read_items f rest') (fun '(vs, rest'') => Some (v :: vs, rest''))
        | None => bind_opt (next_is "]" rest) (fun rest' => Some ([v], rest'))
        end)
  end
with read_members (fuel : nat) (s : string) : option (pydict * string) :=
  match fuel with
  | O => None
  | S f =>
      bind_opt (next_is (String PyStr.quote "") s) (fun r =>
      bind_opt (read_string r "") (fun '(k, rest) =>
      bind_opt (next_is ":" rest) (fun rest =>
      bind_opt (read_value f rest) (fun '(v, rest) =>
        match next_is "," rest with
        | Some rest' =>
            bind_opt (read_members f rest') (fun '(ms, rest'') =>
              Some ((PStr k, v) :: ms, rest''))
        | None => bind_opt (next_is "}" rest) (fun rest' => Some ([(PStr k, v)], rest'))
        end))))
  end.

Definition loads (s : string) : option pyval :=
  bind_opt (read_value (S (String.length s)) s) (fun '(v, rest) =>
    match skip_space rest with
    | EmptyString => Some v
    | _ => None
    end).

(** *** The shared view the server knows *)

(** a text in which the apostrophes stand for double quotes *)
Fixpoint with_quotes (s : string) : string :=
  match s with
  | EmptyString => EmptyString
  | String c r =>
      String (if Ascii.eqb c apostrophe then PyStr.quote else c) (with_quotes r)
  end.

Definition view_address : string := "https://airtable.com/appSample/shrSample".

Definition view_page : string :=
  with_quotes
    ("<html><script>window.initData = {'sharedViewId':'shrSample',"
     +:+ "'sharedViewTableId':'tblSample'}; window.__stashedPrefetch = {"
     +:+ "urlWithParams: '\u002Fv0.3\u002Fview\u002FviwSample\u002FreadSharedViewData"
     +:+ "?stringifiedObjectParams=%7B%7D', requestId: 'reqSample'}; "
     +:+ "var headers = {'x-airtable-application-id':'appSample',"
     +:+ "'x-airtable-page-load-id':'pglSample','x-early-prefetch':'true',"
     +:+ "'x-user-locale':'en','X-Requested-With':'XMLHttpRequest',"
     +:+ "'x-airtable-inter-service-client':'webClient'};</script></html>").

Definition table_address : string :=
  "https://airtable.com/v0.3/view/viwSample/readSharedViewData?stringifiedObjectParams=%7B%7D".

Definition table_body : string :=
  with_quotes
    ("{'msg':'SUCCESS','data':{'table':{'id':'tblSample','applicationId':'appSample',"
     +:+ "'viewOrder':['viwSample'],'columns':["
     +:+ "{'id':'fldName','name':'Full Name','type':'text','typeOptions':null},"
     +:+ "{'id':'fldAmount','name':'Amount ($)','type':'number','typeOptions':null},"
     +:+ "{'id':'fldStatus','name':'Status','type':'select','typeOptions':"
     +:+ "{'choices':{'selA':{'id':'selA','name':'Open'},"
     +:+ "'selB':{'id':'selB','name':'Done'}}}},"
     +:+ "{'id':'fldWhen','name':'When','type':'date','typeOptions':null},"
     +:+ "{'id':'fldOdd','name':'Mystery','type':'unknownType','typeOptions':null}],"
     +:+ "'rows':[{'id':'rec1','cellValuesByColumnId':{'fldName':'Ada','fldAmount':5,"
     +:+ "'fldStatus':'selB','fldWhen':'2024-01-01T00:00:00.000Z','fldOdd':[1,2]}},"
     +:+ "{'id':'rec2','cellValuesByColumnId':{'fldName':'Bob','fldOdd':'raw'}}],"
     +:+ "'appBlanket':{'userInfoById':{'usr1':{'id':'usr1','firstName':'Ada',"
     +:+ "'lastName':'Lovelace'}}}}}}").

(** *** The case and the white space of Unicode, on UTF-8 text *)

(** the number of bytes of the white space character that starts [s], if
    one does: the ASCII ones, U+0085, U+00A0, U+1680, U+2000 to U+200A,
    U+2028, U+2029, U+202F, U+205F and U+3000 *)
Definition space_width (s : string) : nat :=
  match s with
  | EmptyString => 0
  | String a r =>
      let x := nat_of_ascii a in
      if PyStr.isspace a then 1
      else
        match r with
        | String b r' =>
            let y := nat_of_ascii b in
            if ((x =? 194) && ((y =? 133) || (y =? 160)))%nat then 2
            else
              match r' with
              | String c _ =>
                  let z := nat_of_ascii c in
                  if ((x =? 225) && (y =? 154) && (z =? 128)
                      || (x =? 226) && (y =? 128)
                         && ((128 <=? z) && (z <=? 138) || (z =? 168) || (z =? 169)
                             || (z =? 175))
                      || (x =? 226) && (y =? 129) && (z =? 159)
                      || (x =? 227) && (y =? 128) && (z =? 128))%nat
                  then 3 else 0
              | EmptyString => 0
              end
        | EmptyString => 0
        end
  end.

(** [skip] counts the bytes of a white space character still to be dropped *)
Fixpoint lstrip_text (skip : nat) (s : string) : string :=
  match s with
  | EmptyString => EmptyString
  | String _ r =>
      match skip with
      | S k => lstrip_text k r
      | O =>
          match space_width s with
          | O => s
          | S k => lstrip_text k r
          end
      end
  end.

(** [s] is made of white space only *)
Fixpoint blank (skip : nat) (s : string) : bool :=
  match s with
  | EmptyString => true
  | String _ r =>
      match skip with
      | S k => blank k r
      | O =>
          match space_width s with
          | O => false
          | S k => blank k r
          end
      end
  end.

Fixpoint rstrip_text (s : string) : string :=
  match s with
  | EmptyString => EmptyString
  | String a r => if blank 0 s then EmptyString else String a (rstrip_text r)
  end.

Definition strip_text (s : string) : string := rstrip_text (lstrip_text 0 s).

(** the letters A to Z, and U+00C0 to U+00DE but the sign U+00D7 *)
Fixpoint lower_text (s : string) : string :=
  match s with
  | EmptyString => EmptyString
  | String a r =>
      if (nat_of_ascii a =? 195)%nat then
        match r with
        | String b r' =>
            let y := nat_of_ascii b in
            String a
              (String (if ((128 <=? y) && (y <=? 158) && negb (y =? 151))%nat
                       then ascii_of_nat (y + 32) else b)
                      (lower_text r'))
        | EmptyString => String a EmptyString
        end
      else String (PyStr.lower_char a) (lower_text r)
  end.

Definition serve (url : string) (headers : pydict) : string :=
  if String.eqb url view_address then view_page
  else if String.eqb url table_address then table_body
  else "".

#[export] Instance lib : PyLib := {|
  float_repr := float_text;
  str_repr := repr_of_str;
  dateutil_parse := parse_date;
  strptime_iso := parse_iso;
  pytz_timezone := zone_of;
  json_loads := loads;
  is_identifier := identifier;
  pydantic_field_check := field_check;
  http_get_text := serve;
  str_lower := lower_text;
  str_strip := strip_text
|}.

End Reference.

(* ================================================================== *)
(** * Properties *)

Unset Implicit Arguments.

Import Reference.

(** ** Lookup flattening *)

Lemma fold_flatten (type_options : option pydict) (lst acc : list pyval) :
  fold_left (fun a item => a ++ flatten_item type_options item) lst acc
  = acc ++ flat_map (flatten_item type_options) lst.
Proof.
  revert acc; induction lst as [|x r IH]; intros acc; simpl.
  - now rewrite app_nil_r.
  - rewrite IH. now rewrite <- app_assoc.
Qed.

Lemma flatten_lookup_flat_map (type_options : option pydict) (lst flat_list : list pyval) :
  flatten_lookup_column_r lst type_options flat_list
  = flat_list ++ flat_map (flatten_item type_options) lst.
Proof.
  unfold flatten_lookup_column_r. rewrite fold_flatten.
  now destruct flat_list.
Qed.

Lemma flatten_item_list (type_options : option pydict) (l : list pyval) :
  flatten_item type_options (PList l) = flatten_lookup_column_r l type_options [].
Proof.
  rewrite flatten_lookup_flat_map. simpl.
  induction l as [|x r IH]; simpl; [reflexivity|]. now rewrite IH.
Qed.

Definition display (nm : string) : pyval :=
  PDict [(PStr "foreignRowDisplayName", PStr nm)].

(** C6. Flattening [[{"foreignRowDisplayName":"A"}, [{"foreignRowDisplayName":"B"}, 3]]]
    with the option map [{3:"C"}] yields [["A","B","C"]].  In general the
    flat list is the concatenation of what each element gives: a dict gives
    its display-name field ([None] when it has none), a nested list gives
    its own flattening, and any other element gives its image under the
    option map, or itself when the map has no entry for it, cannot hash it,
    or is [None]. *)
Theorem C6_flatten_lookup :
  flatten_lookup_column_r
    [display "A"; PList [display "B"; PInt 3]] (Some [(PInt 3, PStr "C")]) []
  = [PStr "A"; PStr "B"; PStr "C"]
  /\ (forall type_options lst,
        flatten_lookup_column_r lst type_options []
        = flat_map (flatten_item type_options) lst)
  /\ (forall type_options d,
        flatten_item type_options (PDict d)
        = [match dict_get d (PStr "foreignRowDisplayName") with
           | Ok v => v
           | Raise _ => PNone
           end])
  /\ (forall type_options l,
        flatten_item type_options (PList l)
        = flatten_lookup_column_r l type_options [])
  /\ (forall d item v,
        is_scalar item = true -> dict_getitem d item = Ok v ->
        flatten_item (Some d) item = [v])
  /\ (forall d item e,
        is_scalar item = true -> dict_getitem d item = Raise e ->
        flatten_item (Some d) item = [item])
  /\ (forall item, is_scalar item = true -> flatten_item None item = [item]).
Proof.
  split; [reflexivity|].
  split; [intros; apply flatten_lookup_flat_map|].
  split; [intros; reflexivity|].
  split; [intros; apply flatten_item_list|].
  split; [|split].
  - intros d item v Hs Hg. destruct item; try discriminate Hs; cbn [flatten_item]; now rewrite Hg.
  - intros d item e Hs Hg. destruct item; try discriminate Hs; cbn [flatten_item]; now rewrite Hg.
  - intros item Hs. destruct item; try discriminate Hs; reflexivity.
Qed.

(** The scalar cases of C6 at work: [3] has an entry, [4] has none, and a
    set cannot be hashed. *)
Lemma C6_flatten_lookup_witness :
  flatten_item (Some [(PInt 3, PStr "C")]) (PInt 3) = [PStr "C"]
  /\ flatten_item (Some [(PInt 3, PStr "C")]) (PInt 4) = [PInt 4]
  /\ flatten_item (Some [(PInt 3, PStr "C")]) (PSet [PInt 3]) = [PSet [PInt 3]]
  /\ flatten_item None (PStr "x") = [PStr "x"].
Proof.
  destruct C6_flatten_lookup as (_ & _ & _ & _ & Hhit & Hmiss & Hnone).
  split; [apply (Hhit [(PInt 3, PStr "C")] (PInt 3) (PStr "C")); reflexivity|].
  split; [apply (Hmiss [(PInt 3, PStr "C")] (PInt 4) KeyError); reflexivity|].
  split; [apply (Hmiss [(PInt 3, PStr "C")] (PSet [PInt 3]) TypeError); reflexivity|].
  apply Hnone; reflexivity.
Defined.

(** ** The generic cast *)

Definition is_container (v : pyval) : bool :=
  match v with
  | PList _ | PTuple _ | PSet _ | PDict _ => true
  | _ => false
  end.

(** an element of a joined container: [None] is the empty text *)
Definition none_as_empty {L : PyLib} (v : pyval) : string :=
  match v with
  | PNone => ""
  | _ => py_str v
  end.

(** the cast as the specification words it, for a value that is not a date:
    null, the join of the elements, the join of the values, or the direct
    string representation *)
Definition spec_cast_to_str {L : PyLib} (sep : string) (value : pyval) : string :=
  match value with
  | PNone => ""
  | PList l | PTuple l | PSet l => PyStr.join sep (map none_as_empty l)
  | PDict d => PyStr.join sep (map none_as_empty (map snd d))
  | PBool _ | PInt _ | PFloat _ | PStr _ => py_str value
  end.

Lemma join_list_like_spec {L : PyLib} (lst : list pyval) (sep : string) :
  join_list_like lst sep = PyStr.join sep (map none_as_empty lst).
Proof. destruct lst; reflexivity. Qed.

(** C5, as the code has it. For a value that is not a string recognized as
    a date, the check of the date having returned, and with the separator
    supplied whenever the value is a container, [cast_to_str] returns a
    string and raises nothing: the empty string for null, the
    separator-join of the elements of a list, tuple or set with [None] as the
    empty text, the join of the values of a mapping, and [str(value)] for
    anything else, a string that is not a date included. *)
Theorem C5_cast_to_str {L : PyLib} (value : pyval) (kw : kwargs) (sep : string) :
  (is_container value = true -> kw_sep kw = Some sep) ->
  (forall s, value = PStr s -> is_date s = Ok false) ->
  cast_to_str value kw = Ok (spec_cast_to_str sep value).
Proof.
  intros Hsep Hdate.
  destruct value; cbn [cast_to_str spec_cast_to_str]; try reflexivity;
    try (rewrite (Hsep eq_refl); cbn; now rewrite join_list_like_spec).
  rewrite (Hdate s eq_refl). reflexivity.
Qed.

Lemma C5_cast_to_str_witness :
  cast_to_str (PList [PInt 1; PNone; PStr "a"]) (mk_kwargs (Some ",") None None)
  = Ok "1,,a"
  /\ cast_to_str (PStr "hello") (mk_kwargs None None None) = Ok "hello".
Proof.
  split.
  - apply (C5_cast_to_str (L := lib) (PList [PInt 1; PNone; PStr "a"])
             (mk_kwargs (Some ",") None None) ",");
      [reflexivity | intros s H; discriminate H].
  - apply (C5_cast_to_str (L := lib) (PStr "hello") (mk_kwargs None None None) "");
      [intros H; discriminate H | intros s H; injection H as <-; reflexivity].
Defined.

(** C5, as the specification has it, fails: the cast does raise.  Called on
    a list with no separator among its keyword arguments, it raises
    [KeyError]; so does it on a mapping. *)
Lemma C5_counterexample :
  cast_to_str (PList [PInt 1; PInt 2]) (mk_kwargs None None None) = Raise KeyError
  /\ cast_to_str (PDict [(PStr "a", PInt 1)]) (mk_kwargs None (Some "UTC") (Some true))
     = Raise KeyError.
Proof. split; reflexivity. Qed.

(** ** Date decoding *)

Definition new_year_2024 : string := "2024-01-01T00:00:00.000Z".

(** the output of the handler of the Airtable type [ty] on a cell *)
Definition handle {L : PyLib} (user_by_id : option pydict) (tz : string)
  (col_def : ColumnDefinition) (ty : string) (cell_val : pyval) : option (res pyval) :=
  option_map (fun h : handler => h cell_val)
             (sdict_find (type_handlers user_by_id tz col_def) ty).

Lemma handle_date {L : PyLib} user_by_id tz col_def cell_val :
  handle user_by_id tz col_def "date" cell_val
  = Some (s <- cast_to_str cell_val (cast_kwargs tz true) ;; Ok (quoted s))%res.
Proof. reflexivity. Qed.

(** C2, as the code has it. With the libraries reading the text as the
    instant 2024-01-01 00:00:00 UTC and New York five hours behind UTC at
    that instant, date-only mode yields ["January 01, 2024"], the day of the
    month on two digits (the instant is 2023-12-31 19:00 in New York, and
    one day is added); the [date] handler puts that text between double
    quotes; and the other mode yields ["12/31/2023 07:00pm"], in the zone
    and with no day added. *)
Theorem C2_date_decoding {L : PyLib} (zone : Z -> Z) :
  dateutil_parse new_year_2024 = None ->
  strptime_iso new_year_2024 = Some (mk_datetime 2024 1 1 0 0 0 0) ->
  pytz_timezone "America/New_York" = Some zone ->
  zone 1704067200 = -18000 ->
  cast_to_str (PStr new_year_2024) (cast_kwargs "America/New_York" true)
  = Ok "January 01, 2024"
  /\ cast_to_str (PStr new_year_2024) (cast_kwargs "America/New_York" false)
     = Ok "12/31/2023 07:00pm"
  /\ (forall user_by_id col_def,
        handle user_by_id "America/New_York" col_def "date" (PStr new_year_2024)
        = Some (Ok (quoted "January 01, 2024"))).
Proof.
  intros Hparse Hstrp Hzone Hoff.
  assert (Hcast : forall d,
             cast_to_str (PStr new_year_2024) (cast_kwargs "America/New_York" d)
             = Ok (if d then "January 01, 2024" else "12/31/2023 07:00pm")).
  { intros d. unfold cast_to_str, is_date. rewrite Hparse. cbn [rbind].
    rewrite Hstrp. cbn [rbind cast_kwargs kw_tz kw_read].
    rewrite Hzone. cbn [rbind]. unfold astimezone.
    replace (to_epoch (mk_datetime 2024 1 1 0 0 0 0)) with 1704067200 by reflexivity.
    rewrite Hoff. destruct d; reflexivity. }
  split; [apply (Hcast true)|]. split; [apply (Hcast false)|].
  intros user_by_id col_def. rewrite handle_date, (Hcast true). reflexivity.
Qed.

Lemma C2_date_decoding_witness :
  cast_to_str (PStr new_year_2024) (cast_kwargs "America/New_York" true)
  = Ok "January 01, 2024"
  /\ cast_to_str (PStr new_year_2024) (cast_kwargs "America/New_York" false)
     = Ok "12/31/2023 07:00pm"
  /\ (forall user_by_id col_def,
        handle user_by_id "America/New_York" col_def "date" (PStr new_year_2024)
        = Some (Ok (quoted "January 01, 2024"))).
Proof.
  apply (C2_date_decoding (L := lib) new_york); reflexivity.
Defined.

(** C2, as the specification has it, fails: in date-only mode the text is
    not ["January 1, 2024"], neither bare from the cast nor between quotes
    from the [date] handler. *)
Lemma C2_counterexample :
  cast_to_str (PStr new_year_2024) (cast_kwargs "America/New_York" true)
  = Ok "January 01, 2024"
  /\ cast_to_str (PStr new_year_2024) (cast_kwargs "America/New_York" true)
     <> Ok "January 1, 2024"
  /\ handle None "America/New_York" (mk_ColumnDefinition "When" "date" None None)
            "date" (PStr new_year_2024)
     <> Some (Ok (quoted "January 1, 2024")).
Proof.
  split; [reflexivity|]. split; intros H; vm_compute in H; discriminate H.
Qed.

(** ** Column definitions *)

Lemma rbind_ok {A B} (m : res A) (k : A -> res B) (b : B) :
  rbind m k = Ok b -> exists a, m = Ok a /\ k a = Ok b.
Proof. destruct m as [a|e]; simpl; intros H; [eauto | discriminate H]. Qed.

Ltac inv_rbind H :=
  let a := fresh "x" in
  let Ha := fresh "E" in
  apply rbind_ok in H; destruct H as (a & Ha & H).

Lemma rmap_validate_inv (d : pydict) (l : list (string * string)) :
  rmap (fun kv => (k <- validate_str (fst kv) ;;
                   v <- validate_str (snd kv) ;; Ok (k, v))%res) d = Ok l ->
  options_dict l = d.
Proof.
  revert l; induction d as [|[k v] r IH]; intros l H; simpl in H.
  - injection H as <-. reflexivity.
  - inv_rbind H. inv_rbind H. injection H as <-.
    inv_rbind E. inv_rbind E. injection E as <-.
    destruct k; try discriminate E1. destruct v; try discriminate E2.
    simpl in E1, E2. injection E1 as <-. injection E2 as <-.
    simpl. now rewrite (IH _ E0).
Qed.

Lemma validate_options_inv (o : option pydict) (t : option (list (string * string))) :
  validate_options o = Ok t -> type_options_of t = o.
Proof.
  destruct o as [d|]; simpl; intros H.
  - inv_rbind H. injection H as <-. simpl. now rewrite (rmap_validate_inv _ _ E).
  - injection H as <-. reflexivity.
Qed.

(** whether an entry can be added does not depend on the entries before it *)
Lemma add_choice_ok (d d' : pydict) (choice : pyval) :
  is_ok (add_choice d choice) = is_ok (add_choice d' choice).
Proof.
  unfold add_choice, dict_setitem.
  destruct (py_subscript choice "id") as [k|]; [|reflexivity].
  destruct (py_subscript choice "name") as [v|]; [|reflexivity].
  simpl. now destruct (hashable k).
Qed.

Lemma rfold_add_choice_ok (entries : list pyval) (d m : pydict) :
  rfold add_choice entries d = Ok m ->
  forall choice, In choice entries -> is_ok (add_choice [] choice) = true.
Proof.
  revert d; induction entries as [|c r IH]; intros d H choice Hin; [destruct Hin|].
  simpl in H. inv_rbind H. destruct Hin as [<-|Hin].
  - rewrite (add_choice_ok [] d). now rewrite E.
  - eapply IH; eauto.
Qed.

Lemma options_dict_find (opts : list (string * string)) (id : string) :
  dict_find (options_dict opts) (PStr id) = option_map PStr (sdict_find opts id).
Proof.
  induction opts as [|[k v] r IH]; [reflexivity|].
  cbn [options_dict map dict_find sdict_find fst snd key_eqb].
  destruct (String.eqb k id); [reflexivity | exact IH].
Qed.

Lemma key_eqb_text (s : string) (b : pyval) : key_eqb (PStr s) b = true -> b = PStr s.
Proof. destruct b; try discriminate. cbn. intros H. apply String.eqb_eq in H. now subst. Qed.

Lemma add_choice_inv (d d' : pydict) (c : pyval) :
  add_choice d c = Ok d' ->
  exists k v, py_subscript c "id" = Ok k /\ py_subscript c "name" = Ok v
              /\ d' = dict_put d k v.
Proof.
  unfold add_choice, dict_setitem. intros H.
  destruct (py_subscript c "id") as [k|]; [|discriminate H].
  destruct (py_subscript c "name") as [v|]; [|discriminate H].
  cbn [rbind] in H. destruct (hashable k); [|discriminate H].
  injection H as <-. now exists k, v.
Qed.

Lemma dict_put_keeps_keys (d : pydict) (k v k' : pyval) :
  In k' (map fst d) -> In k' (map fst (dict_put d k v)).
Proof.
  induction d as [|[k0 v0] r IH]; cbn [dict_put map fst In]; [intros []|].
  destruct (key_eqb k0 k); cbn [map fst In]; intuition.
Qed.

Lemma dict_put_has_key (d : pydict) (k v : pyval) :
  exists k', In k' (map fst (dict_put d k v)) /\ (k' = k \/ key_eqb k' k = true).
Proof.
  induction d as [|[k0 v0] r IH]; cbn [dict_put].
  - exists k. split; [now left | now left].
  - destruct (key_eqb k0 k) eqn:E.
    + exists k0. split; [now left | now right].
    + destruct IH as (k' & Hin & Hk). exists k'. split; [now right | exact Hk].
Qed.

Lemma dict_put_new_key (d : pydict) (k v k' : pyval) :
  In k' (map fst (dict_put d k v)) -> In k' (map fst d) \/ k' = k.
Proof.
  induction d as [|[k0 v0] r IH]; cbn [dict_put map fst In].
  - intros [<-|[]]. now right.
  - destruct (key_eqb k0 k); cbn [map fst In]; intuition.
Qed.

Lemma dict_find_put_text (d : pydict) (i : string) (v : pyval) :
  dict_find (dict_put d (PStr i) v) (PStr i) = Some v.
Proof.
  induction d as [|[k0 v0] r IH]; cbn [dict_put dict_find].
  - cbn [key_eqb]. now rewrite String.eqb_refl.
  - destruct (key_eqb k0 (PStr i)) eqn:E; cbn [dict_find]; rewrite E;
      [reflexivity | exact IH].
Qed.

Lemma dict_find_put_other_text (d : pydict) (k v : pyval) (i : string) :
  k <> PStr i -> dict_find (dict_put d k v) (PStr i) = dict_find d (PStr i).
Proof.
  intros Hne. induction d as [|[k0 v0] r IH]; cbn [dict_put dict_find].
  - destruct (key_eqb k (PStr i)) eqn:E; [|reflexivity].
    exfalso. apply Hne. destruct k; try discriminate E.
    cbn in E. apply String.eqb_eq in E. now subst.
  - destruct (key_eqb k0 k) eqn:E; cbn [dict_find].
    + destruct (key_eqb k0 (PStr i)) eqn:E'; [|reflexivity].
      exfalso. apply Hne. destruct k0; try discriminate E'.
      cbn in E'. apply String.eqb_eq in E'. subst. now apply key_eqb_text in E.
    + destruct (key_eqb k0 (PStr i)); [reflexivity | exact IH].
Qed.

Lemma choices_keep_keys (entries : list pyval) (d m : pydict) (k : pyval) :
  rfold add_choice entries d = Ok m -> In k (map fst d) -> In k (map fst m).
Proof.
  revert d. induction entries as [|c r IH]; intros d H Hin; simpl in H.
  - now injection H as <-.
  - inv_rbind H. destruct (add_choice_inv _ _ _ E) as (k0 & v0 & _ & _ & ->).
    apply (IH _ H). now apply dict_put_keeps_keys.
Qed.

(** the ids of the choices are keys of the map, up to the equality of keys *)
Lemma choices_ids (entries : list pyval) (d m : pydict) (c : pyval) :
  rfold add_choice entries d = Ok m -> In c entries ->
  exists k k', py_subscript c "id" = Ok k /\ In k' (map fst m)
               /\ (k' = k \/ key_eqb k' k = true).
Proof.
  revert d. induction entries as [|c0 r IH]; intros d H Hin; [destruct Hin|].
  simpl in H. inv_rbind H. destruct Hin as [<-|Hin]; [|exact (IH _ H Hin)].
  destruct (add_choice_inv _ _ _ E) as (k & v & Hid & _ & ->).
  destruct (dict_put_has_key d k v) as (k' & Hk' & Heq).
  exists k, k'. split; [exact Hid|]. split; [|exact Heq].
  exact (choices_keep_keys _ _ _ _ H Hk').
Qed.

(** the keys of the map are ids of choices *)
Lemma choices_keys (entries : list pyval) (d m : pydict) (k : pyval) :
  rfold add_choice entries d = Ok m -> In k (map fst m) ->
  In k (map fst d) \/ exists c, In c entries /\ py_subscript c "id" = Ok k.
Proof.
  revert d. induction entries as [|c r IH]; intros d H Hin; simpl in H.
  - injection H as <-. now left.
  - inv_rbind H. destruct (add_choice_inv _ _ _ E) as (k0 & v0 & Hid & _ & ->).
    destruct (IH _ H Hin) as [Hd|(c' & Hc' & Hid')].
    + destruct (dict_put_new_key _ _ _ _ Hd) as [Hd'| ->]; [now left|].
      right. exists c. split; [now left | exact Hid].
    + right. exists c'. split; [now right | exact Hid'].
Qed.

(** the choices that follow leave the name of an id as it is when none of
    them has that id *)
Lemma choices_keep_name (after : list pyval) (d m : pydict) (i : string) :
  rfold add_choice after d = Ok m ->
  (forall c, In c after -> py_subscript c "id" <> Ok (PStr i)) ->
  dict_find m (PStr i) = dict_find d (PStr i).
Proof.
  revert d. induction after as [|c r IH]; intros d H Hafter; simpl in H.
  - now injection H as <-.
  - inv_rbind H. destruct (add_choice_inv _ _ _ E) as (k & v & Hid & _ & ->).
    rewrite (IH _ H (fun c' Hc' => Hafter c' (or_intror Hc'))).
    apply dict_find_put_other_text. intros ->.
    exact (Hafter c (or_introl eq_refl) Hid).
Qed.

Lemma choices_name (before after : list pyval) (c : pyval) (d m : pydict)
  (i : string) (n : pyval) :
  rfold add_choice (before ++ c :: after) d = Ok m ->
  py_subscript c "id" = Ok (PStr i) -> py_subscript c "name" = Ok n ->
  (forall c', In c' after -> py_subscript c' "id" <> Ok (PStr i)) ->
  dict_find m (PStr i) = Some n.
Proof.
  revert d. induction before as [|c0 r IH]; intros d H Hid Hname Hafter; simpl in H.
  - inv_rbind H. destruct (add_choice_inv _ _ _ E) as (k & v & Hid' & Hname' & ->).
    rewrite Hid in Hid'. injection Hid' as <-.
    rewrite Hname in Hname'. injection Hname' as <-.
    rewrite (choices_keep_name _ _ _ _ H Hafter). apply dict_find_put_text.
  - inv_rbind H. exact (IH _ H Hid Hname Hafter).
Qed.

(** the map of the options of a column, against the choices it was read
    from: every choice has a text for id; the id of a choice is mapped to
    the name of that choice, or of the last choice of that id; and the map
    has no other key than the ids of the choices *)
Definition full_option_map (entries : list pyval) (opts : list (string * string)) : Prop :=
  (forall c, In c entries -> exists i, py_subscript c "id" = Ok (PStr i))
  /\ (forall before c after i n,
        entries = before ++ c :: after ->
        py_subscript c "id" = Ok (PStr i) ->
        py_subscript c "name" = Ok n ->
        (forall c', In c' after -> py_subscript c' "id" <> Ok (PStr i)) ->
        exists label, n = PStr label /\ sdict_find opts i = Some label)
  /\ (forall i label,
        In (i, label) opts ->
        exists c, In c entries /\ py_subscript c "id" = Ok (PStr i)).

Lemma options_dict_keys (opts : list (string * string)) (k : pyval) :
  In k (map fst (options_dict opts)) -> exists i, k = PStr i.
Proof.
  unfold options_dict. rewrite map_map. cbn [fst]. intros H.
  apply in_map_iff in H. destruct H as ([i n] & <- & _). now exists i.
Qed.

Lemma extract_choices_full (type_options : pyval) (opts : list (string * string)) :
  extract_choices type_options = Ok (options_dict opts) ->
  exists choices,
    py_subscript type_options "choices" = Ok (PDict choices)
    /\ full_option_map (map snd choices) opts.
Proof.
  unfold extract_choices. intros H.
  destruct (py_subscript type_options "choices") as [ch|]; [|discriminate H].
  cbn [rbind] in H. destruct ch as [| | | | | | | |choices]; try discriminate H.
  cbn [py_values rbind] in H. exists choices. split; [reflexivity|].
  split; [|split].
  - intros c Hc.
    destruct (choices_ids _ _ _ c H Hc) as (k & k' & Hid & Hk' & Heq).
    destruct (options_dict_keys _ _ Hk') as (i & ->).
    exists i. rewrite Hid. f_equal.
    destruct Heq as [<-|Heq]; [reflexivity | exact (key_eqb_text _ _ Heq)].
  - intros before c after i n Hsplit Hid Hname Hafter. rewrite Hsplit in H.
    pose proof (choices_name _ _ _ _ _ _ _ H Hid Hname Hafter) as Hfind.
    rewrite options_dict_find in Hfind.
    destruct (sdict_find opts i) as [label|]; [|discriminate Hfind].
    injection Hfind as <-. now exists label.
  - intros i label Hin.
    assert (Hkey : In (PStr i) (map fst (options_dict opts))).
    { unfold options_dict. rewrite map_map. cbn [fst].
      exact (in_map (fun kv => PStr (fst kv)) opts (i, label) Hin). }
    destruct (choices_keys _ _ _ _ H Hkey) as [[]|Hc]. exact Hc.
Qed.

(** C8. When a raw column has truthy [typeOptions] and the loop of
    [_get_column_definition] produces its definition, then: if the
    extraction of the choices raises, the definition's [typeOptions] is
    [None]; it raises as soon as one entry of the choices cannot be added (no
    [id], no [name], an unhashable id), so no partial map is ever kept; and
    if the extraction succeeds, [typeOptions] is the whole map it built,
    which is the full map of the choices: every choice has a text for id,
    the map sends the id of every choice to the name of that choice (of the
    last choice of that id, were an id repeated), and it has no key that is
    not the id of a choice. *)
Theorem C8_type_options (col id : pyval) (cd : ColumnDefinition) (type_options : pyval) :
  column_entry col = Ok (id, cd) ->
  py_subscript col "typeOptions" = Ok type_options ->
  truthy type_options = true ->
  (forall e, extract_choices type_options = Raise e -> typeOptions cd = None)
  /\ (forall choices choice,
        py_subscript type_options "choices" = Ok (PDict choices) ->
        In choice (map snd choices) ->
        is_ok (add_choice [] choice) = false ->
        typeOptions cd = None)
  /\ (forall m, extract_choices type_options = Ok m ->
                type_options_of (typeOptions cd) = Some m
                /\ exists choices opts,
                     py_subscript type_options "choices" = Ok (PDict choices)
                     /\ typeOptions cd = Some opts
                     /\ full_option_map (map snd choices) opts).
Proof.
  intros Hentry Hsub Htruthy.
  unfold column_entry, column_options in Hentry.
  rewrite Hsub in Hentry. cbn [rbind] in Hentry. rewrite Htruthy in Hentry.
  destruct (py_get type_options (PStr "resultType")) as [result_type|] eqn:Hrt;
    [|discriminate Hentry].
  cbn [rbind] in Hentry.
  destruct (py_subscript col "name") as [nm|]; [|discriminate Hentry].
  destruct (py_subscript col "type") as [ty|]; [|discriminate Hentry].
  cbn [rbind] in Hentry.
  destruct (new_ColumnDefinition _ _ _ _) as [cd'|] eqn:Hnew; [|discriminate Hentry].
  cbn [rbind] in Hentry.
  destruct (py_subscript col "id") as [id'|]; [|discriminate Hentry].
  cbn [rbind] in Hentry.
  destruct (hashable id'); [|discriminate Hentry]. injection Hentry as <- <-.
  unfold new_ColumnDefinition in Hnew.
  destruct (validate_str nm) as [n|]; [|discriminate Hnew].
  destruct (validate_str ty) as [t|]; [|discriminate Hnew].
  destruct (validate_optional_str result_type) as [r|]; [|discriminate Hnew].
  cbn [rbind] in Hnew.
  destruct (validate_options _) as [o|] eqn:Hval; [|discriminate Hnew].
  injection Hnew as <-. cbn [typeOptions].
  apply validate_options_inv in Hval.
  assert (Hfail : forall e, extract_choices type_options = Raise e -> o = None).
  { intros e He. rewrite He in Hval. now destruct o. }
  split; [exact Hfail|]. split.
  - intros choices choice Hch Hin Hbad.
    destruct (extract_choices type_options) as [m|e] eqn:Hex; [|now apply (Hfail e)].
    exfalso. unfold extract_choices in Hex. rewrite Hch in Hex. cbn in Hex.
    rewrite (rfold_add_choice_ok _ _ _ Hex choice Hin) in Hbad. discriminate Hbad.
  - intros m Hm. rewrite Hm in Hval. split; [exact Hval|].
    destruct o as [opts|]; [|discriminate Hval].
    cbn [type_options_of option_map] in Hval. injection Hval as Hopts.
    rewrite <- Hopts in Hm.
    destruct (extract_choices_full type_options opts Hm) as (choices & Hch & Hfull).
    now exists choices, opts.
Qed.

Definition str_dict (l : list (string * pyval)) : pyval :=
  PDict (map (fun kv => (PStr (fst kv), snd kv)) l).

Definition choice (id nm : string) : pyval :=
  str_dict [("id", PStr id); ("name", PStr nm)].

(** a select column whose second choice has no name *)
Definition broken_column : pyval :=
  str_dict [("id", PStr "fldStatus"); ("name", PStr "Status"); ("type", PStr "select");
            ("typeOptions",
             str_dict [("choices",
                        str_dict [("selA", choice "selA" "Open");
                                  ("selB", str_dict [("id", PStr "selB")])])])].

Definition sound_column : pyval :=
  str_dict [("id", PStr "fldStatus"); ("name", PStr "Status"); ("type", PStr "select");
            ("typeOptions",
             str_dict [("choices",
                        str_dict [("selA", choice "selA" "Open");
                                  ("selB", choice "selB" "Done")])])].

Lemma C8_type_options_witness :
  (exists cd, column_entry broken_column = Ok (PStr "fldStatus", cd)
              /\ typeOptions cd = None)
  /\ (exists cd, column_entry sound_column = Ok (PStr "fldStatus", cd)
                 /\ type_options_of (typeOptions cd)
                    = Some [(PStr "selA", PStr "Open"); (PStr "selB", PStr "Done")]
                 /\ exists choices opts,
                      py_subscript
                        (str_dict [("choices",
                                    str_dict [("selA", choice "selA" "Open");
                                              ("selB", choice "selB" "Done")])])
                        "choices" = Ok (PDict choices)
                      /\ typeOptions cd = Some opts
                      /\ full_option_map (map snd choices) opts).
Proof.
  split.
  - eexists. split; [reflexivity|].
    apply (proj1 (C8_type_options broken_column _ _ _ eq_refl eq_refl eq_refl) KeyError).
    reflexivity.
  - eexists. split; [reflexivity|].
    apply (proj2 (proj2 (C8_type_options sound_column _ _ _ eq_refl eq_refl eq_refl))).
    reflexivity.
Defined.

(** ** The cell handlers *)

(** every value of the dict is a string *)
Definition str_valued (d : pydict) : Prop :=
  Forall (fun kv => is_str_or_none (snd kv) = true) d.

Lemma dict_find_str_valued (d : pydict) (k v : pyval) :
  str_valued d -> dict_find d k = Some v -> is_str_or_none v = true.
Proof.
  induction 1 as [|[k' v'] r Hv _ IH]; simpl; intros H; [discriminate H|].
  destruct (key_eqb k' k); [injection H as <-; exact Hv | now apply IH].
Qed.

Lemma dict_get_str_valued (d : pydict) (k out : pyval) :
  str_valued d -> dict_get d k = Ok out -> is_str_or_none out = true.
Proof.
  unfold dict_get, dict_lookup. intros Hd H.
  destruct (hashable k); [|discriminate H]. cbn [rbind] in H.
  destruct (dict_find d k) as [v|] eqn:Hf; injection H as <-;
    [eapply dict_find_str_valued; eauto | reflexivity].
Qed.

Lemma dict_put_str_valued (d : pydict) (k v : pyval) :
  str_valued d -> is_str_or_none v = true -> str_valued (dict_put d k v).
Proof.
  intros Hd Hv. induction Hd as [|[k' v'] r H Hr IH]; simpl.
  - repeat constructor. exact Hv.
  - destruct (key_eqb k' k); constructor; auto.
Qed.

Lemma options_dict_str_valued (o : list (string * string)) : str_valued (options_dict o).
Proof. induction o; constructor; auto. Qed.

Lemma user_info_of_str_valued (table : pyval) (d : pydict) :
  user_info_of table = Ok d -> str_valued d.
Proof.
  unfold user_info_of. intros H.
  destruct (py_get table (PStr "appBlanket")) as [ab|]; [|discriminate H].
  cbn [rbind] in H.
  destruct (py_get ab (PStr "userInfoById")) as [info|]; [|discriminate H].
  cbn [rbind] in H.
  destruct (py_values info) as [users|]; [|discriminate H]. cbn [rbind] in H.
  assert (Hnil : str_valued []) by constructor.
  revert H Hnil. generalize (@nil (pyval * pyval)).
  induction users as [|u r IH]; intros acc H Hacc; simpl in H.
  - now injection H as <-.
  - destruct (py_subscript u "id") as [id|]; [|discriminate H].
    destruct (py_subscript u "firstName") as [f|]; [|discriminate H].
    destruct (py_subscript u "lastName") as [l|]; [|discriminate H].
    cbn [rbind] in H.
    destruct (str_join " " [f; l]) as [full|]; [|discriminate H].
    cbn [rbind] in H. unfold dict_setitem in H.
    destruct (hashable id); [|discriminate H]. cbn [rbind] in H.
    apply IH in H; [exact H|]. now apply dict_put_str_valued.
Qed.

Lemma user_by_id_str_valued (st st' : state) (user_by_id : option pydict) :
  __get_appBlanket_userInfoById st = (Ok user_by_id, st') ->
  forall d, user_by_id = Some d -> str_valued d.
Proof.
  unfold __get_appBlanket_userInfoById, bind, get_self. intros H d ->.
  destruct (table_present (self st)); [|discriminate H].
  destruct (user_info_of (__table (self st))) as [d'|] eqn:Hu.
  - injection H as <- _. eapply user_info_of_str_valued; eauto.
  - discriminate H.
Qed.

Lemma get_of_str_valued (o : option pydict) (k out : pyval) :
  (forall d, o = Some d -> str_valued d) ->
  get_of o k = Ok out -> is_str_or_none out = true.
Proof.
  destruct o as [d|]; simpl; intros Hd H; [|discriminate H].
  eapply dict_get_str_valued; eauto.
Qed.

Lemma type_options_str_valued (o : option (list (string * string))) :
  forall d, type_options_of o = Some d -> str_valued d.
Proof.
  destruct o; simpl; intros d H; [|discriminate H].
  injection H as <-. apply options_dict_str_valued.
Qed.

(** the types whose handler returns the cell as it is *)
Definition passthrough_types : list string :=
  ["autoNumber"; "count"; "number"; "phone"; "rating"; "text"].

(** the types whose handler returns one field of the cell *)
Definition field_types : list (string * string) :=
  [("barcode", "text"); ("button", "url")].

(** the types whose handler builds its output *)
Definition decoding_types : list string :=
  ["checkbox"; "collaborator"; "computation"; "date"; "foreignKey"; "formula";
   "lookup"; "multilineText"; "multipleAttachment"; "multiSelect"; "richText";
   "rollup"; "select"].

Lemma some_inj {A} (a b : A) : Some a = Some b -> a = b.
Proof. now intros [= ->]. Qed.

Ltac handler_case H :=
  unfold handle in H;
  cbn [sdict_find type_handlers String.eqb Ascii.eqb Bool.eqb andb option_map] in H;
  apply some_inj in H.

Ltac ok_str H :=
  repeat match type of H with
         | rbind ?m _ = Ok _ => destruct m; cbn [rbind] in H; [|discriminate H]
         end;
  injection H as <-; reflexivity.

(** What the handlers return. For a known Airtable column type and a raw
    cell value on which the handler returns: the output is a string or null
    for the types whose handler builds its output; it is the raw cell value
    itself, a number or a nested structure included, for [autoNumber],
    [count], [number], [phone], [rating] and [text]; and it is the raw
    [text] or [url] field of the cell for [barcode] and [button].  Every
    known type is of one of these three kinds. *)
Theorem C1_handler_output {L : PyLib} (st st' : state) (user_by_id : option pydict)
  (col_def : ColumnDefinition) (ty : string) (cell_val out : pyval) :
  __get_appBlanket_userInfoById st = (Ok user_by_id, st') ->
  handle user_by_id (timezone (self st)) col_def ty cell_val = Some (Ok out) ->
  (In ty decoding_types -> is_str_or_none out = true)
  /\ (In ty passthrough_types -> out = cell_val)
  /\ (forall field, In (ty, field) field_types ->
                    py_get cell_val (PStr field) = Ok out)
  /\ (forall ty', In ty' known_types ->
                  In ty' decoding_types \/ In ty' passthrough_types
                  \/ In ty' (map fst field_types)).
Proof.
  intros Hub H.
  pose proof (user_by_id_str_valued _ _ _ Hub) as Husers.
  pose proof (type_options_str_valued (typeOptions col_def)) as Hopts.
  split; [|split; [|split]].
  - intros Hin. simpl in Hin.
    repeat (destruct Hin as [<-|Hin]); try (destruct Hin); handler_case H.
    + destruct (truthy cell_val); injection H as <-; reflexivity.
    + exact (get_of_str_valued _ _ _ Husers H).
    + exact (get_of_str_valued _ _ _ Husers H).
    + ok_str H.
    + unfold join_field in H. ok_str H.
    + ok_str H.
    + ok_str H.
    + injection H as <-; reflexivity.
    + unfold join_field in H. ok_str H.
    + ok_str H.
    + ok_str H.
    + ok_str H.
    + exact (get_of_str_valued _ _ _ Hopts H).
  - intros Hin. simpl in Hin.
    repeat (destruct Hin as [<-|Hin]); try (destruct Hin); handler_case H;
      now injection H as <-.
  - intros field Hin. simpl in Hin.
    destruct Hin as [Hin|[Hin|[]]]; injection Hin as <- <-; handler_case H; exact H.
  - intros ty' Hin. vm_compute in Hin.
    repeat (destruct Hin as [<-|Hin]); try (destruct Hin);
      vm_compute; tauto.
Qed.

(** *** A sample table

    Five columns, one of them of a type that has no handler, one
    collaborator, and two rows, the second of which has no cell for three of
    the columns. *)

Definition column (id nm ty : string) (type_options : pyval) : pyval :=
  str_dict [("id", PStr id); ("name", PStr nm); ("type", PStr ty);
            ("typeOptions", type_options)].

Definition sample_columns : pyval :=
  PList [column "fldName" "Full Name" "text" PNone;
         column "fldAmount" "Amount ($)" "number" PNone;
         column "fldStatus" "Status" "select"
           (str_dict [("choices", str_dict [("selA", choice "selA" "Open");
                                            ("selB", choice "selB" "Done")])]);
         column "fldWhen" "When" "date" PNone;
         column "fldOdd" "Mystery" "unknownType" PNone].

Definition raw_row (id : string) (cells : list (string * pyval)) : pyval :=
  str_dict [("id", PStr id); ("cellValuesByColumnId", str_dict cells)].

Definition sample_rows : pyval :=
  PList [raw_row "rec1" [("fldName", PStr "Ada"); ("fldAmount", PInt 5);
                         ("fldStatus", PStr "selB");
                         ("fldWhen", PStr new_year_2024);
                         ("fldOdd", PList [PInt 1; PInt 2])];
         raw_row "rec2" [("fldName", PStr "Bob"); ("fldOdd", PStr "raw")]].

Definition sample_users : pyval :=
  str_dict [("userInfoById",
             str_dict [("usr1", str_dict [("id", PStr "usr1");
                                          ("firstName", PStr "Ada");
                                          ("lastName", PStr "Lovelace")])])].

Definition sample_table : pyval :=
  str_dict [("id", PStr "tblSample"); ("applicationId", PStr "appSample");
            ("viewOrder", PList [PStr "viwSample"]);
            ("columns", sample_columns); ("rows", sample_rows);
            ("appBlanket", sample_users)].

Definition share_url : string := "https://airtable.com/appSample/shrSample".

(** a scraper object that holds the sample table *)
Definition sample_session : session :=
  mk_session share_url "America/New_York" [] "" "" PNone sample_table "success" false.

(** a scraper object whose second request failed, with the text of its page *)
Definition failed_session (page : string) : session :=
  mk_session share_url "America/New_York" [] page "" PNone (PDict []) "failed" false.

(** an object before any record was logged and any request recorded *)
Definition fresh (s : session) : state := mk_state s [] [].

Definition sample_user_by_id : option pydict :=
  Some [(PStr "usr1", PStr "Ada Lovelace")].

Definition status_column : ColumnDefinition :=
  mk_ColumnDefinition "Status" "select" None (Some [("selA", "Open"); ("selB", "Done")]).

Lemma C1_handler_output_witness :
  __get_appBlanket_userInfoById (fresh sample_session)
  = (Ok sample_user_by_id, fresh sample_session)
  /\ handle sample_user_by_id "America/New_York" status_column "multiSelect"
            (PList [PStr "selB"; PStr "selA"])
     = Some (Ok (quoted "Done,Open"))
  /\ is_str_or_none (quoted "Done,Open") = true.
Proof.
  split; [reflexivity|]. split; [reflexivity|].
  apply (proj1 (C1_handler_output (L := lib) (fresh sample_session) (fresh sample_session)
                  sample_user_by_id status_column "multiSelect"
                  (PList [PStr "selB"; PStr "selA"]) (quoted "Done,Open")
                  eq_refl eq_refl)).
  simpl; tauto.
Defined.

(** C1. The code where it departs from the claim, and from the comment
    above its table of handlers, by which the resulting value should always
    be a string: on the cell value 5 the [number] handler returns the number
    5, and on a list the [text] handler returns the list. *)
Lemma C1_failing_input :
  In "number" known_types
  /\ handle sample_user_by_id "America/New_York" status_column "number" (PInt 5)
     = Some (Ok (PInt 5))
  /\ is_str_or_none (PInt 5) = false
  /\ In "text" known_types
  /\ handle sample_user_by_id "America/New_York" status_column "text"
            (PList [PInt 1; PStr "a"])
     = Some (Ok (PList [PInt 1; PStr "a"]))
  /\ is_str_or_none (PList [PInt 1; PStr "a"]) = false.
Proof.
  repeat split; try reflexivity; vm_compute; tauto.
Qed.

(** ** The text extractors *)

(** the state after a property has logged the exception it caught *)
Definition logged (st : state) (msg : string) (e : exn) : state :=
  mk_state (self st) (log st ++ [mk_log ERROR msg (Some e)]) (requests st).

Lemma bind_unfold {A B} (m : M A) (k : A -> M B) (st : state) :
  bind m k st
  = match m st with
    | (Ok a, st') => k a st'
    | (Raise e, st') => (Raise e, st')
    end.
Proof. reflexivity. Qed.

Lemma get_new_url_no_match (st : state) :
  re_search re_urlWithParams (__page (self st)) = None ->
  _get_new_url st = (Raise AttributeError, st).
Proof.
  intros H. unfold _get_new_url, bind, get_self, lift. rewrite H. reflexivity.
Qed.

Lemma get_new_url_state (st st' : state) (u : string) :
  _get_new_url st = (Ok u, st') -> st' = st.
Proof.
  unfold _get_new_url, bind, get_self, lift, logger_error, emit, raise, ret.
  destruct (group_1 _) as [g|]; [|discriminate].
  destruct (String.eqb g ""); [discriminate|]. now intros [= _ <-].
Qed.

Lemma get_auth_data_no_match {L : PyLib} (st : state) :
  re_search re_headers (__page (self st)) = None ->
  _get_auth_data st = (Raise AttributeError, st).
Proof.
  intros H. unfold _get_auth_data, bind, get_self, lift. rewrite H. reflexivity.
Qed.

(** C4, as the code has it. When the second request gave no table and the
    pattern of an id does not match the page (and, for the application id,
    the headers hold no application id either), the [table_id], [view_id]
    and [app_id] accessors log the error and return null, not an empty
    string.  The two bootstrap extractors raise when their pattern does not
    match, and the construction of the object then raises too. *)
Theorem C4_extractors_on_no_match {L : PyLib} (st : state) :
  table_present (self st) = false ->
  (re_search re_sharedViewTableId (__page (self st)) = None ->
   table_id st = (Ok None, logged st "Error getting table ID" AttributeError))
  /\ (re_search re_url (__page (self st)) = None ->
      view_id st = (Ok None, logged st "Error getting view ID" AttributeError))
  /\ (forall h,
        dict_get (_headers (self st)) (PStr "x-airtable-application-id") = Ok h ->
        truthy h = false ->
        re_search re_applicationId (__page (self st)) = None ->
        app_id st = (Ok None, logged st "Error getting app ID" AttributeError))
  /\ (re_search re_urlWithParams (__page (self st)) = None ->
      _get_new_url st = (Raise AttributeError, st))
  /\ (re_search re_headers (__page (self st)) = None ->
      _get_auth_data st = (Raise AttributeError, st))
  /\ (forall url tz,
        re_search re_urlWithParams (http_get_text url initial_headers) = None
        \/ re_search re_headers (http_get_text url initial_headers) = None ->
        is_ok (fst (__init__ url tz st)) = false).
Proof.
  intros Htable. repeat split.
  - intros H. unfold table_id, guarded, _get_table_id, bind, get_self, lift.
    rewrite Htable, H. reflexivity.
  - intros H. unfold view_id, guarded, _get_view_id, bind, get_self, lift.
    rewrite Htable, H. reflexivity.
  - intros h Hh Hfalse H. unfold app_id, guarded, _get_app_id, bind, get_self, lift.
    rewrite Htable, Hh, Hfalse, H. reflexivity.
  - apply get_new_url_no_match.
  - apply get_auth_data_no_match.
  - intros url tz H. unfold __init__.
    cbn [bind set_self _get modify get_self self log requests].
    rewrite bind_unfold.
    destruct (_get_new_url _) as [[new_url|e] st1] eqn:Hnew; [|reflexivity].
    pose proof (get_new_url_state _ _ _ Hnew) as ->.
    destruct H as [H|H].
    + rewrite get_new_url_no_match in Hnew; [discriminate Hnew | exact H].
    + cbn [bind set_self modify get_self self log requests].
      unfold _get_full_headers. rewrite !bind_unfold.
      rewrite get_auth_data_no_match; [reflexivity | exact H].
Qed.

(** a page in which none of the patterns matches *)
Definition bare_page : string := "<html><script>var x = 1;</script></html>".

Lemma C4_extractors_on_no_match_witness :
  table_id (fresh (failed_session bare_page))
  = (Ok None, logged (fresh (failed_session bare_page)) "Error getting table ID"
                     AttributeError)
  /\ view_id (fresh (failed_session bare_page))
     = (Ok None, logged (fresh (failed_session bare_page)) "Error getting view ID"
                        AttributeError)
  /\ app_id (fresh (failed_session bare_page))
     = (Ok None, logged (fresh (failed_session bare_page)) "Error getting app ID"
                        AttributeError)
  /\ _get_new_url (fresh (failed_session bare_page))
     = (Raise AttributeError, fresh (failed_session bare_page))
  /\ _get_auth_data (fresh (failed_session bare_page))
     = (Raise AttributeError, fresh (failed_session bare_page)).
Proof.
  destruct (C4_extractors_on_no_match (L := lib) (fresh (failed_session bare_page))
              eq_refl) as (Ht & Hv & Ha & Hu & Hh & _).
  split; [apply Ht; reflexivity|]. split; [apply Hv; reflexivity|].
  split; [apply (Ha PNone); reflexivity|].
  split; [apply Hu; reflexivity | apply Hh; reflexivity].
Defined.

(** C4, as the specification has it, fails: on a page where no pattern
    matches, no id extractor returns an empty string.  Each of the five
    methods raises, and each of the five properties returns null. *)
Lemma C4_counterexample :
  fst (_get_request_id (fresh (failed_session bare_page))) = Raise AttributeError
  /\ fst (_get_share_id (fresh (failed_session bare_page))) = Raise AttributeError
  /\ fst (_get_app_id (fresh (failed_session bare_page))) = Raise AttributeError
  /\ fst (_get_table_id (fresh (failed_session bare_page))) = Raise AttributeError
  /\ fst (_get_view_id (fresh (failed_session bare_page))) = Raise AttributeError
  /\ fst (request_id (fresh (failed_session bare_page))) = Ok None
  /\ fst (share_id (fresh (failed_session bare_page))) = Ok None
  /\ fst (app_id (fresh (failed_session bare_page))) = Ok None
  /\ fst (table_id (fresh (failed_session bare_page))) = Ok None
  /\ fst (view_id (fresh (failed_session bare_page))) = Ok None.
Proof. repeat split; reflexivity. Qed.

(** ** Unknown column types *)

Lemma sdict_find_put_same {A} (d : list (string * A)) (k : string) (v : A) :
  sdict_find (sdict_put d k v) k = Some v.
Proof.
  induction d as [|[k' v'] r IH]; simpl.
  - now rewrite String.eqb_refl.
  - destruct (String.eqb k' k) eqn:E; simpl; rewrite E; [reflexivity | exact IH].
Qed.


Lemma Row_find (model : row_model) (row_vals : list (string * pyval)) (k : string) :
  In k (map fst model) ->
  sdict_find (Row model row_vals) k
  = Some (match sdict_find row_vals k with Some v => v | None => PNone end).
Proof.
  induction model as [|[f ts] r IH]; simpl; intros Hin; [destruct Hin|].
  destruct (String.eqb_spec f k) as [->|Hne]; [reflexivity|].
  destruct Hin as [Hin|Hin]; [contradiction | now apply IH].
Qed.

Lemma Row_fields (model : row_model) (row_vals : list (string * pyval)) :
  map fst (Row model row_vals) = map fst model.
Proof. unfold Row. rewrite map_map. reflexivity. Qed.

Lemma handler_unknown {L : PyLib} user_by_id tz col_def (ty : string) :
  ~ In ty known_types -> sdict_find (type_handlers user_by_id tz col_def) ty = None.
Proof.
  intros Hnot. unfold known_types in Hnot. cbn [type_handlers map fst] in Hnot.
  cbn [type_handlers sdict_find].
  repeat match goal with
         | |- context [String.eqb ?a ty] =>
             destruct (String.eqb_spec a ty) as [<-|_];
             [exfalso; apply Hnot; simpl; tauto|]
         end.
  reflexivity.
Qed.

(** C9. For a cell whose column type has no handler, one turn of the inner
    loop of [_get_table_data] raises nothing, logs one warning that names
    the type, and binds the field of the column to the raw cell value,
    unchanged; a row record built from these values holds the raw value in
    that field. *)
Theorem C9_unknown_type {L : PyLib} (st st1 : state) (user_by_id : option pydict)
  (cm : option colmap) (col_def : ColumnDefinition) (col_id cell_val : pyval)
  (row_vals : list (string * pyval)) :
  column_by_id st = (Ok cm, st1) ->
  column_of cm col_id = Ok col_def ->
  ~ In (type col_def) known_types ->
  cell_step user_by_id row_vals (col_id, cell_val) st
  = (Ok (sdict_put row_vals (field_name_of (name col_def)) cell_val),
     mk_state (self st1) (log st1 ++ [unknown_type_warning (type col_def)])
              (requests st1))
  /\ (forall model,
        In (field_name_of (name col_def)) (map fst model) ->
        sdict_find
          (Row model (sdict_put row_vals (field_name_of (name col_def)) cell_val))
          (field_name_of (name col_def))
        = Some cell_val).
Proof.
  intros Hcm Hcol Hunknown. split.
  - unfold cell_step. rewrite bind_unfold, Hcm.
    unfold lift. rewrite bind_unfold, Hcol.
    unfold get_self. rewrite bind_unfold.
    rewrite (handler_unknown _ _ _ _ Hunknown). reflexivity.
  - intros model Hin. rewrite (Row_find _ _ _ Hin), sdict_find_put_same. reflexivity.
Qed.

(** the value of a computation that returned, [None] when it raised *)
Definition fst_ok {A} (r : res (option A) * state) : option A :=
  match fst r with
  | Ok a => a
  | Raise _ => None
  end.

Definition mystery_column : ColumnDefinition :=
  mk_ColumnDefinition "Mystery" "unknownType" None None.

Lemma C9_unknown_type_witness :
  cell_step sample_user_by_id [] (PStr "fldOdd", PList [PInt 1; PInt 2])
            (fresh sample_session)
  = (Ok [("mystery", PList [PInt 1; PInt 2])],
     mk_state sample_session [unknown_type_warning "unknownType"] []).
Proof.
  refine (proj1 (C9_unknown_type (L := lib) (fresh sample_session) (fresh sample_session)
                   sample_user_by_id (fst_ok (column_by_id (fresh sample_session)))
                   mystery_column (PStr "fldOdd") (PList [PInt 1; PInt 2]) []
                   eq_refl eq_refl _)).
  intros H. simpl in H.
  repeat (destruct H as [H|H]; [discriminate H|]). exact H.
Defined.

(** ** [to_dict] *)

Lemma replace_quote_step (c : ascii) (r : string) :
  PyStr.replace_from dq "" 0 (String c r)
  = if Ascii.eqb PyStr.quote c then PyStr.replace_from dq "" 0 r
    else String c (PyStr.replace_from dq "" 0 r).
Proof.
  cbn [PyStr.replace_from]. unfold dq at 1. cbn [String.prefix].
  destruct (ascii_dec PyStr.quote c) as [<-|Hne].
  - rewrite Ascii.eqb_refl. destruct r; reflexivity.
  - destruct (Ascii.eqb_spec PyStr.quote c); [contradiction | reflexivity].
Qed.

Lemma replace_quote_free (s : string) :
  ~ PyStr.contains_char PyStr.quote (PyStr.replace dq "" s).
Proof.
  unfold PyStr.contains_char, PyStr.replace.
  induction s as [|c r IH]; [intros H; exact H|].
  rewrite replace_quote_step.
  destruct (Ascii.eqb_spec PyStr.quote c) as [_|Hne]; [exact IH|].
  intros H. cbn [list_ascii_of_string In] in H.
  destruct H as [H|H]; [congruence | exact (IH H)].
Qed.

Lemma sdict_put_values {A} (P : A -> Prop) (d : list (string * A)) (k : string) (v : A) :
  Forall (fun kv => P (snd kv)) d -> P v ->
  Forall (fun kv => P (snd kv)) (sdict_put d k v).
Proof.
  intros Hd Hv. induction Hd as [|[k' v'] r H Hr IH]; simpl.
  - repeat constructor. exact Hv.
  - destruct (String.eqb k' k); constructor; auto.
Qed.

Lemma strip_quotes_free (r : record) :
  Forall (fun kv => ~ PyStr.contains_char PyStr.quote (snd kv)) (strip_quotes r).
Proof.
  unfold strip_quotes.
  assert (H : Forall (fun kv : string * string =>
                        ~ PyStr.contains_char PyStr.quote (snd kv)) [])
    by constructor.
  revert H. generalize (@nil (string * string)).
  induction r as [|[k v] r IH]; intros acc Hacc; simpl; [exact Hacc|].
  apply IH.
  apply (sdict_put_values (fun v => ~ PyStr.contains_char PyStr.quote v));
    [exact Hacc | apply replace_quote_free].
Qed.

Lemma map_snd_enumerate {A B} (f : nat -> B) (l : list A) (n : nat) :
  map snd (map (fun ir : nat * A => (f (fst ir), snd ir)) (enumerate l n)) = l.
Proof.
  revert n; induction l as [|x r IH]; intros n; simpl; [reflexivity|].
  now rewrite IH.
Qed.

(** C10. Whenever [to_dict] returns with [pass_to_json=False], whatever the
    orientation, no value of any returned record contains a double quote. *)
Theorem C10_to_dict_no_quotes {L : PyLib} (st st' : state) (orient : string)
  (result : to_dict_result) :
  to_dict orient false st = (Ok result, st') ->
  forall (rec : record) (k v : string),
    In rec (records_of result) -> In (k, v) rec ->
    ~ PyStr.contains_char PyStr.quote v.
Proof.
  unfold to_dict. intros H rec k v Hrec Hkv.
  destruct (negb _); [discriminate H|].
  rewrite bind_unfold in H.
  destruct (data st) as [[d|e] st1]; [|discriminate H].
  rewrite bind_unfold in H.
  destruct d as [rows|]; [|discriminate H]. cbn [ret] in H.
  rewrite bind_unfold in H.
  destruct (column_by_id st1) as [[cm|e] st2]; [|discriminate H].
  rewrite bind_unfold in H. unfold lift at 1 in H.
  destruct (colmap_values cm) as [cds|e]; [|discriminate H].
  rewrite bind_unfold in H. unfold lift at 1 in H.
  destruct (rmap _ rows) as [rows1|e]; [|discriminate H].
  assert (Hrows : records_of result = map strip_quotes rows1).
  { destruct (String.eqb orient "records"); injection H as <- _; cbn [records_of];
      [reflexivity
      | apply (map_snd_enumerate (fun i => "row" +:+ PyStr.of_Z (Z.of_nat i)))]. }
  rewrite Hrows in Hrec. apply in_map_iff in Hrec. destruct Hrec as (r & <- & _).
  pose proof (strip_quotes_free r) as Hfree.
  rewrite Forall_forall in Hfree. exact (Hfree (k, v) Hkv).
Qed.

Definition sample_records : list record :=
  [[("Full Name", "Ada"); ("Amount ($)", "5"); ("Status", "Done");
    ("When", "January 01, 2024"); ("Mystery", "[1, 2]")];
   [("Full Name", "Bob"); ("Amount ($)", ""); ("Status", "");
    ("When", ""); ("Mystery", "raw")]].

Lemma sample_to_dict :
  to_dict "records" false (fresh sample_session)
  = (Ok (Records sample_records),
     snd (to_dict "records" false (fresh sample_session))).
Proof. vm_compute. reflexivity. Qed.

Lemma C10_to_dict_no_quotes_witness :
  fst (to_dict "records" false (fresh sample_session)) = Ok (Records sample_records)
  /\ ~ PyStr.contains_char PyStr.quote "January 01, 2024".
Proof.
  split; [now rewrite sample_to_dict|].
  refine (C10_to_dict_no_quotes (L := lib) (fresh sample_session) _ "records"
            (Records sample_records) sample_to_dict
            [("Full Name", "Ada"); ("Amount ($)", "5"); ("Status", "Done");
             ("When", "January 01, 2024"); ("Mystery", "[1, 2]")]
            "When" "January 01, 2024" _ _); simpl; tauto.
Defined.

(** ** Reading the object

    The accessors read the object, append to the log, send no request, and
    change nothing of the object but the handlers that [_get_table_data]
    stores.  What they return and what they log depends only on what they
    read.  [reads_only m1 m2] says so for two computations run on two objects
    that differ at most by the stored handlers. *)

Definition same_object (s1 s2 : session) : Prop :=
  with_type_handlers s1 = with_type_handlers s2.

Definition reads_only {A} (m1 m2 : M A) : Prop :=
  forall st1 st2, same_object (self st1) (self st2) ->
    exists r l s1' s2',
      m1 st1 = (r, mk_state s1' (log st1 ++ l) (requests st1))
      /\ m2 st2 = (r, mk_state s2' (log st2 ++ l) (requests st2))
      /\ same_object (self st1) s1' /\ same_object (self st2) s2'.

Lemma same_object_refl (s : session) : same_object s s.
Proof. reflexivity. Qed.

Lemma same_object_stored (s : session) : same_object s (with_type_handlers s).
Proof. now destruct s. Qed.

Lemma state_eta (st : state) : st = mk_state (self st) (log st ++ []) (requests st).
Proof. destruct st; simpl. now rewrite app_nil_r. Qed.

Lemma ro_lift {A} (r : res A) : reads_only (lift r) (lift r).
Proof.
  intros st1 st2 _. exists r, [], (self st1), (self st2). unfold lift.
  rewrite <- !state_eta. repeat split.
Qed.

Lemma ro_ret {A} (a : A) : reads_only (ret a) (ret a).
Proof. exact (ro_lift (Ok a)). Qed.

Lemma ro_raise {A} (e : exn) : reads_only (@raise A e) (raise e).
Proof. exact (ro_lift (Raise e)). Qed.

Lemma ro_emit (r : log_record) : reads_only (emit r) (emit r).
Proof.
  intros st1 st2 _. exists (Ok tt), [r], (self st1), (self st2). repeat split.
Qed.

Lemma ro_bind {A B} (m1 m2 : M A) (k1 k2 : A -> M B) :
  reads_only m1 m2 -> (forall a, reads_only (k1 a) (k2 a)) ->
  reads_only (bind m1 k1) (bind m2 k2).
Proof.
  intros Hm Hk st1 st2 Hs.
  destruct (Hm st1 st2 Hs) as (r & l & s1 & s2 & E1 & E2 & H1 & H2).
  rewrite !bind_unfold, E1, E2. destruct r as [a|e].
  - assert (Hs' : same_object s1 s2).
    { unfold same_object in *. congruence. }
    destruct (Hk a (mk_state s1 (log st1 ++ l) (requests st1))
                   (mk_state s2 (log st2 ++ l) (requests st2)) Hs')
      as (r' & l' & s1' & s2' & E1' & E2' & H1' & H2').
    exists r', (l ++ l'), s1', s2'. cbn [self log requests] in *.
    rewrite E1', E2', !app_assoc. unfold same_object in *. repeat split; congruence.
  - exists (Raise e), l, s1, s2. repeat split; assumption.
Qed.

Lemma ro_get_self {A} (k1 k2 : session -> M A) :
  (forall s1 s2, same_object s1 s2 -> reads_only (k1 s1) (k2 s2)) ->
  reads_only (bind get_self k1) (bind get_self k2).
Proof.
  intros Hk st1 st2 Hs. rewrite !bind_unfold. unfold get_self.
  exact (Hk _ _ Hs st1 st2 Hs).
Qed.

Lemma ro_store_handlers : reads_only (modify with_type_handlers) (modify with_type_handlers).
Proof.
  intros st1 st2 _.
  exists (Ok tt), [], (with_type_handlers (self st1)), (with_type_handlers (self st2)).
  unfold modify. rewrite !bind_unfold. unfold get_self, set_self.
  rewrite !app_nil_r. repeat split; apply same_object_stored.
Qed.

Lemma ro_guarded {A} (msg : string) (m1 m2 : M A) :
  reads_only m1 m2 -> reads_only (guarded msg m1) (guarded msg m2).
Proof.
  intros Hm st1 st2 Hs.
  destruct (Hm st1 st2 Hs) as (r & l & s1 & s2 & E1 & E2 & H1 & H2).
  unfold guarded. rewrite E1, E2. destruct r as [a|e].
  - exists (Ok (Some a)), l, s1, s2. repeat split; assumption.
  - exists (Ok None), (l ++ [mk_log ERROR msg (Some e)]), s1, s2.
    cbn. rewrite !app_assoc. repeat split; assumption.
Qed.

Lemma ro_mfold {A B} (f1 f2 : A -> B -> M A) (l : list B) :
  (forall a x, reads_only (f1 a x) (f2 a x)) ->
  forall a, reads_only (mfold f1 l a) (mfold f2 l a).
Proof.
  intros Hf. induction l as [|x r IH]; intros a; simpl.
  - apply ro_ret.
  - apply ro_bind; [apply Hf | exact IH].
Qed.

Lemma ro_mmap {A B} (f1 f2 : A -> M B) (l : list A) :
  (forall x, reads_only (f1 x) (f2 x)) -> reads_only (mmap f1 l) (mmap f2 l).
Proof.
  intros Hf. induction l as [|x r IH]; simpl.
  - apply ro_ret.
  - apply ro_bind; [apply Hf|]. intros y.
    apply ro_bind; [exact IH|]. intros ys. apply ro_ret.
Qed.

(** two objects that differ by the stored handlers have the same fields *)
Ltac same_fields s1 s2 H :=
  destruct s1, s2; unfold same_object in H; cbn in H;
  injection H as -> -> -> -> -> -> -> ->.

Ltac ro_step :=
  first [ apply ro_ret | apply ro_raise | apply ro_lift | apply ro_emit
        | apply ro_store_handlers
        | apply ro_guarded
        | apply ro_bind; [|intros ?]
        | apply ro_mfold; intros ? ?
        | apply ro_mmap; intros ? ].

Ltac ro_auto :=
  repeat first
    [ ro_step
    | match goal with
      | |- reads_only (if ?x then _ else _) _ => destruct x
      | |- reads_only (match ?x with _ => _ end) _ => destruct x
      end ].

Lemma ro_raw_json (key missing_table missing_key : string) :
  reads_only (raw_json key missing_table missing_key)
             (raw_json key missing_table missing_key).
Proof.
  unfold raw_json. apply ro_get_self. intros s1 s2 H. same_fields s1 s2 H.
  unfold table_present, logger_error. cbn [__table]. ro_auto.
Qed.

Lemma ro_raw_rows_json : reads_only raw_rows_json raw_rows_json.
Proof. apply ro_raw_json. Qed.

Lemma ro_get_column_definition : reads_only _get_column_definition _get_column_definition.
Proof.
  unfold _get_column_definition. apply ro_get_self. intros s1 s2 H. same_fields s1 s2 H.
  unfold table_present, logger_error. cbn [__table]. ro_auto.
Qed.

Lemma ro_column_by_id : reads_only column_by_id column_by_id.
Proof. apply ro_guarded, ro_get_column_definition. Qed.

Lemma ro_dtypes : reads_only dtypes dtypes.
Proof.
  unfold dtypes. apply ro_guarded. apply ro_bind; [apply ro_raw_rows_json|]. intros rows.
  apply ro_bind; [apply ro_column_by_id|]. intros cm. apply ro_lift.
Qed.

Lemma ro_user_info : reads_only __get_appBlanket_userInfoById __get_appBlanket_userInfoById.
Proof.
  unfold __get_appBlanket_userInfoById. apply ro_get_self. intros s1 s2 H.
  same_fields s1 s2 H. unfold table_present, logger_warning. cbn [__table].
  ro_auto.
Qed.

Lemma ro_cell_step {L : PyLib} user_by_id row_vals cell :
  reads_only (cell_step user_by_id row_vals cell) (cell_step user_by_id row_vals cell).
Proof.
  unfold cell_step. destruct cell as [col_id cell_val].
  apply ro_bind; [apply ro_column_by_id|]. intros cm.
  apply ro_bind; [apply ro_lift|]. intros col_def.
  apply ro_get_self. intros s1 s2 H. same_fields s1 s2 H. cbn [timezone].
  apply ro_bind; [|intros v; apply ro_ret]. ro_auto.
Qed.

Lemma ro_get_table_data {L : PyLib} : reads_only _get_table_data _get_table_data.
Proof.
  unfold _get_table_data.
  apply ro_bind; [apply ro_user_info|]. intros user_by_id.
  apply ro_bind; [apply ro_store_handlers|]. intros _.
  apply ro_bind; [apply ro_dtypes|]. intros table_dtypes.
  apply ro_bind; [apply ro_column_by_id|]. intros col_id_map.
  apply ro_bind; [apply ro_lift|]. intros model.
  apply ro_bind; [apply ro_raw_rows_json|]. intros raw_rows.
  apply ro_bind; [apply ro_lift|]. intros row_items.
  apply ro_mmap. intros cells.
  apply ro_bind; [|intros row_vals; apply ro_ret].
  apply ro_mfold. intros a x. apply ro_cell_step.
Qed.

Lemma ro_data {L : PyLib} : reads_only data data.
Proof. apply ro_guarded, ro_get_table_data. Qed.

Lemma ro_frame {A} (m : M A) :
  reads_only m m ->
  forall st r st', m st = (r, st') ->
    same_object (self st) (self st') /\ requests st' = requests st.
Proof.
  intros Hm st r st' E.
  destruct (Hm st st (same_object_refl _)) as (r0 & l & s1 & s2 & E1 & _ & H1 & _).
  rewrite E in E1. injection E1 as -> ->. split; [exact H1 | reflexivity].
Qed.

Lemma ro_result {A} (m : M A) :
  reads_only m m ->
  forall st1 st2, same_object (self st1) (self st2) -> fst (m st1) = fst (m st2).
Proof.
  intros Hm st1 st2 Hs.
  destruct (Hm st1 st2 Hs) as (r & l & s1 & s2 & E1 & E2 & _).
  now rewrite E1, E2.
Qed.

(** an access, and a second access in the state the first one left: both
    return [r], the first logs [l] and the second logs [l] again, no request
    is sent, and the object changes at most by the handlers stored *)
Definition read_twice {A} (m : M A) (st : state) : Prop :=
  exists r l s1 s2,
    m st = (r, mk_state s1 (log st ++ l) (requests st))
    /\ m (mk_state s1 (log st ++ l) (requests st))
       = (r, mk_state s2 ((log st ++ l) ++ l) (requests st))
    /\ same_object (self st) s1 /\ same_object (self st) s2.

Lemma ro_read_twice {A} (m : M A) : reads_only m m -> forall st, read_twice m st.
Proof.
  intros Hm st.
  destruct (Hm st st (same_object_refl _)) as (r & l & s1 & s1' & E1 & _ & H1 & _).
  destruct (Hm st (mk_state s1 (log st ++ l) (requests st)) H1)
    as (r' & l' & sa & s2 & Ea & E2 & _ & H2).
  rewrite E1 in Ea. injection Ea as <- <- Hl.
  apply app_inv_head in Hl. subst l'.
  exists r, l, s1, s2. cbn [self log requests] in *.
  repeat split; try assumption. unfold same_object in *. congruence.
Qed.

(** C3, as the code has it. On every object, a repeated access of [data],
    [column_by_id] or [dtypes] returns the same result as the first and
    sends no request.  Nothing is memoized: the second access runs the same
    computation again, which shows in the log, where it appends once more
    what the first access appended; the one thing an access stores on the
    object is the handler table, which no accessor reads. *)
Theorem C3_repeated_access {L : PyLib} (st : state) :
  read_twice data st /\ read_twice column_by_id st /\ read_twice dtypes st.
Proof.
  split; [|split]; apply ro_read_twice;
    [apply ro_data | apply ro_column_by_id | apply ro_dtypes].
Qed.

(** *** An object constructed over the network *)

Definition blank : session := mk_session "" "" [] "" "" PNone PNone "" false.

(** the state that the construction of a scraper for the sample view leaves *)
Definition constructed : state :=
  snd (__init__ view_address "America/New_York" (fresh blank)).

Lemma construction_sample :
  fst (__init__ view_address "America/New_York" (fresh blank)) = Ok tt
  /\ requests constructed = [view_address; table_address]
  /\ log constructed = []
  /\ __table (self constructed) = sample_table
  /\ __status (self constructed) = "success".
Proof. repeat split; vm_compute; reflexivity. Qed.

Lemma get_auth_data_state {L : PyLib} (st st' : state) (v : pyval) :
  _get_auth_data st = (Ok v, st') -> st' = st.
Proof.
  unfold _get_auth_data. rewrite bind_unfold. unfold get_self. rewrite bind_unfold.
  unfold lift. destruct (group_0 _) as [g|]; [|discriminate].
  destruct (String.eqb g "").
  - rewrite bind_unfold. cbn. discriminate.
  - destruct (json_loads _); cbn; [now intros [= _ <-] | discriminate].
Qed.

Lemma get_full_headers_state {L : PyLib} (st st' : state) (h : pydict) :
  _get_full_headers st = (Ok h, st') -> st' = st.
Proof.
  unfold _get_full_headers. rewrite bind_unfold.
  destruct (_get_auth_data st) as [[auth|e] st1] eqn:E; [|discriminate].
  apply get_auth_data_state in E. subst st1.
  rewrite bind_unfold. unfold get_self. rewrite bind_unfold. unfold lift.
  destruct (rmap _ auth_fields); cbn; [now intros [= _ <-] | discriminate].
Qed.

(** a construction that succeeds sends two requests: the view, then the
    address found in its page *)
Lemma construction_requests {L : PyLib} (url tz : string) (st st' : state) :
  __init__ url tz st = (Ok tt, st') ->
  exists new_url, requests st' = requests st ++ [url; new_url].
Proof.
  unfold __init__. cbn [bind set_self _get modify get_self self log requests].
  rewrite bind_unfold.
  destruct (_get_new_url _) as [[new_url|e] st1] eqn:E1; [|discriminate].
  apply get_new_url_state in E1. subst st1.
  cbn [bind set_self modify get_self self log requests]. rewrite bind_unfold.
  destruct (_get_full_headers _) as [[headers|e] st2] eqn:E2; [|discriminate].
  apply get_full_headers_state in E2. subst st2.
  cbn [bind set_self _get modify get_self self log requests].
  intros H. exists new_url.
  destruct (json_loads _) as [body|]; cbn [bind ret raise] in H; [|discriminate H].
  cbn [bind set_self modify get_self lift self log requests] in H.
  destruct (py_get body (PStr "msg")) as [msg|]; [|discriminate H].
  destruct (str_equals msg "SUCCESS").
  - cbn [bind lift] in H.
    destruct (py_get body (PStr "data")) as [d|]; [|discriminate H].
    destruct (py_get d (PStr "table")) as [t|]; [|discriminate H].
    cbn [bind set_self modify get_self self log requests] in H.
    injection H as <-. cbn [requests]. now rewrite <- app_assoc.
  - cbn [bind set_self modify get_self self log requests] in H.
    injection H as <-. cbn [requests]. now rewrite <- app_assoc.
Qed.

(** C3, as the specification has it, fails: the rows are not cached.  On
    the object constructed for the sample view, whose two requests stay the
    only ones, the first access of [data] logs the two warnings of its
    computation, and the second access computes again and logs them again. *)
Lemma C3_counterexample :
  log (snd (data constructed))
  = [unknown_type_warning "unknownType"; unknown_type_warning "unknownType"]
  /\ log (snd (data (snd (data constructed))))
     = [unknown_type_warning "unknownType"; unknown_type_warning "unknownType";
        unknown_type_warning "unknownType"; unknown_type_warning "unknownType"]
  /\ fst (data (snd (data constructed))) = fst (data constructed)
  /\ requests (snd (data (snd (data constructed)))) = [view_address; table_address].
Proof. repeat split; vm_compute; reflexivity. Qed.

(** ** The fields of the rows *)

Lemma has_dup_NoDup (l : list string) : has_dup l = false -> NoDup l.
Proof.
  induction l as [|x r IH]; simpl; intros H; constructor.
  - apply orb_false_elim in H. destruct H as [H _]. intros Hin.
    assert (Hex : existsb (String.eqb x) r = true).
    { apply existsb_exists. exists x. split; [exact Hin | apply String.eqb_refl]. }
    congruence.
  - apply IH. apply orb_false_elim in H. tauto.
Qed.


Lemma rmap_fst {A B} (f : A -> res B) (g : B -> string) (h : A -> string) (l : list A)
  (out : list B) :
  (forall a b, f a = Ok b -> g b = h a) ->
  rmap f l = Ok out -> map g out = map h l.
Proof.
  intros Hf. revert out; induction l as [|a r IH]; intros out H; simpl in H.
  - now injection H as <-.
  - destruct (f a) as [b|] eqn:E; [|discriminate H]. cbn [rbind] in H.
    destruct (rmap f r) as [bs|]; [|discriminate H]. injection H as <-.
    simpl. now rewrite (Hf _ _ E), (IH bs eq_refl).
Qed.

(** two bytes as a text: a character of Latin-1 in UTF-8 *)
Definition utf8 (a b : nat) : string := String (PyStr.chr a) (String (PyStr.chr b) "").

(** The field names on the reference library, where they follow Unicode:
    a capital E with an acute accent becomes the small letter, a no-break
    space at the end of a name is stripped, and the punctuation goes. *)
Lemma field_name_unicode :
  field_name_of (utf8 195 137 +:+ "cole") = utf8 195 169 +:+ "cole"
  /\ field_name_of ("Name" +:+ utf8 194 160) = "name"
  /\ field_name_of " Amount ($) " = "amount_".
Proof. repeat split; vm_compute; reflexivity. Qed.

(** a table with one column, the name of which starts with a capital E with
    an acute accent, and one row *)
Definition accent_session : session :=
  mk_session share_url "America/New_York" [] "" "" PNone
    (str_dict [("id", PStr "tblSample");
               ("columns", PList [column "fldSchool" (utf8 195 137 +:+ "cole") "text" PNone]);
               ("rows", PList [raw_row "rec1" [("fldSchool", PStr "Ulm")]])])
    "success" false.

Lemma accent_rows :
  fst (data (fresh accent_session)) = Ok (Some [[(utf8 195 169 +:+ "cole", PStr "Ulm")]]).
Proof. vm_compute. reflexivity. Qed.

(** the field names that the column map declares, in its order *)
Definition field_names {L : PyLib} (cm : colmap) : list string :=
  map (fun kc => field_name_of (name (snd kc))) cm.

Lemma create_row_model_fields {L : PyLib} (table_dtypes : option dtypes_t)
  (cmo : option colmap)
  (model : row_model) :
  create_row_model table_dtypes cmo = Ok model ->
  exists cm, cmo = Some cm /\ map fst model = field_names cm
             /\ NoDup (field_names cm).
Proof.
  unfold create_row_model. intros H.
  destruct cmo as [cm|]; cbn [colmap_values rbind] in H; [|discriminate H].
  destruct (rmap _ (map snd cm)) as [fields|] eqn:Hf; [|discriminate H].
  cbn [rbind] in H. unfold eval_create_model in H.
  destruct (negb _ || has_dup (map fst fields)) eqn:Hdup; [discriminate H|].
  destruct (negb (forallb (fun f => forallb resolvable (snd f)) fields));
    [discriminate H|].
  destruct (first_error _); [discriminate H|]. injection H as <-.
  assert (Hnames : map fst fields = field_names cm).
  { unfold field_names. rewrite <- (map_map snd (fun cd => field_name_of (name cd))).
    eapply rmap_fst; [|exact Hf]. intros cd b Hb. cbn beta in Hb.
    destruct table_dtypes; [|discriminate Hb]. cbn [rbind] in Hb.
    now injection Hb as <-. }
  exists cm. repeat split; [exact Hnames|].
  rewrite <- Hnames. apply has_dup_NoDup.
  apply orb_false_elim in Hdup. tauto.
Qed.

Lemma colmap_find_In (m : colmap) (k : pyval) (cd : ColumnDefinition) :
  colmap_find m k = Some cd -> exists k', In (k', cd) m /\ key_eqb k' k = true.
Proof.
  induction m as [|[k0 cd0] r IH]; simpl; intros H; [discriminate H|].
  destruct (key_eqb k0 k) eqn:E.
  - injection H as <-. exists k0. auto.
  - destruct (IH H) as (k' & Hin & Hk). exists k'. auto.
Qed.

Lemma mmap_inv {A B} (F : A -> M B) (Inv : state -> Prop) (P : A -> B -> Prop) :
  (forall x st y st', Inv st -> F x st = (Ok y, st') -> P x y /\ Inv st') ->
  forall l st ys st', Inv st -> mmap F l st = (Ok ys, st') -> Forall2 P l ys /\ Inv st'.
Proof.
  intros HF. induction l as [|x r IH]; intros st ys st' Hinv H; simpl in H.
  - injection H as <- <-. split; [constructor | exact Hinv].
  - rewrite bind_unfold in H. destruct (F x st) as [[y|e] st1] eqn:E; [|discriminate H].
    destruct (HF _ _ _ _ Hinv E) as [Hp Hinv1].
    rewrite bind_unfold in H.
    destruct (mmap F r st1) as [[ys'|e] st2] eqn:E'; [|discriminate H].
    injection H as <- <-. destruct (IH _ _ _ Hinv1 E') as [Hf Hinv2].
    split; [constructor; assumption | exact Hinv2].
Qed.




Lemma same_object_trans (a b c : session) :
  same_object a b -> same_object b c -> same_object a c.
Proof. unfold same_object. congruence. Qed.

Lemma same_object_sym (a b : session) : same_object a b -> same_object b a.
Proof. unfold same_object. congruence. Qed.





(** the rows of the sample table *)
Definition sample_data : list row :=
  [[("full_name", PStr "Ada"); ("amount_", PInt 5); ("status", PStr "Done");
    ("when", quoted "January 01, 2024"); ("mystery", PList [PInt 1; PInt 2])];
   [("full_name", PStr "Bob"); ("amount_", PNone); ("status", PNone);
    ("when", PNone); ("mystery", PStr "raw")]].

Lemma sample_data_run :
  data (fresh sample_session)
  = (Ok (Some sample_data), snd (data (fresh sample_session))).
Proof. vm_compute. reflexivity. Qed.


(** ** The group of an id pattern is never empty

    The group of the patterns of the request id and of the share id takes
    one character at least.  So the test [if not request_id] that follows
    the search never succeeds: these two methods cannot return an empty
    string. *)

Definition ungrouped (p : pattern) : Prop :=
  Forall (fun it => match it with Atom _ _ => True | _ => False end) p.

Lemma star_greedy_inv {R} (c : ascii -> bool) (k : string -> option R) (s : string) (r : R) :
  star_greedy c k s = Some r ->
  exists s', k s' = Some r /\ (String.length s' <= String.length s)%nat.
Proof.
  induction s as [|x t IH]; simpl; intros H; [eauto|].
  destruct (c x); [|eauto].
  destruct (star_greedy c k t) as [m|] eqn:E.
  - injection H as <-. destruct (IH eq_refl) as (s' & Hk & Hl). eauto.
  - eauto.
Qed.

Lemma star_lazy_inv {R} (c : ascii -> bool) (k : string -> option R) (s : string) (r : R) :
  star_lazy c k s = Some r ->
  exists s', k s' = Some r /\ (String.length s' <= String.length s)%nat.
Proof.
  induction s as [|x t IH]; simpl; intros H.
  - destruct (k "") eqn:E; [injection H as <-; eauto | discriminate H].
  - destruct (k (String x t)) eqn:E; [injection H as <-; eauto|].
    destruct (c x); [|discriminate H].
    destruct (IH H) as (s' & Hk & Hl). eauto.
Qed.

Lemma match_here_ungrouped (p : pattern) :
  ungrouped p ->
  forall s g rest g', match_here p s g = Some (rest, g') ->
    g' = g /\ (String.length rest <= String.length s)%nat.
Proof.
  induction 1 as [|it p Hit _ IH]; intros s g rest g' H; simpl in H.
  - injection H as <- <-. auto.
  - destruct it as [c q| |]; try contradiction. destruct q.
    + destruct s as [|x t]; [discriminate H|]. destruct (c x); [|discriminate H].
      destruct (IH _ _ _ _ H). simpl. auto.
    + apply star_greedy_inv in H. destruct H as (s' & H & Hl).
      destruct (IH _ _ _ _ H). split; [assumption | lia].
    + destruct s as [|x t]; [discriminate H|]. destruct (c x); [|discriminate H].
      apply star_greedy_inv in H. destruct H as (s' & H & Hl).
      destruct (IH _ _ _ _ H). simpl. split; [assumption | lia].
    + apply star_lazy_inv in H. destruct H as (s' & H & Hl).
      destruct (IH _ _ _ _ H). split; [assumption | lia].
Qed.

Lemma match_here_group (p1 p2 : pattern) (c : ascii -> bool) :
  ungrouped p1 -> ungrouped p2 ->
  forall s g rest gs ge,
    match_here (p1 ++ [Open; Atom c Plus; Close] ++ p2) s g = Some (rest, (gs, ge)) ->
    (String.length ge < String.length gs)%nat.
Proof.
  intros H1 H2. induction H1 as [|it p Hit _ IH]; intros s g rest gs ge H; simpl in H.
  - destruct s as [|x t]; [discriminate H|]. destruct (c x); [|discriminate H].
    apply star_greedy_inv in H. destruct H as (s' & H & Hl).
    destruct (match_here_ungrouped p2 H2 _ _ _ _ H) as [Hg _].
    injection Hg as -> ->. simpl. lia.
  - destruct it as [c0 q| |]; try contradiction. destruct q.
    + destruct s as [|x t]; [discriminate H|]. destruct (c0 x); [|discriminate H]. eauto.
    + apply star_greedy_inv in H. destruct H as (s' & H & _). eauto.
    + destruct s as [|x t]; [discriminate H|]. destruct (c0 x); [|discriminate H].
      apply star_greedy_inv in H. destruct H as (s' & H & _). eauto.
    + apply star_lazy_inv in H. destruct H as (s' & H & _). eauto.
Qed.

Lemma upto_nonempty (s rest : string) :
  (String.length rest < String.length s)%nat -> upto s rest <> "".
Proof.
  unfold upto. destruct s as [|x t]; cbn [String.length]; intros H; [lia|].
  destruct (S (String.length t) - String.length rest)%nat eqn:E; [lia|].
  cbn [substring]. discriminate.
Qed.

Lemma re_search_group_nonempty (p1 p2 : pattern) (c : ascii -> bool) :
  ungrouped p1 -> ungrouped p2 ->
  forall s m, re_search (p1 ++ [Open; Atom c Plus; Close] ++ p2) s = Some m ->
              group1 m <> "".
Proof.
  intros H1 H2. induction s as [|x t IH]; intros m H;
    cbn [re_search] in H;
    destruct (match_here _ _ _) as [[rest [gs ge]]|] eqn:E;
    try discriminate H; try (now apply IH);
    injection H as <-; cbn [group1]; apply upto_nonempty;
    exact (match_here_group p1 p2 c H1 H2 _ _ _ _ _ E).
Qed.

(** [_get_request_id] and [_get_share_id] never return an empty string *)
Lemma id_never_empty (st : state) :
  fst (_get_request_id st) <> Ok "" /\ fst (_get_share_id st) <> Ok "".
Proof.
  assert (Hq : ungrouped [qt]) by (repeat constructor).
  split.
  - unfold _get_request_id. rewrite bind_unfold. unfold get_self. rewrite bind_unfold.
    unfold lift.
    destruct (re_search re_requestId (__page (self st))) as [m|] eqn:E;
      [|intros H; discriminate H].
    cbn [group_1].
    assert (Hne : group1 m <> "").
    { apply (re_search_group_nonempty (lit "requestId:" ++ [ws; qt]) [qt]
               (not_char PyStr.quote)) with (s := __page (self st));
        [repeat constructor | exact Hq | exact E]. }
    destruct (String.eqb_spec (group1 m) ""); [contradiction|].
    intros H. injection H as H. contradiction.
  - unfold _get_share_id. rewrite bind_unfold. unfold get_self. rewrite bind_unfold.
    unfold lift.
    destruct (re_search re_sharedViewId (__page (self st))) as [m|] eqn:E;
      [|intros H; discriminate H].
    cbn [group_1].
    assert (Hne : group1 m <> "").
    { apply (re_search_group_nonempty ([qt] ++ lit "sharedViewId" ++ [qt] ++ lit ":"
                                        ++ [ws; qt]) [qt]
               (not_char PyStr.quote)) with (s := __page (self st));
        [repeat constructor | exact Hq | exact E]. }
    destruct (String.eqb_spec (group1 m) ""); [contradiction|].
    intros H. injection H as H. contradiction.
Qed.

(* ================================================================== *)
(** * Further properties of the package *)

(** ** The id properties *)

(** X1. The [request_id] and [share_id] properties return null or a string
    of one character at least: the empty string that the docstrings of
    [_get_request_id] and [_get_share_id] announce is never returned, by the
    method or by the property. *)
Theorem X1_ids_never_empty (st : state) :
  fst (_get_request_id st) <> Ok ""
  /\ fst (_get_share_id st) <> Ok ""
  /\ fst (request_id st) <> Ok (Some "")
  /\ fst (share_id st) <> Ok (Some "").
Proof.
  destruct (id_never_empty st) as [Hr Hs].
  split; [exact Hr|]. split; [exact Hs|]. split.
  - unfold request_id, guarded.
    destruct (_get_request_id st) as [[s|e] st1]; cbn [fst] in *; [|discriminate].
    intros [= ->]. now apply Hr.
  - unfold share_id, guarded.
    destruct (_get_share_id st) as [[s|e] st1]; cbn [fst] in *; [|discriminate].
    intros [= ->]. now apply Hs.
Qed.

(** ** Construction *)

Lemma init_sample :
  __init__ view_address "America/New_York" (fresh blank) = (Ok tt, constructed).
Proof. vm_compute. reflexivity. Qed.

(** X2. A construction that returns has sent exactly two requests, first to
    the address of the view and then to the address found in its page, has
    logged nothing, and leaves the object either with status ["success"] or
    with status ["failed"] and the empty table. *)
Theorem X2_construction_outcome {L : PyLib} (url tz : string) (st st' : state) :
  __init__ url tz st = (Ok tt, st') ->
  requests st' = requests st ++ [url; _new_url (self st')]
  /\ log st' = log st
  /\ _url (self st') = url
  /\ timezone (self st') = tz
  /\ (__status (self st') = "success"
      \/ (__status (self st') = "failed" /\ __table (self st') = PDict [])).
Proof.
  unfold __init__. cbn [bind set_self _get modify get_self self log requests].
  rewrite bind_unfold.
  destruct (_get_new_url _) as [[new_url|e] st1] eqn:E1; [|discriminate].
  apply get_new_url_state in E1. subst st1.
  cbn [bind set_self modify get_self self log requests]. rewrite bind_unfold.
  destruct (_get_full_headers _) as [[headers|e] st2] eqn:E2; [|discriminate].
  apply get_full_headers_state in E2. subst st2.
  cbn [bind set_self _get modify get_self self log requests].
  intros H.
  destruct (json_loads _) as [body|]; cbn [bind ret raise] in H; [|discriminate H].
  cbn [bind set_self modify get_self lift self log requests] in H.
  destruct (py_get body (PStr "msg")) as [msg|]; [|discriminate H].
  destruct (str_equals msg "SUCCESS").
  - cbn [bind lift] in H.
    destruct (py_get body (PStr "data")) as [d|]; [|discriminate H].
    destruct (py_get d (PStr "table")) as [t|]; [|discriminate H].
    cbn [bind set_self modify get_self self log requests] in H.
    injection H as <-. cbn. rewrite <- app_assoc.
    repeat split. now left.
  - cbn [bind set_self modify get_self self log requests] in H.
    injection H as <-. cbn. rewrite <- app_assoc.
    repeat split. right. now split.
Qed.

Lemma X2_construction_outcome_witness :
  requests constructed = [view_address; table_address]
  /\ log constructed = []
  /\ __status (self constructed) = "success".
Proof.
  destruct (X2_construction_outcome (L := lib) view_address "America/New_York"
              (fresh blank) constructed init_sample) as (Hr & Hl & _ & _ & _).
  split; [rewrite Hr; vm_compute; reflexivity|].
  split; [rewrite Hl; reflexivity | vm_compute; reflexivity].
Defined.

Lemma no_table_column_by_id (st : state) :
  table_present (self st) = false ->
  column_by_id st
  = (Ok None,
     mk_state (self st)
       (log st ++ [mk_log ERROR "Table don't exist. Cannot get column definitions" None;
                   mk_log ERROR "Error getting column definition" (Some RuntimeError)])
       (requests st)).
Proof.
  intros H. unfold column_by_id, guarded, _get_column_definition.
  rewrite bind_unfold. cbn [get_self]. rewrite H. cbn. rewrite <- app_assoc. reflexivity.
Qed.

Lemma no_table_raw_rows (st : state) :
  table_present (self st) = false ->
  raw_rows_json st
  = (Ok PNone,
     mk_state (self st)
       (log st ++ [mk_log ERROR "Table does not exist. Cannot find row data" None])
       (requests st)).
Proof.
  intros H. unfold raw_rows_json, raw_json.
  rewrite bind_unfold. cbn [get_self]. rewrite H. reflexivity.
Qed.

Definition no_table_errors : list log_record :=
  [mk_log ERROR "Table does not exist. Cannot find row data" None;
   mk_log ERROR "Table don't exist. Cannot get column definitions" None;
   mk_log ERROR "Error getting column definition" (Some RuntimeError);
   mk_log ERROR "Error getting table datatypes" (Some AttributeError)].

Lemma no_table_dtypes (st : state) :
  table_present (self st) = false ->
  dtypes st
  = (Ok None, mk_state (self st) (log st ++ no_table_errors) (requests st)).
Proof.
  intros H. unfold dtypes, guarded. rewrite bind_unfold.
  rewrite (no_table_raw_rows st H). rewrite bind_unfold.
  rewrite no_table_column_by_id by exact H.
  cbn. rewrite <- !app_assoc. reflexivity.
Qed.

Lemma no_table_data {L : PyLib} (st : state) :
  table_present (self st) = false ->
  data st
  = (Ok None,
     mk_state (with_type_handlers (self st))
       (log st ++ no_table_errors
          ++ [mk_log ERROR "Table don't exist. Cannot get column definitions" None;
              mk_log ERROR "Error getting column definition" (Some RuntimeError);
              mk_log ERROR "Error getting table data" (Some AttributeError)])
       (requests st)).
Proof.
  intros H. unfold data, guarded, _get_table_data. rewrite bind_unfold.
  unfold __get_appBlanket_userInfoById at 1. rewrite bind_unfold.
  cbn [get_self]. rewrite H. cbn [ret]. rewrite bind_unfold. cbn [modify get_self bind set_self self log requests].
  rewrite bind_unfold. rewrite no_table_dtypes by exact H.
  rewrite bind_unfold. rewrite no_table_column_by_id by exact H.
  cbn. rewrite <- !app_assoc. reflexivity.
Qed.

(** X3. On an object that holds no table (the second request failed, or
    the table is empty), [column_by_id], [dtypes] and [data] return null,
    [data] having logged seven records, all errors, and sent no request; and
    [to_dict], in either orientation, raises [TypeError]. *)
Theorem X3_no_table {L : PyLib} (st : state) (orient : string) (pass_to_json : bool) :
  table_present (self st) = false ->
  fst (column_by_id st) = Ok None
  /\ fst (dtypes st) = Ok None
  /\ fst (data st) = Ok None
  /\ List.length (log (snd (data st))) = (List.length (log st) + 7)%nat
  /\ Forall (fun r => levelname r = ERROR) (skipn (List.length (log st)) (log (snd (data st))))
  /\ requests (snd (data st)) = requests st
  /\ (In orient ["records"; "index"] ->
      fst (to_dict orient pass_to_json st) = Raise TypeError).
Proof.
  intros H.
  split; [now rewrite no_table_column_by_id|].
  split; [now rewrite no_table_dtypes|].
  split; [now rewrite no_table_data|].
  split; [rewrite no_table_data by exact H; cbn [snd log]; rewrite List.length_app; reflexivity|].
  split.
  { rewrite no_table_data by exact H. cbn [snd log].
    rewrite skipn_app, skipn_all, Nat.sub_diag. cbn. repeat constructor. }
  split; [now rewrite no_table_data|].
  intros Ho. unfold to_dict.
  assert (Hex : existsb (String.eqb orient) ["records"; "index"] = true).
  { apply existsb_exists. exists orient. split; [exact Ho | apply String.eqb_refl]. }
  rewrite Hex. cbn [negb]. rewrite bind_unfold.
  rewrite no_table_data by exact H. reflexivity.
Qed.

Lemma X3_no_table_witness :
  fst (data (fresh (failed_session bare_page))) = Ok None
  /\ fst (to_dict "records" false (fresh (failed_session bare_page))) = Raise TypeError.
Proof.
  destruct (X3_no_table (L := lib) (fresh (failed_session bare_page)) "records" false
              eq_refl) as (_ & _ & Hd & _ & _ & _ & Ht).
  split; [exact Hd | apply Ht; now left].
Defined.

(** ** The rows, cell by cell *)

(** the value that a cell of a column decodes to: the output of the handler
    of the column's type, the raw value when the type has none *)
Definition decode {L : PyLib} (user_by_id : option pydict) (tz : string)
  (col_def : ColumnDefinition) (cell_val : pyval) : res pyval :=
  match sdict_find (type_handlers user_by_id tz col_def) (type col_def) with
  | Some h => h cell_val
  | None => Ok cell_val
  end.

(** what one turn of the inner loop of [_get_table_data] computes, the log
    aside, once the column map is known *)
Definition decode_cell {L : PyLib} (cm : colmap) (user_by_id : option pydict) (tz : string)
  (row_vals : list (string * pyval)) (cell : pyval * pyval)
  : res (list (string * pyval)) :=
  (col_def <- column_of (Some cm) (fst cell) ;;
   v <- decode user_by_id tz col_def (snd cell) ;;
   Ok (sdict_put row_vals (field_name_of (name col_def)) v))%res.

Lemma mfold_rfold {A B} (F : A -> B -> M A) (f : A -> B -> res A) (Inv : state -> Prop) :
  (forall a x st a' st', Inv st -> F a x st = (Ok a', st') -> f a x = Ok a' /\ Inv st') ->
  forall l a st a' st',
    Inv st -> mfold F l a st = (Ok a', st') -> rfold f l a = Ok a' /\ Inv st'.
Proof.
  intros HF. induction l as [|x r IH]; intros a st a' st' Hinv H; simpl in H.
  - injection H as <- <-. auto.
  - rewrite bind_unfold in H. destruct (F a x st) as [[a1|e] st1] eqn:E; [|discriminate H].
    destruct (HF _ _ _ _ _ Hinv E) as [Hf Hinv1].
    cbn [rfold]. rewrite Hf. cbn [rbind]. eapply IH; eauto.
Qed.

Lemma same_object_timezone (a b : session) : same_object a b -> timezone a = timezone b.
Proof. unfold same_object, with_type_handlers. congruence. Qed.

Lemma cell_step_decode {L : PyLib} (s0 : session) (cm : colmap) user_by_id row_vals cell
  st row_vals' st' :
  fst (column_by_id (mk_state s0 [] [])) = Ok (Some cm) ->
  same_object s0 (self st) ->
  cell_step user_by_id row_vals cell st = (Ok row_vals', st') ->
  decode_cell cm user_by_id (timezone s0) row_vals cell = Ok row_vals'
  /\ same_object s0 (self st').
Proof.
  intros Hcm Hs H. split.
  - unfold cell_step in H. destruct cell as [col_id cell_val].
    rewrite bind_unfold in H.
    pose proof (ro_result _ ro_column_by_id (mk_state s0 [] []) st Hs) as Hres.
    rewrite Hcm in Hres.
    destruct (column_by_id st) as [[cmo|e] st1] eqn:Ecm; [|discriminate H].
    cbn [fst] in Hres. injection Hres as <-.
    destruct (ro_frame _ ro_column_by_id _ _ _ Ecm) as [S1 _].
    rewrite bind_unfold in H. unfold lift at 1 in H.
    unfold decode_cell. cbn [fst snd].
    destruct (column_of (Some cm) col_id) as [cd|e] eqn:Hcol; [|discriminate H].
    cbn [rbind]. rewrite bind_unfold in H. unfold get_self at 1 in H.
    rewrite bind_unfold in H. unfold decode.
    rewrite (same_object_timezone _ _ (same_object_trans _ _ _ Hs S1)).
    destruct (sdict_find _ _) as [h|].
    + unfold lift in H. destruct (h cell_val) as [v|e]; [|discriminate H].
      injection H as <- _. reflexivity.
    + rewrite bind_unfold in H. cbn [emit ret] in H.
      injection H as <- _. reflexivity.
  - destruct (ro_frame _ (ro_cell_step user_by_id row_vals cell) _ _ _ H) as [Hf _].
    unfold same_object in *. congruence.
Qed.

(** the rows that [data] returns, as a function of the column map, the
    directory of users, the time zone and the raw cells *)
Definition decoded_row {L : PyLib} (cm : colmap) (user_by_id : option pydict) (tz : string)
  (cells : pydict) (r : row) : Prop :=
  exists row_vals model,
    rfold (decode_cell cm user_by_id tz) cells [] = Ok row_vals
    /\ map fst model = field_names cm
    /\ r = Row model row_vals.

Lemma data_rows {L : PyLib} (st st' : state) (rows : list row) :
  data st = (Ok (Some rows), st') ->
  exists (cm : colmap) (raw : pyval) (items : list pydict) (user_by_id : option pydict),
    fst (column_by_id st) = Ok (Some cm)
    /\ fst (raw_rows_json st) = Ok raw
    /\ row_items_of raw = Ok items
    /\ fst (__get_appBlanket_userInfoById st) = Ok user_by_id
    /\ NoDup (field_names cm)
    /\ same_object (self st) (self st')
    /\ Forall2 (decoded_row cm user_by_id (timezone (self st))) items rows
    /\ exists table_dtypes model,
         fst (dtypes st) = Ok table_dtypes
         /\ create_row_model table_dtypes (Some cm) = Ok model.
Proof.
  unfold data, guarded. intros H.
  destruct (_get_table_data st) as [[rows'|e] st0] eqn:E; [|discriminate H].
  injection H as -> ->.
  destruct (ro_frame _ ro_get_table_data _ _ _ E) as [S0 _].
  unfold _get_table_data in E.
  rewrite bind_unfold in E.
  destruct (__get_appBlanket_userInfoById st) as [[user_by_id|e] st1] eqn:E1;
    [|discriminate E].
  destruct (ro_frame _ ro_user_info _ _ _ E1) as [S1 _].
  rewrite bind_unfold in E.
  destruct (modify with_type_handlers st1) as [[[]|e] st2] eqn:E2; [|discriminate E].
  destruct (ro_frame _ ro_store_handlers _ _ _ E2) as [S2 _].
  rewrite bind_unfold in E.
  destruct (dtypes st2) as [[table_dtypes|e] st3] eqn:E3; [|discriminate E].
  destruct (ro_frame _ ro_dtypes _ _ _ E3) as [S3 _].
  rewrite bind_unfold in E.
  destruct (column_by_id st3) as [[cmo|e] st4] eqn:E4; [|discriminate E].
  destruct (ro_frame _ ro_column_by_id _ _ _ E4) as [S4 _].
  rewrite bind_unfold in E. unfold lift at 1 in E.
  destruct (create_row_model table_dtypes cmo) as [model|e] eqn:E5; [|discriminate E].
  rewrite bind_unfold in E.
  destruct (raw_rows_json st4) as [[raw|e] st5] eqn:E6; [|discriminate E].
  destruct (ro_frame _ ro_raw_rows_json _ _ _ E6) as [S6 _].
  rewrite bind_unfold in E. unfold lift at 1 in E.
  destruct (row_items_of raw) as [items|e] eqn:E7; [|discriminate E].
  destruct (create_row_model_fields _ _ _ E5) as (cm & -> & Hfields & Hnd).
  assert (S03 : same_object (self st) (self st3)).
  { eauto using same_object_trans. }
  assert (S05 : same_object (self st) (self st5)).
  { eauto using same_object_trans. }
  assert (Hcm : forall stx, same_object (self st) (self stx) ->
                            fst (column_by_id stx) = Ok (Some cm)).
  { intros stx Hx.
    rewrite (ro_result _ ro_column_by_id stx st3), E4; [reflexivity|].
    eauto using same_object_trans, same_object_sym. }
  exists cm, raw, items, user_by_id.
  split; [apply Hcm, same_object_refl|].
  split.
  { rewrite (ro_result _ ro_raw_rows_json st st4), E6; [reflexivity|].
    eauto using same_object_trans. }
  split; [exact E7|].
  split; [reflexivity|].
  split; [exact Hnd|]. split; [exact S0|].
  split.
  2:{ exists table_dtypes, model. split; [|exact E5].
      rewrite (ro_result _ ro_dtypes st st2), E3; [reflexivity|].
      eauto using same_object_trans. }
  refine (proj1 (mmap_inv _ (fun stx => same_object (self st) (self stx))
                   (decoded_row cm user_by_id (timezone (self st))) _
                   items st5 rows st' S05 E)).
  clear E. intros cells stx r stx' Hx Hrow.
  rewrite bind_unfold in Hrow.
  destruct (mfold (cell_step user_by_id) cells [] stx) as [[row_vals|e] sty] eqn:Efold;
    [|discriminate Hrow].
  injection Hrow as <- <-.
  destruct (mfold_rfold (cell_step user_by_id)
              (decode_cell cm user_by_id (timezone (self st)))
              (fun s => same_object (self st) (self s)))
    with (l := cells) (a := @nil (string * pyval)) (st := stx)
         (a' := row_vals) (st' := sty) as [Hq Hy]; auto.
  - intros a x s a' s' Hs Hstep.
    apply (cell_step_decode (self st) cm user_by_id a x s a' s'); auto.
    apply (Hcm (mk_state (self st) [] [])), same_object_refl.
  - split; [|exact Hy]. exists row_vals, model. auto.
Qed.


Lemma rfold_step {A B} (f : A -> B -> res A) (l : list B) (x : B) (a a' : A) :
  rfold f l a = Ok a' -> In x l -> exists a1 a2, f a1 x = Ok a2.
Proof.
  revert a. induction l as [|y r IH]; intros a H Hin; [destruct Hin|].
  simpl in H. destruct (f a y) as [a1|e] eqn:E; [|discriminate H].
  destruct Hin as [->|Hin]; [now exists a, a1 | exact (IH _ H Hin)].
Qed.

Lemma decode_cell_inv {L : PyLib} cm user_by_id tz row_vals cell row_vals' :
  decode_cell cm user_by_id tz row_vals cell = Ok row_vals' ->
  exists cd v, column_of (Some cm) (fst cell) = Ok cd
               /\ decode user_by_id tz cd (snd cell) = Ok v
               /\ row_vals' = sdict_put row_vals (field_name_of (name cd)) v.
Proof.
  unfold decode_cell. intros H.
  destruct (column_of (Some cm) (fst cell)) as [cd|e]; [|discriminate H].
  cbn [rbind] in H.
  destruct (decode user_by_id tz cd (snd cell)) as [v|e] eqn:E; [|discriminate H].
  injection H as <-. exists cd, v. repeat split. exact E.
Qed.

Lemma column_of_In (cm : colmap) (k : pyval) (cd : ColumnDefinition) :
  column_of (Some cm) k = Ok cd -> exists k', In (k', cd) cm /\ key_eqb k' k = true.
Proof.
  unfold column_of. destruct (hashable k); [|discriminate].
  destruct (colmap_find cm k) as [cd'|] eqn:E; [|discriminate].
  intros [= ->]. exact (colmap_find_In _ _ _ E).
Qed.






Lemma Forall2_In_l {A B} (P : A -> B -> Prop) (l : list A) (l' : list B) (x : A) :
  Forall2 P l l' -> In x l -> exists y, P x y.
Proof.
  induction 1 as [|a b r r' Hab _ IH]; intros Hin; [destruct Hin|].
  destruct Hin as [->|Hin]; [now exists b | exact (IH Hin)].
Qed.

(** [data] returns null whenever it does not return rows, and has then
    logged the exception *)
Lemma data_none {L : PyLib} (st : state) :
  (forall rows st', data st <> (Ok (Some rows), st')) ->
  fst (data st) = Ok None
  /\ exists l e, log (snd (data st)) = l ++ [mk_log ERROR "Error getting table data" (Some e)].
Proof.
  intros Hno. unfold data, guarded in *.
  destruct (_get_table_data st) as [[rows|e] st1]; [now contradiction (Hno rows st1)|].
  split; [reflexivity|]. cbn [snd logger_error emit log]. now exists (log st1), e.
Qed.

Lemma undecodable_cell_no_rows {L : PyLib} (st : state) (cm : colmap) (raw : pyval)
  (items : list pydict) (user_by_id : option pydict) (cells : pydict)
  (cell : pyval * pyval) :
  fst (column_by_id st) = Ok (Some cm) ->
  fst (raw_rows_json st) = Ok raw ->
  row_items_of raw = Ok items ->
  fst (__get_appBlanket_userInfoById st) = Ok user_by_id ->
  In cells items -> In cell cells ->
  (forall cd, column_of (Some cm) (fst cell) = Ok cd ->
              exists e, decode user_by_id (timezone (self st)) cd (snd cell) = Raise e) ->
  forall rows st', data st <> (Ok (Some rows), st').
Proof.
  intros H1 H2 H3 H4 Hcells Hcell Hbad rows st' E.
  destruct (data_rows st st' rows E)
    as (cm' & raw' & items' & ub' & H1' & H2' & H3' & H4' & _ & _ & HF & _).
  rewrite H1 in H1'. injection H1' as <-.
  rewrite H2 in H2'. injection H2' as <-.
  rewrite H3 in H3'. injection H3' as <-.
  rewrite H4 in H4'. injection H4' as <-.
  destruct (Forall2_In_l _ _ _ _ HF Hcells) as (r & rv & model & Hfold & _).
  destruct (rfold_step _ _ _ _ _ Hfold Hcell) as (a1 & a2 & Hstep).
  destruct (decode_cell_inv _ _ _ _ _ _ Hstep) as (cd & v & Hc & Hv & _).
  destruct (Hbad cd Hc) as [e He]. rewrite He in Hv. discriminate Hv.
Qed.

(** X5. One cell is enough to lose the table: when a cell of a raw row
    names a column that the column map does not hold, or the handler of its
    column raises on its value, [data] returns null for the whole table, and
    the last record it logs is the error of the property. *)
Theorem X5_undecodable_cell {L : PyLib} (st : state) (cm : colmap) (raw : pyval)
  (items : list pydict) (user_by_id : option pydict) (cells : pydict)
  (cell : pyval * pyval) :
  fst (column_by_id st) = Ok (Some cm) ->
  fst (raw_rows_json st) = Ok raw ->
  row_items_of raw = Ok items ->
  fst (__get_appBlanket_userInfoById st) = Ok user_by_id ->
  In cells items -> In cell cells ->
  (forall cd, column_of (Some cm) (fst cell) = Ok cd ->
              exists e, decode user_by_id (timezone (self st)) cd (snd cell) = Raise e) ->
  fst (data st) = Ok None
  /\ exists l e, log (snd (data st)) = l ++ [mk_log ERROR "Error getting table data" (Some e)].
Proof.
  intros H1 H2 H3 H4 Hcells Hcell Hbad. apply data_none.
  exact (undecodable_cell_no_rows st cm raw items user_by_id cells cell
           H1 H2 H3 H4 Hcells Hcell Hbad).
Qed.

(** a table of which one row has a cell for a column that the table does not
    declare *)
Definition stray_rows : pyval :=
  PList [raw_row "rec1" [("fldName", PStr "Ada")];
         raw_row "rec2" [("fldName", PStr "Bob"); ("fldGone", PInt 1)]].

Definition stray_session : session :=
  mk_session share_url "America/New_York" [] "" "" PNone
    (str_dict [("id", PStr "tblSample"); ("columns", sample_columns);
               ("rows", stray_rows)])
    "success" false.

Lemma X5_undecodable_cell_witness :
  fst (data (fresh stray_session)) = Ok None
  /\ exists l e,
       log (snd (data (fresh stray_session)))
       = l ++ [mk_log ERROR "Error getting table data" (Some e)].
Proof.
  eapply (X5_undecodable_cell (L := lib) (fresh stray_session) _ _ _ _
            [(PStr "fldName", PStr "Bob"); (PStr "fldGone", PInt 1)]
            (PStr "fldGone", PInt 1)).
  - vm_compute. reflexivity.
  - vm_compute. reflexivity.
  - vm_compute. reflexivity.
  - vm_compute. reflexivity.
  - right. left. reflexivity.
  - right. left. reflexivity.
  - intros cd H. vm_compute in H. discriminate H.
Defined.

(** ** The records of [to_dict] *)

Lemma sdict_put_new {A} (d : list (string * A)) (k : string) (v : A) :
  ~ In k (map fst d) -> sdict_put d k v = d ++ [(k, v)].
Proof.
  induction d as [|[k' v'] r IH]; simpl; intros Hnot; [reflexivity|].
  destruct (String.eqb_spec k' k) as [->|Hne]; [exfalso; apply Hnot; now left|].
  rewrite IH; [reflexivity|]. intros Hin. apply Hnot. now right.
Qed.

Lemma sdict_find_In {A} (d : list (string * A)) (k : string) (v : A) :
  NoDup (map fst d) -> In (k, v) d -> sdict_find d k = Some v.
Proof.
  induction d as [|[k' v'] r IH]; simpl; intros Hnd Hin; [destruct Hin|].
  inversion Hnd as [|? ? Hnotin Hnd']; subst.
  destruct Hin as [[= -> ->]|Hin]; [now rewrite String.eqb_refl|].
  destruct (String.eqb_spec k' k) as [->|Hne]; [|exact (IH Hnd' Hin)].
  exfalso. apply Hnotin. exact (in_map fst r (k, v) Hin).
Qed.

Lemma getitem_In {A} (d : list (string * A)) (k : string) (v : A) :
  NoDup (map fst d) -> In (k, v) d -> getitem d k = Ok v.
Proof. intros Hnd Hin. unfold getitem. now rewrite (sdict_find_In d k v Hnd Hin). Qed.

Lemma NoDup_app_head {A} (pre suf : list A) (x : A) :
  NoDup (pre ++ x :: suf) -> ~ In x pre.
Proof.
  intros H Hin. apply NoDup_remove_2 in H. apply H, in_or_app. now left.
Qed.

Lemma combine_snoc {A B} (l1 : list A) (l2 : list B) (a : A) (b : B) :
  List.length l1 = List.length l2 ->
  combine (l1 ++ [a]) (l2 ++ [b]) = combine l1 l2 ++ [(a, b)].
Proof.
  revert l2. induction l1 as [|x r IH]; intros [|y r'] H; try discriminate H.
  - reflexivity.
  - simpl. rewrite IH; [reflexivity | now injection H].
Qed.

(** the text that a value of a row becomes in a record *)
Definition shown {L : PyLib} (pass_to_json : bool) (v : pyval) : string :=
  if pass_to_json then none_filter v else PyStr.replace dq "" (none_filter v).

Lemma filter_row_fields {L : PyLib} (r : row) :
  NoDup (map fst r) ->
  filter_row r = Ok (map (fun kv => (fst kv, none_filter (snd kv))) r).
Proof.
  intros Hnd. unfold filter_row.
  set (g := fun kv : string * pyval => (fst kv, none_filter (snd kv))).
  assert (H : forall suf pre, r = pre ++ suf ->
            rfold (fun acc k => v <- getitem r k ;; Ok (sdict_put acc k (none_filter v)))%res
                  (map fst suf) (map g pre) = Ok (map g r)).
  { induction suf as [|[k v] suf IH]; intros pre ->; cbn [map rfold fst].
    - now rewrite app_nil_r.
    - unfold getitem. rewrite (sdict_find_In _ k v Hnd); [|apply in_or_app; right; now left].
      cbn [rbind]. rewrite sdict_put_new.
      + specialize (IH (pre ++ [(k, v)])). rewrite map_app in IH. cbn [map] in IH.
        apply IH. now rewrite <- app_assoc.
      + rewrite map_map. cbn [g fst]. rewrite map_app in Hnd. cbn [map fst] in Hnd.
        exact (NoDup_app_head _ _ _ Hnd). }
  exact (H r [] eq_refl).
Qed.

Lemma rename_row_fields (header : list string) (r : record) :
  NoDup (map fst r) -> NoDup header -> List.length header = List.length r ->
  rename_row header r = Ok (combine header (map snd r)).
Proof.
  intros Hnd Hh Hlen. unfold rename_row.
  assert (H : forall suf pre hsuf hpre,
            r = pre ++ suf -> header = hpre ++ hsuf ->
            List.length hpre = List.length pre ->
            List.length hsuf = List.length suf ->
            rfold (fun acc jv =>
                     h <- match nth_error header (fst jv) with
                          | Some h => Ok h
                          | None => Raise IndexError
                          end ;;
                     v <- getitem r (snd jv) ;;
                     Ok (sdict_put acc h v))%res
                  (enumerate (map fst suf) (List.length pre))
                  (combine hpre (map snd pre))
            = Ok (combine header (map snd r))).
  { induction suf as [|[k v] suf IH]; intros pre hsuf hpre Hr Hhd Hl1 Hl2.
    - destruct hsuf; [|discriminate Hl2]. subst. now rewrite !app_nil_r.
    - destruct hsuf as [|h hsuf]; [discriminate Hl2|].
      cbn [map enumerate rfold fst snd].
      assert (Hnth : nth_error header (List.length pre) = Some h).
      { rewrite Hhd, <- Hl1, nth_error_app2, Nat.sub_diag; [reflexivity | apply le_n]. }
      rewrite Hnth. cbn [rbind].
      rewrite (getitem_In r k v Hnd); [|rewrite Hr; apply in_or_app; right; now left].
      cbn [rbind]. rewrite sdict_put_new.
      + rewrite <- (combine_snoc hpre (map snd pre) h v) by (now rewrite length_map).
        change (map snd pre ++ [v]) with (map snd pre ++ map snd [(k, v)]).
        rewrite <- map_app.
        replace (S (List.length pre)) with (List.length (pre ++ [(k, v)]))
          by (rewrite List.length_app, Nat.add_comm; reflexivity).
        apply (IH (pre ++ [(k, v)]) hsuf (hpre ++ [h])).
        * now rewrite Hr, <- app_assoc.
        * now rewrite Hhd, <- app_assoc.
        * rewrite !List.length_app. cbn [List.length]. now rewrite Hl1.
        * cbn [List.length] in Hl2. now injection Hl2.
      + intros Hin. rewrite Hhd in Hh. apply (NoDup_app_head _ _ _ Hh).
        assert (Hsub : forall (l1 : list string) (l2 : list string) x,
                   In x (map fst (combine l1 l2)) -> In x l1).
        { induction l1 as [|a l1 IH1]; intros [|b l2] x Hx; try destruct Hx.
          - subst. now left.
          - right. eapply IH1. exact H. }
        exact (Hsub _ _ _ Hin). }
  exact (H r [] header [] eq_refl eq_refl eq_refl Hlen).
Qed.

Lemma strip_quotes_fields (r : record) :
  NoDup (map fst r) ->
  strip_quotes r = map (fun kv => (fst kv, PyStr.replace dq "" (snd kv))) r.
Proof.
  intros Hnd. unfold strip_quotes.
  set (g := fun kv : string * string => (fst kv, PyStr.replace dq "" (snd kv))).
  assert (H : forall suf pre, r = pre ++ suf ->
            fold_left (fun acc kv => sdict_put acc (fst kv) (PyStr.replace dq "" (snd kv)))
                      suf (map g pre) = map g r).
  { induction suf as [|[k v] suf IH]; intros pre ->; cbn [fold_left fst snd].
    - now rewrite app_nil_r.
    - rewrite sdict_put_new.
      + specialize (IH (pre ++ [(k, v)])). rewrite map_app in IH. cbn [map] in IH.
        apply IH. now rewrite <- app_assoc.
      + rewrite map_map. cbn [g fst]. rewrite map_app in Hnd. cbn [map fst] in Hnd.
        exact (NoDup_app_head _ _ _ Hnd). }
  exact (H r [] eq_refl).
Qed.

(** the record of a row: the names of the columns, in their order, each with
    the text of the value of its field *)
Definition record_of {L : PyLib} (cm : colmap) (pass_to_json : bool) (r : row) : record :=
  combine (map (fun kc => name (snd kc)) cm)
          (map (fun kv => shown pass_to_json (snd kv)) r).

(** the key of the [i]-th record in the orientation ["index"] *)
Definition row_key (i : nat) : string := "row" +:+ PyStr.of_Z (Z.of_nat i).

Lemma rmap_ok_map {A B} (f : A -> res B) (g : A -> B) (l : list A) :
  (forall x, In x l -> f x = Ok (g x)) -> rmap f l = Ok (map g l).
Proof.
  induction l as [|x r IH]; intros H; simpl; [reflexivity|].
  rewrite (H x (or_introl eq_refl)). cbn [rbind].
  rewrite IH; [reflexivity|]. intros y Hy. apply H. now right.
Qed.

Lemma map_fst_combine {A B} (l1 : list A) (l2 : list B) :
  List.length l1 = List.length l2 -> map fst (combine l1 l2) = l1.
Proof.
  revert l2. induction l1 as [|x r IH]; intros [|y r'] H; try discriminate H.
  - reflexivity.
  - simpl. rewrite IH; [reflexivity | now injection H].
Qed.

Lemma map_combine_r {A B C} (g : B -> C) (l1 : list A) (l2 : list B) :
  map (fun kv => (fst kv, g (snd kv))) (combine l1 l2) = combine l1 (map g l2).
Proof.
  revert l2. induction l1 as [|x r IH]; intros [|y r']; try reflexivity.
  simpl. now rewrite IH.
Qed.

Lemma enumerate_keys {A} (l : list A) (n : nat) :
  map (fun ir : nat * A => (row_key (fst ir), snd ir)) (enumerate l n)
  = combine (map row_key (seq n (List.length l))) l.
Proof.
  revert n. induction l as [|x r IH]; intros n; simpl; [reflexivity|].
  now rewrite IH.
Qed.

(** the two comprehensions of the loop of [to_dict] on a row whose fields
    are those of the columns *)
Lemma row_record {L : PyLib} (cm : colmap) (r : row) :
  NoDup (field_names cm) -> map fst r = field_names cm ->
  (f <- filter_row r ;; rename_row (map name (map snd cm)) f)%res
  = Ok (record_of cm true r)
  /\ strip_quotes (record_of cm true r) = record_of cm false r.
Proof.
  intros Hnd Hfields.
  assert (Hr : NoDup (map fst r)) by now rewrite Hfields.
  assert (Hlen : List.length (map name (map snd cm)) = List.length r).
  { rewrite <- (length_map fst r), Hfields. unfold field_names.
    now rewrite !length_map. }
  assert (Hh : NoDup (map name (map snd cm))).
  { apply (NoDup_map_inv field_name_of). unfold field_names in Hnd.
    now rewrite !map_map. }
  assert (Hrec : record_of cm true r
                 = combine (map name (map snd cm))
                           (map (fun kv => none_filter (snd kv)) r)).
  { unfold record_of. now rewrite map_map. }
  split.
  - rewrite (filter_row_fields r Hr). cbn [rbind].
    rewrite rename_row_fields.
    + rewrite Hrec, !map_map. reflexivity.
    + rewrite map_map. cbn [fst]. exact Hr.
    + exact Hh.
    + rewrite (length_map _ r). exact Hlen.
  - rewrite Hrec, strip_quotes_fields.
    + rewrite (map_combine_r (PyStr.replace dq "")).
      unfold record_of. now rewrite !map_map.
    + rewrite map_fst_combine; [exact Hh | rewrite (length_map _ r); exact Hlen].
Qed.

(** the rows that [data] returns have the fields of the columns, and
    [to_dict] then returns their records *)
Lemma to_dict_rows {L : PyLib} (st st' : state) (rows : list row) :
  data st = (Ok (Some rows), st') ->
  exists cm : colmap,
    fst (column_by_id st) = Ok (Some cm)
    /\ fst (column_by_id st') = Ok (Some cm)
    /\ (forall r, In r rows -> List.length r = List.length cm)
    /\ forall orient pass_to_json,
         In orient ["records"; "index"] ->
         fst (to_dict orient pass_to_json st)
         = Ok (if String.eqb orient "records"
               then Records (map (record_of cm pass_to_json) rows)
               else Index (map (fun ir => (row_key (fst ir), snd ir))
                               (enumerate (map (record_of cm pass_to_json) rows) 1))).
Proof.
  intros H.
  destruct (data_rows st st' rows H)
    as (cm & raw & items & ub & Hcm & _ & _ & _ & Hnd & Hsame & HF & _).
  exists cm. split; [exact Hcm|].
  assert (Hrows : forall r, In r rows -> map fst r = field_names cm).
  { clear H. induction HF as [|cells r items' rows' Hd _ IH]; intros r0 [].
    - subst r0. destruct Hd as (rv & model & _ & Hm & ->). now rewrite Row_fields.
    - now apply IH. }
  assert (Hcm' : fst (column_by_id st') = Ok (Some cm)).
  { now rewrite <- (ro_result _ ro_column_by_id st st' Hsame). }
  split; [exact Hcm'|]. split.
  { intros r Hr. rewrite <- (length_map fst r), (Hrows r Hr). unfold field_names.
    apply length_map. }
  assert (Hmap : rmap (fun r => (f <- filter_row r ;;
                                 rename_row (map name (map snd cm)) f)%res) rows
                 = Ok (map (record_of cm true) rows)).
  { apply rmap_ok_map. intros r Hr. exact (proj1 (row_record cm r Hnd (Hrows r Hr))). }
  intros orient pass_to_json Ho.
  assert (Hshown : (if pass_to_json then map (record_of cm true) rows
                    else map strip_quotes (map (record_of cm true) rows))
                   = map (record_of cm pass_to_json) rows).
  { destruct pass_to_json; [reflexivity|]. rewrite map_map.
    apply map_ext_in. intros r Hr. exact (proj2 (row_record cm r Hnd (Hrows r Hr))). }
  unfold to_dict.
  assert (Hex : existsb (String.eqb orient) ["records"; "index"] = true).
  { apply existsb_exists. exists orient. split; [exact Ho | apply String.eqb_refl]. }
  rewrite Hex. cbn [negb]. rewrite bind_unfold, H. cbv beta iota.
  rewrite bind_unfold. cbn [ret]. cbv beta iota. rewrite bind_unfold.
  destruct (column_by_id st') as [rc st2]. cbn [fst] in Hcm'. subst rc.
  cbv beta iota. rewrite bind_unfold. cbn [lift colmap_values]. cbv beta iota.
  rewrite bind_unfold. unfold lift. cbv beta iota. rewrite Hmap. cbv beta iota.
  destruct (String.eqb orient "records"); cbn [ret fst]; rewrite Hshown; reflexivity.
Qed.

(** X6. Whenever [data] returns rows, [to_dict] returns, on the same
    object: with the orientation ["records"], one record by row, in order,
    that pairs the names of the columns, in the order of the column map,
    with the texts of the values of the row (null as the empty text, the
    double quotes removed unless [pass_to_json] is set); with the
    orientation ["index"], the same records under the keys [row1], [row2],
    and so on. *)
Theorem X6_to_dict_records {L : PyLib} (st st' : state) (rows : list row)
  (pass_to_json : bool) :
  data st = (Ok (Some rows), st') ->
  exists cm : colmap,
    fst (column_by_id st) = Ok (Some cm)
    /\ fst (to_dict "records" pass_to_json st)
       = Ok (Records (map (record_of cm pass_to_json) rows))
    /\ fst (to_dict "index" pass_to_json st)
       = Ok (Index (combine (map row_key (seq 1 (List.length rows)))
                            (map (record_of cm pass_to_json) rows))).
Proof.
  intros H. destruct (to_dict_rows st st' rows H) as (cm & Hcm & _ & _ & Hrun).
  exists cm. split; [exact Hcm|]. split.
  - rewrite Hrun by (now left). reflexivity.
  - rewrite Hrun by (right; now left).
    change (String.eqb "index" "records") with false. cbv iota.
    now rewrite enumerate_keys, length_map.
Qed.

Lemma X6_to_dict_records_witness :
  exists cm : colmap,
    fst (column_by_id (fresh sample_session)) = Ok (Some cm)
    /\ fst (to_dict "records" false (fresh sample_session))
       = Ok (Records (map (record_of cm false) sample_data))
    /\ fst (to_dict "index" false (fresh sample_session))
       = Ok (Index (combine (map row_key (seq 1 (List.length sample_data)))
                            (map (record_of cm false) sample_data))).
Proof.
  exact (X6_to_dict_records (L := lib) (fresh sample_session) _ sample_data false
           sample_data_run).
Defined.

(** ** The analyzer *)

Lemma pytype_eqb_eq (a b : pytype) : pytype_eqb a b = true <-> a = b.
Proof. split; [destruct a, b; (reflexivity || discriminate) | intros ->; now destruct b]. Qed.

Lemma set_add_In (t t' : pytype) (s : list pytype) :
  In t (set_add t' s) <-> t = t' \/ In t s.
Proof.
  unfold set_add. destruct (existsb (pytype_eqb t') s) eqn:E.
  - split; [now right|]. intros [->|H]; [|exact H].
    apply existsb_exists in E. destruct E as (x & Hx & Hxe).
    apply pytype_eqb_eq in Hxe. now subst x.
  - rewrite in_app_iff. cbn [In]. intuition.
Qed.

Lemma set_add_NoDup (t : pytype) (s : list pytype) : NoDup s -> NoDup (set_add t s).
Proof.
  intros H. unfold set_add. destruct (existsb (pytype_eqb t) s) eqn:E; [exact H|].
  apply NoDup_app; [exact H | repeat constructor; intros [] |].
  intros x Hx [Heq|[]]. subst x.
  assert (existsb (pytype_eqb t) s = true); [|congruence].
  apply existsb_exists. exists t. split; [exact Hx | now apply pytype_eqb_eq].
Qed.

Lemma collect_get (tc : dtypes_t) (ty ty' : string) (t : pytype) :
  dtypes_get (collect tc ty' t) ty
  = if String.eqb ty' ty then set_add t (dtypes_get tc ty) else dtypes_get tc ty.
Proof.
  unfold dtypes_get. induction tc as [|[k s] r IH]; cbn [collect find fst snd].
  - destruct (String.eqb ty' ty); reflexivity.
  - destruct (String.eqb_spec k ty') as [->|Hne]; cbn [find fst snd].
    + destruct (String.eqb ty' ty); reflexivity.
    + destruct (String.eqb_spec k ty) as [->|Hne'].
      * destruct (String.eqb_spec ty' ty) as [->|_]; [contradiction | reflexivity].
      * exact IH.
Qed.

(** the type collection is a dict of sets: no key twice, no type twice in a
    set, no empty set *)
Definition well_formed (tc : dtypes_t) : Prop :=
  NoDup (map fst tc) /\ Forall (fun kv => NoDup (snd kv) /\ snd kv <> []) tc.

Lemma set_add_nonempty (t : pytype) (s : list pytype) : set_add t s <> [].
Proof.
  unfold set_add. destruct (existsb (pytype_eqb t) s) eqn:E.
  - destruct s; [discriminate E | discriminate].
  - destruct s; discriminate.
Qed.

Lemma collect_keys (tc : dtypes_t) (ty : string) (t : pytype) (k : string) :
  In k (map fst (collect tc ty t)) <-> k = ty \/ In k (map fst tc).
Proof.
  induction tc as [|[k' s] r IH]; cbn [collect map fst In].
  - intuition.
  - destruct (String.eqb_spec k' ty) as [->|Hne]; cbn [map fst In]; [intuition|].
    rewrite IH. intuition.
Qed.

Lemma collect_well_formed (tc : dtypes_t) (ty : string) (t : pytype) :
  well_formed tc -> well_formed (collect tc ty t).
Proof.
  intros [Hk Hs]. induction tc as [|[k s] r IH]; cbn [collect].
  - split; [repeat constructor; intros [] | repeat constructor; [intros [] | discriminate]].
  - inversion Hk as [|? ? Hnotin Hk']; subst. inversion Hs as [|? ? [Hnd Hne] Hs']; subst.
    destruct (String.eqb_spec k ty) as [->|Hneq].
    + split; [exact Hk|]. constructor; [|exact Hs']. cbn [snd].
      split; [now apply set_add_NoDup | apply set_add_nonempty].
    + destruct (IH Hk' Hs') as [Hk2 Hs2]. split.
      * cbn [map fst]. constructor; [|exact Hk2].
        rewrite collect_keys. intros [Heq|Hin]; [now subst | contradiction].
      * constructor; [now split | exact Hs2].
Qed.

Lemma rfold_inv {A B} (f : A -> B -> res A) (P : A -> Prop) :
  (forall a x a', P a -> f a x = Ok a' -> P a') ->
  forall l a a', P a -> rfold f l a = Ok a' -> P a'.
Proof.
  intros Hf. induction l as [|x r IH]; intros a a' Ha H; simpl in H.
  - now injection H as <-.
  - destruct (f a x) as [a1|e] eqn:E; [|discriminate H].
    exact (IH _ _ (Hf _ _ _ Ha E) H).
Qed.

Lemma rfold_split {A B} (f : A -> B -> res A) (l : list B) (x : B) (a a' : A) :
  rfold f l a = Ok a' -> In x l ->
  exists a1 a2 suf, f a1 x = Ok a2 /\ rfold f suf a2 = Ok a'.
Proof.
  revert a. induction l as [|y r IH]; intros a H Hin; [destruct Hin|].
  simpl in H. destruct (f a y) as [a1|e] eqn:E; [|discriminate H].
  destruct Hin as [->|Hin]; [now exists a, a1, r | exact (IH _ H Hin)].
Qed.

Lemma rfold_pair {A A' B} (f : A -> B -> res A) (f' : A' -> B -> res A')
  (R : A -> A' -> Prop) :
  (forall a a' x a1, R a a' -> f a x = Ok a1 -> exists a1', f' a' x = Ok a1' /\ R a1 a1') ->
  forall l a a' a1, R a a' -> rfold f l a = Ok a1 ->
                    exists a1', rfold f' l a' = Ok a1' /\ R a1 a1'.
Proof.
  intros Hf. induction l as [|x r IH]; intros a a' a1 HR H; simpl in H.
  - injection H as <-. now exists a'.
  - destruct (f a x) as [a2|e] eqn:E; [|discriminate H].
    destruct (Hf _ _ _ _ HR E) as (a2' & E' & HR2).
    simpl. rewrite E'. exact (IH _ _ _ HR2 H).
Qed.

(** one turn of the inner loop of [analyze], and of its outer loop *)
Definition analyze_cell (cm : option colmap) (tc : dtypes_t) (kv : pyval * pyval)
  : res dtypes_t :=
  (cd <- colmap_getitem cm (fst kv) ;;
   Ok (collect tc (type cd) (type_of (snd kv))))%res.

Definition analyze_row (cm : option colmap) (tc : dtypes_t) (r : pyval) : res dtypes_t :=
  (cur_row <- py_subscript r "cellValuesByColumnId" ;;
   items <- py_items cur_row ;;
   rfold (analyze_cell cm) items tc)%res.

Lemma analyze_rows (rows : pyval) (cm : option colmap) (tc : dtypes_t) :
  analyze rows cm = Ok tc ->
  exists rs, py_iter rows = Ok rs /\ rfold (analyze_row cm) rs [] = Ok tc.
Proof.
  unfold analyze. intros H. destruct (py_iter rows) as [rs|e]; [|discriminate H].
  now exists rs.
Qed.

Lemma analyze_cell_keeps (cm : option colmap) (ty : string) (t : pytype) tc kv tc' :
  In t (dtypes_get tc ty) -> analyze_cell cm tc kv = Ok tc' -> In t (dtypes_get tc' ty).
Proof.
  unfold analyze_cell. intros Hin H.
  destruct (colmap_getitem cm (fst kv)) as [cd|e]; [|discriminate H].
  injection H as <-. rewrite collect_get.
  destruct (String.eqb (type cd) ty); [apply set_add_In; now right | exact Hin].
Qed.

Lemma analyze_row_keeps (cm : option colmap) (ty : string) (t : pytype) tc r tc' :
  In t (dtypes_get tc ty) -> analyze_row cm tc r = Ok tc' -> In t (dtypes_get tc' ty).
Proof.
  unfold analyze_row. intros Hin H.
  destruct (py_subscript r "cellValuesByColumnId") as [cur|e]; [|discriminate H].
  cbn [rbind] in H. destruct (py_items cur) as [items|e]; [|discriminate H].
  cbn [rbind] in H.
  exact (rfold_inv (analyze_cell cm) (fun tc => In t (dtypes_get tc ty))
           (fun a x a' => analyze_cell_keeps cm ty t a x a') items tc tc' Hin H).
Qed.

Lemma analyze_row_well_formed (cm : option colmap) tc r tc' :
  well_formed tc -> analyze_row cm tc r = Ok tc' -> well_formed tc'.
Proof.
  unfold analyze_row. intros Hwf H.
  destruct (py_subscript r "cellValuesByColumnId") as [cur|e]; [|discriminate H].
  cbn [rbind] in H. destruct (py_items cur) as [items|e]; [|discriminate H].
  cbn [rbind] in H.
  refine (rfold_inv (analyze_cell cm) well_formed _ items tc tc' Hwf H).
  intros a x a' Ha Hx. unfold analyze_cell in Hx.
  destruct (colmap_getitem cm (fst x)) as [cd|e]; [|discriminate Hx].
  injection Hx as <-. now apply collect_well_formed.
Qed.

Lemma analyze_well_formed (rows : pyval) (cm : option colmap) (tc : dtypes_t) :
  analyze rows cm = Ok tc -> well_formed tc.
Proof.
  intros H. destruct (analyze_rows rows cm tc H) as (rs & Hrs & Hfold).
  refine (rfold_inv (analyze_row cm) well_formed _ rs [] tc _ Hfold).
  - intros a x a'. apply analyze_row_well_formed.
  - split; constructor.
Qed.

Lemma dtypes_get_key (tc : dtypes_t) (ty : string) :
  well_formed tc -> (dtypes_get tc ty <> [] <-> In ty (map fst tc)).
Proof.
  intros [_ Hs]. unfold dtypes_get.
  destruct (find (fun kv => String.eqb (fst kv) ty) tc) as [kv|] eqn:E.
  - apply find_some in E. destruct E as [Hin Heq].
    apply String.eqb_eq in Heq. subst ty. split.
    + intros _. exact (in_map fst tc kv Hin).
    + intros _. rewrite Forall_forall in Hs. exact (proj2 (Hs kv Hin)).
  - split; [intros Hne; now contradiction Hne|].
    intros Hin. apply in_map_iff in Hin. destruct Hin as (kv & <- & Hin).
    pose proof (find_none _ _ E kv Hin) as Hf. cbn beta in Hf.
    rewrite String.eqb_refl in Hf. discriminate Hf.
Qed.

Lemma analyze_complete (rows : pyval) (cm : option colmap) (tc : dtypes_t) :
  analyze rows cm = Ok tc ->
  forall rs r cur_row items k v,
    py_iter rows = Ok rs -> In r rs ->
    py_subscript r "cellValuesByColumnId" = Ok cur_row ->
    py_items cur_row = Ok items -> In (k, v) items ->
    exists cd, colmap_getitem cm k = Ok cd
               /\ In (type_of v) (dtypes_get tc (type cd)).
Proof.
  intros H. destruct (analyze_rows rows cm tc H) as (rs & Hrs & Hfold).
  intros rs' r cur items k v Hrs' Hr Hcur Hitems Hkv.
  rewrite Hrs in Hrs'. injection Hrs' as <-.
  destruct (rfold_split _ _ _ _ _ Hfold Hr) as (tc1 & tc2 & suf & Hrow & Hsuf).
  unfold analyze_row in Hrow. rewrite Hcur in Hrow. cbn [rbind] in Hrow.
  rewrite Hitems in Hrow. cbn [rbind] in Hrow.
  destruct (rfold_split _ _ _ _ _ Hrow Hkv) as (tcA & tcB & suf' & Hcell & Hsuf').
  unfold analyze_cell in Hcell. cbn [fst snd] in Hcell.
  destruct (colmap_getitem cm k) as [cd|e]; [|discriminate Hcell].
  injection Hcell as <-. exists cd. split; [reflexivity|].
  refine (rfold_inv (analyze_row cm)
            (fun tc => In (type_of v) (dtypes_get tc (type cd)))
            (fun a x a' => analyze_row_keeps cm (type cd) (type_of v) a x a')
            suf tc2 tc _ Hsuf).
  refine (rfold_inv (analyze_cell cm)
            (fun tc => In (type_of v) (dtypes_get tc (type cd)))
            (fun a x a' => analyze_cell_keeps cm (type cd) (type_of v) a x a')
            suf' _ tc2 _ Hsuf').
  rewrite collect_get, String.eqb_refl. apply set_add_In. now left.
Qed.

(** X7. The type collection that [analyze] returns is a dict of sets (no
    column type twice, no value type twice under a column type, no empty
    set), and it is complete: the type of every cell of every raw row is
    recorded under the Airtable type of the column of the cell, which the
    column map therefore holds. *)
Theorem X7_dtypes_complete (rows : pyval) (cm : option colmap) (tc : dtypes_t) :
  analyze rows cm = Ok tc ->
  well_formed tc
  /\ forall rs r cur_row items k v,
       py_iter rows = Ok rs -> In r rs ->
       py_subscript r "cellValuesByColumnId" = Ok cur_row ->
       py_items cur_row = Ok items -> In (k, v) items ->
       exists cd, colmap_getitem cm k = Ok cd
                  /\ In (type_of v) (dtypes_get tc (type cd)).
Proof.
  intros H. split; [exact (analyze_well_formed rows cm tc H)|].
  exact (analyze_complete rows cm tc H).
Qed.

(** the column map and the type collection of the sample table *)
Definition sample_colmap : colmap :=
  Eval vm_compute in
    match fst (column_by_id (fresh sample_session)) with
    | Ok (Some cm) => cm
    | _ => []
    end.

Definition sample_dtypes : dtypes_t :=
  [("text", [Tstr]); ("number", [Tint]); ("select", [Tstr]); ("date", [Tstr]);
   ("unknownType", [Tlist; Tstr])].

Lemma sample_analyze : analyze sample_rows (Some sample_colmap) = Ok sample_dtypes.
Proof. vm_compute. reflexivity. Qed.

Lemma X7_dtypes_complete_witness :
  well_formed sample_dtypes
  /\ forall rs r cur_row items k v,
       py_iter sample_rows = Ok rs -> In r rs ->
       py_subscript r "cellValuesByColumnId" = Ok cur_row ->
       py_items cur_row = Ok items -> In (k, v) items ->
       exists cd, colmap_getitem (Some sample_colmap) k = Ok cd
                  /\ In (type_of v) (dtypes_get sample_dtypes (type cd)).
Proof.
  exact (X7_dtypes_complete sample_rows (Some sample_colmap) sample_dtypes sample_analyze).
Defined.

(** one turn of the inner loop of [get_column_by_type], and of its outer loop *)
Definition pick_cell (cm : option colmap) (ty : string) (acc : list pyval)
  (kv : pyval * pyval) : res (list pyval) :=
  (cd <- colmap_getitem cm (fst kv) ;;
   Ok (if String.eqb (type cd) ty then acc ++ [snd kv] else acc))%res.

Definition pick_row (cm : option colmap) (ty : string) (acc : list pyval) (r : pyval)
  : res (list pyval) :=
  (cur_row <- py_subscript r "cellValuesByColumnId" ;;
   items <- py_items cur_row ;;
   rfold (pick_cell cm ty) items acc)%res.

(** the types recorded for a column type are those of the values collected *)
Definition types_of_values (ty : string) (tc : dtypes_t) (vals : list pyval) : Prop :=
  forall t, In t (dtypes_get tc ty) <-> exists v, In v vals /\ type_of v = t.

Lemma pick_cell_types (cm : option colmap) (ty : string) tc vals kv tc' :
  types_of_values ty tc vals -> analyze_cell cm tc kv = Ok tc' ->
  exists vals', pick_cell cm ty vals kv = Ok vals' /\ types_of_values ty tc' vals'.
Proof.
  unfold analyze_cell, pick_cell. intros HR H.
  destruct (colmap_getitem cm (fst kv)) as [cd|e]; [|discriminate H].
  injection H as <-. cbn [rbind]. eexists. split; [reflexivity|].
  intros t. rewrite collect_get.
  destruct (String.eqb (type cd) ty); [|apply HR].
  rewrite set_add_In, (HR t). split.
  - intros [->|(v & Hv & Ht)].
    + exists (snd kv). split; [apply in_or_app; right; now left | reflexivity].
    + exists v. split; [apply in_or_app; now left | exact Ht].
  - intros (v & Hv & Ht). apply in_app_or in Hv. destruct Hv as [Hv|[<-|[]]].
    + right. now exists v.
    + left. now symmetry.
Qed.

Lemma pick_row_types (cm : option colmap) (ty : string) tc vals r tc' :
  types_of_values ty tc vals -> analyze_row cm tc r = Ok tc' ->
  exists vals', pick_row cm ty vals r = Ok vals' /\ types_of_values ty tc' vals'.
Proof.
  unfold analyze_row, pick_row. intros HR H.
  destruct (py_subscript r "cellValuesByColumnId") as [cur|e]; [|discriminate H].
  cbn [rbind] in *. destruct (py_items cur) as [items|e]; [|discriminate H].
  cbn [rbind] in *.
  exact (rfold_pair (analyze_cell cm) (pick_cell cm ty) (types_of_values ty)
           (pick_cell_types cm ty) items tc vals tc' HR H).
Qed.

(** X8. On an analyzer that could be built, [get_column_by_type] returns
    for every Airtable column type, and the value types that [dtypes]
    records under that column type are exactly the types of the values
    returned; the list is not empty exactly for the types that
    [available_airtable_types] lists. *)
Theorem X8_column_by_type (rows : pyval) (cm : option colmap) (tc : dtypes_t)
  (ty : string) :
  ColumnTypeAnalyzer_dtypes rows cm = Ok tc ->
  exists vals,
    ColumnTypeAnalyzer_get_column_by_type rows cm ty = Ok vals
    /\ (forall t, In t (dtypes_get tc ty) <-> exists v, In v vals /\ type_of v = t)
    /\ exists tys, available_airtable_types rows cm = Ok tys
                   /\ (vals <> [] <-> In ty tys).
Proof.
  intros H. unfold ColumnTypeAnalyzer_get_column_by_type, available_airtable_types.
  rewrite H. cbn [rbind].
  unfold ColumnTypeAnalyzer_dtypes in H.
  destruct (colmap_values cm) as [cds|e]; [|discriminate H]. cbn [rbind] in H.
  pose proof (analyze_well_formed rows cm tc H) as Hwf.
  destruct (analyze_rows rows cm tc H) as (rs & Hrs & Hfold).
  unfold get_column_by_type. rewrite Hrs. cbn [rbind].
  destruct (rfold_pair (analyze_row cm) (pick_row cm ty) (types_of_values ty)
              (pick_row_types cm ty) rs [] [] tc) as (vals & Hvals & HR); [|exact Hfold|].
  { intros t. cbn. split; [intros [] | intros (v & [] & _)]. }
  exists vals. split; [exact Hvals|]. split; [exact HR|].
  exists (map fst tc). split; [reflexivity|].
  rewrite <- (dtypes_get_key tc ty Hwf). split.
  - intros Hne Hnil. destruct vals as [|v vals']; [now apply Hne|].
    assert (Hin : In (type_of v) (dtypes_get tc ty)).
    { apply HR. exists v. split; [now left | reflexivity]. }
    rewrite Hnil in Hin. exact Hin.
  - intros Hne Hnil. destruct (dtypes_get tc ty) as [|t ts] eqn:E; [now apply Hne|].
    destruct (proj1 (HR t)) as (v & Hv & _); [rewrite E; now left|].
    rewrite Hnil in Hv. exact Hv.
Qed.

Lemma sample_analyzer :
  ColumnTypeAnalyzer_dtypes sample_rows (Some sample_colmap) = Ok sample_dtypes.
Proof. vm_compute. reflexivity. Qed.

Lemma X8_column_by_type_witness :
  exists vals,
    ColumnTypeAnalyzer_get_column_by_type sample_rows (Some sample_colmap) "unknownType"
    = Ok vals
    /\ (forall t, In t (dtypes_get sample_dtypes "unknownType")
                  <-> exists v, In v vals /\ type_of v = t)
    /\ exists tys, available_airtable_types sample_rows (Some sample_colmap) = Ok tys
                   /\ (vals <> [] <-> In "unknownType" tys).
Proof.
  exact (X8_column_by_type sample_rows (Some sample_colmap) sample_dtypes "unknownType"
           sample_analyzer).
Defined.

(** ** Choices, users and field names *)

Lemma get_option (opts : list (string * string)) (id : string) :
  get_of (Some (options_dict opts)) (PStr id)
  = Ok (match sdict_find opts id with Some label => PStr label | None => PNone end).
Proof.
  cbn [get_of]. unfold dict_get, dict_lookup. cbn [hashable rbind].
  rewrite options_dict_find. now destruct (sdict_find opts id).
Qed.

(** the labels of the choices [ids], when each of them is a choice *)
Fixpoint labels_of (opts : list (string * string)) (ids : list string)
  : option (list string) :=
  match ids with
  | [] => Some []
  | id :: r =>
      match sdict_find opts id, labels_of opts r with
      | Some label, Some labels => Some (label :: labels)
      | _, _ => None
      end
  end.

Lemma labels_known (opts : list (string * string)) (ids : list string) (labels : list string) :
  labels_of opts ids = Some labels ->
  rmap (fun val => get_of (Some (options_dict opts)) val) (map PStr ids)
  = Ok (map PStr labels)
  /\ as_strings (map PStr labels) = Ok labels.
Proof.
  revert labels. induction ids as [|id r IH]; intros labels H; cbn [labels_of] in H.
  - injection H as <-. split; reflexivity.
  - destruct (sdict_find opts id) as [label|] eqn:E; [|discriminate H].
    destruct (labels_of opts r) as [ls|]; [|discriminate H]. injection H as <-.
    destruct (IH ls eq_refl) as [H1 H2]. cbn [map rmap].
    rewrite get_option, E. cbn [rbind].
    rewrite H1. cbn [rbind as_strings]. rewrite H2. split; reflexivity.
Qed.

Lemma labels_unknown (opts : list (string * string)) (ids : list string) :
  labels_of opts ids = None ->
  exists labels,
    rmap (fun val => get_of (Some (options_dict opts)) val) (map PStr ids) = Ok labels
    /\ as_strings labels = Raise TypeError.
Proof.
  induction ids as [|id r IH]; intros H; cbn [labels_of] in H; [discriminate H|].
  cbn [map rmap]. rewrite get_option.
  destruct (sdict_find opts id) as [label|] eqn:E; cbn [rbind].
  - destruct (labels_of opts r) as [ls|]; [discriminate H|].
    destruct (IH eq_refl) as (labels & H1 & H2). rewrite H1. cbn [rbind].
    exists (PStr label :: labels). split; [reflexivity|].
    cbn [as_strings]. now rewrite H2.
  - destruct (labels_of opts r) as [ls|] eqn:El.
    + destruct (labels_known opts r ls El) as [H1 _]. rewrite H1. cbn [rbind].
      now exists (PNone :: map PStr ls).
    + destruct (IH eq_refl) as (labels & H1 & _). rewrite H1. cbn [rbind].
      now exists (PNone :: labels).
Qed.

(** X9. On a column with choices, the [select] handler maps the id of a
    choice to its label and any other text to null, while the [multiSelect]
    handler returns the labels joined by commas, between double quotes, only
    when every id of the cell is a choice of the column: one unknown id
    makes it raise [TypeError]. *)
Theorem X9_choice_labels {L : PyLib} (user_by_id : option pydict) (tz : string)
  (cd : ColumnDefinition) (opts : list (string * string)) (id : string)
  (ids : list string) :
  typeOptions cd = Some opts ->
  handle user_by_id tz cd "select" (PStr id)
  = Some (Ok (match sdict_find opts id with Some label => PStr label | None => PNone end))
  /\ handle user_by_id tz cd "multiSelect" (PList (map PStr ids))
     = Some (match labels_of opts ids with
             | Some labels => Ok (quoted (PyStr.join "," labels))
             | None => Raise TypeError
             end).
Proof.
  intros Hopts. unfold handle.
  cbn [type_handlers sdict_find String.eqb Ascii.eqb Bool.eqb andb option_map].
  rewrite Hopts. cbn [type_options_of option_map]. split.
  - now rewrite get_option.
  - cbn [py_iter rbind]. unfold str_join.
    destruct (labels_of opts ids) as [labels|] eqn:E.
    + destruct (labels_known opts ids labels E) as [H1 H2].
      rewrite H1. cbn [rbind]. now rewrite H2.
    + destruct (labels_unknown opts ids E) as (labels & H1 & H2).
      rewrite H1. cbn [rbind]. now rewrite H2.
Qed.

Lemma X9_choice_labels_witness :
  handle None "UTC" status_column "select" (PStr "selC") = Some (Ok PNone)
  /\ handle None "UTC" status_column "multiSelect" (PList (map PStr ["selB"; "selC"]))
     = Some (Raise TypeError).
Proof.
  exact (X9_choice_labels (L := lib) None "UTC" status_column
           [("selA", "Open"); ("selB", "Done")] "selC" ["selB"; "selC"] eq_refl).
Defined.

Lemma first_error_none (checks : list (option exn)) :
  first_error checks = None -> Forall (fun c => c = None) checks.
Proof.
  induction checks as [|c r IH]; intros H; constructor.
  - cbn in H. now destruct c.
  - apply IH. cbn in H. destruct c; [discriminate H | exact H].
Qed.

(** what the creation of the row model asks of the field names *)
Definition valid_fields {L : PyLib} (names : list string) : Prop :=
  forallb is_identifier names = true
  /\ has_dup names = false
  /\ forall n, In n names -> pydantic_field_check n = None.

Lemma create_row_model_checks {L : PyLib} (table_dtypes : option dtypes_t) (cm : colmap)
  (model : row_model) :
  create_row_model table_dtypes (Some cm) = Ok model -> valid_fields (field_names cm).
Proof.
  intros H. destruct (create_row_model_fields _ _ _ H) as (cm' & [= <-] & Hnames & _).
  unfold create_row_model in H. cbn [colmap_values rbind] in H.
  destruct (rmap _ (map snd cm)) as [fields|]; [|discriminate H].
  cbn [rbind] in H. unfold eval_create_model in H.
  destruct (negb (forallb is_identifier (map fst fields)) || has_dup (map fst fields))
    eqn:Hdup; [discriminate H|].
  destruct (negb (forallb (fun f => forallb resolvable (snd f)) fields));
    [discriminate H|].
  destruct (first_error _) eqn:Hfirst; [discriminate H|]. injection H as <-.
  apply orb_false_elim in Hdup. destruct Hdup as [Hid Hdup].
  rewrite Hnames in *. split; [now apply negb_false_iff in Hid|]. split; [exact Hdup|].
  intros n Hn. apply first_error_none in Hfirst. rewrite Forall_forall in Hfirst.
  apply Hfirst. exact (in_map pydantic_field_check _ n Hn).
Qed.

(** X10. [data] returns null, and [to_dict] raises [TypeError], whenever
    the field names that the column names sanitize to cannot make a row
    model: one of them is not an identifier, two columns have the same field
    name, or pydantic rejects one of them. *)
Theorem X10_field_names {L : PyLib} (st : state) (cm : colmap) :
  fst (column_by_id st) = Ok (Some cm) ->
  (forallb is_identifier (field_names cm) = false
   \/ has_dup (field_names cm) = true
   \/ exists n e, In n (field_names cm) /\ pydantic_field_check n = Some e) ->
  fst (data st) = Ok None
  /\ forall orient pass_to_json,
       In orient ["records"; "index"] ->
       fst (to_dict orient pass_to_json st) = Raise TypeError.
Proof.
  intros Hcm Hbad.
  assert (Hdata : fst (data st) = Ok None).
  { destruct (data st) as [r st'] eqn:E. destruct r as [[rows|]|e].
    - exfalso.
      destruct (data_rows st st' rows E)
        as (cm' & raw & items & ub & Hcm' & _ & _ & _ & _ & _ & _ & dt & model & _ & Hmodel).
      rewrite Hcm in Hcm'. injection Hcm' as <-.
      destruct (create_row_model_checks dt cm model Hmodel) as (Hid & Hdup & Hcheck).
      destruct Hbad as [H|[H|(n & e & Hn & He)]]; [congruence | congruence |].
      rewrite (Hcheck n Hn) in He. discriminate He.
    - reflexivity.
    - exfalso. unfold data, guarded in E.
      destruct (_get_table_data st) as [[?|?] ?]; discriminate E. }
  split; [exact Hdata|].
  intros orient pass_to_json Ho. unfold to_dict.
  assert (Hex : existsb (String.eqb orient) ["records"; "index"] = true).
  { apply existsb_exists. exists orient. split; [exact Ho | apply String.eqb_refl]. }
  rewrite Hex. cbn [negb]. rewrite bind_unfold.
  destruct (data st) as [r st']. cbn [fst] in Hdata. subst r. reflexivity.
Qed.

(** a table with two columns whose names differ by the case of their first
    letter only, an E with an acute accent *)
Definition clash_session : session :=
  mk_session share_url "America/New_York" [] "" "" PNone
    (str_dict [("id", PStr "tblSample");
               ("columns", PList [column "fldA" (utf8 195 137 +:+ "cole") "text" PNone;
                                  column "fldB" (utf8 195 169 +:+ "cole") "text" PNone]);
               ("rows", PList [raw_row "rec1" [("fldA", PStr "Ada")]])])
    "success" false.

Lemma X10_field_names_witness :
  fst (data (fresh clash_session)) = Ok None
  /\ forall orient pass_to_json,
       In orient ["records"; "index"] ->
       fst (to_dict orient pass_to_json (fresh clash_session)) = Raise TypeError.
Proof.
  eapply (X10_field_names (L := lib) (fresh clash_session)).
  - vm_compute. reflexivity.
  - right. left. vm_compute. reflexivity.
Defined.

(** X11. When the table gives no directory of users, a single cell of a
    [collaborator] or [computation] column makes [data] return null. *)
Theorem X11_users_needed {L : PyLib} (st : state) (cm : colmap) (raw : pyval)
  (items : list pydict) (cells : pydict) (k v : pyval) (cd : ColumnDefinition) :
  fst (column_by_id st) = Ok (Some cm) ->
  fst (raw_rows_json st) = Ok raw ->
  row_items_of raw = Ok items ->
  fst (__get_appBlanket_userInfoById st) = Ok None ->
  In cells items -> In (k, v) cells ->
  column_of (Some cm) k = Ok cd ->
  In (type cd) ["collaborator"; "computation"] ->
  fst (data st) = Ok None.
Proof.
  intros H1 H2 H3 H4 Hcells Hcell Hcol Hty.
  apply data_none.
  apply (undecodable_cell_no_rows st cm raw items None cells (k, v)
           H1 H2 H3 H4 Hcells Hcell).
  cbn [fst snd]. intros cd' Hcd'. rewrite Hcol in Hcd'. injection Hcd' as <-.
  exists AttributeError. unfold decode.
  destruct Hty as [<-|[<-|[]]]; reflexivity.
Qed.

(** a table with a collaborator column and no directory of users *)
Definition owner_session : session :=
  mk_session share_url "America/New_York" [] "" "" PNone
    (str_dict [("id", PStr "tblSample");
               ("columns", PList [column "fldName" "Name" "text" PNone;
                                  column "fldOwner" "Owner" "collaborator" PNone]);
               ("rows", PList [raw_row "rec1" [("fldName", PStr "Ada");
                                               ("fldOwner", PStr "usr1")]])])
    "success" false.

Lemma X11_users_needed_witness : fst (data (fresh owner_session)) = Ok None.
Proof.
  eapply (X11_users_needed (L := lib) (fresh owner_session) _ _ _
            [(PStr "fldName", PStr "Ada"); (PStr "fldOwner", PStr "usr1")]
            (PStr "fldOwner") (PStr "usr1")
            (mk_ColumnDefinition "Owner" "collaborator" None None)).
  - vm_compute. reflexivity.
  - vm_compute. reflexivity.
  - vm_compute. reflexivity.
  - vm_compute. reflexivity.
  - left. reflexivity.
  - right. left. reflexivity.
  - vm_compute. reflexivity.
  - left. reflexivity.
Defined.

(** ** [to_csv] *)

Lemma map_snd_combine {A B} (l1 : list A) (l2 : list B) :
  List.length l1 = List.length l2 -> map snd (combine l1 l2) = l2.
Proof.
  revert l2. induction l1 as [|x r IH]; intros [|y r'] H; try discriminate H.
  - reflexivity.
  - simpl. rewrite IH; [reflexivity | now injection H].
Qed.

(** what an export does with its text, by the path it is given and the
    suffix it asks for *)
Definition handed_back (suffix : string) (path_suffix : string -> string)
  (path : option string) (text : string) : res export_result :=
  match path with
  | Some (String c r) =>
      if String.eqb (PyStr.lower (path_suffix (String c r))) suffix
      then Ok (Written (String c r) text)
      else Raise AssertionError
  | _ => Ok (Returned text)
  end.

(** the names of the columns on a line, then the values of each record on a
    line, all joined by commas as they are *)
Definition csv_of_records (names : list string) (recs : list record) : string :=
  (PyStr.join "," names +:+ nl)
  +:+ PyStr.join nl (map (fun rec => PyStr.join "," (map snd rec)) recs).

Lemma hands_back (suffix : string) (path_suffix : string -> string)
  (path : option string) (text : string) (st : state) :
  match path with
  | Some (String c r) =>
      if String.eqb (PyStr.lower (path_suffix (String c r))) suffix
      then ret (Written (String c r) text)
      else raise AssertionError
  | _ => ret (Returned text)
  end st = (handed_back suffix path_suffix path text, st).
Proof.
  unfold handed_back. destruct path as [[|c r]|]; try reflexivity.
  destruct (String.eqb _ suffix); reflexivity.
Qed.

(** X12. When the download gave no text (it was refused, or its text is
    empty) and [data] returns rows, [to_csv] builds its text from the table:
    the names of the columns on the first line, then one line by record of
    [to_dict] called with [pass_to_json] set, the values joined by commas
    as they are, nothing quoted or escaped; the text is returned when no
    path is given, written when the suffix of the path is [.csv], and
    [AssertionError] is raised for any other path. *)
Theorem X12_csv_fallback {L : PyLib} (requests_get : string -> pydict -> response)
  (path_suffix : string -> string) (path : option string)
  (st st1 st2 : state) (downloaded : option string) (rows : list row) :
  __get_csv_from_download_csv requests_get st = (Ok downloaded, st1) ->
  downloaded = None \/ downloaded = Some "" ->
  data st1 = (Ok (Some rows), st2) ->
  exists (cm : colmap) (recs : list record),
    fst (column_by_id st1) = Ok (Some cm)
    /\ fst (to_dict "records" true st1) = Ok (Records recs)
    /\ fst (to_csv requests_get path_suffix path st)
       = handed_back ".csv" path_suffix path
           (csv_of_records (map (fun kc => name (snd kc)) cm) recs).
Proof.
  intros Hdl Hnone Hdata.
  destruct (to_dict_rows st1 st2 rows Hdata) as (cm & Hcm & Hcm' & Hlen & Hrun).
  exists cm, (map (record_of cm true) rows).
  split; [exact Hcm|]. split; [now rewrite Hrun by (now left)|].
  unfold to_csv. rewrite bind_unfold, Hdl. cbv beta iota.
  assert (Hfall : forall k : M string,
             match downloaded with
             | Some (String c r) => ret (String c r)
             | _ => k
             end = k).
  { intros k. now destruct Hnone as [-> | ->]. }
  rewrite Hfall. rewrite !bind_unfold. rewrite Hdata. cbv beta iota.
  rewrite bind_unfold. cbn [ret]. cbv beta iota. rewrite bind_unfold.
  destruct (column_by_id st2) as [rc st3]. cbn [fst] in Hcm'. subst rc.
  cbv beta iota. rewrite bind_unfold. cbn [lift colmap_values ret]. cbv beta iota.
  rewrite (hands_back ".csv"). cbn [fst]. f_equal.
  unfold csv_of_rows, csv_of_records. rewrite !map_map. f_equal. f_equal.
  apply map_ext_in. intros r Hr. f_equal. unfold record_of.
  rewrite map_snd_combine; [reflexivity|].
  rewrite !length_map. symmetry. exact (Hlen r Hr).
Qed.

(** a server that refuses the download, and the suffix of the paths of the
    examples *)
Definition refused (url : string) (headers : pydict) : response :=
  mk_response 403 "" "{}".

Definition sample_suffix (path : string) : string :=
  match index 0 "." path with
  | Some i => substring i (String.length path - i) path
  | None => ""
  end.

Definition after_refusal : state :=
  snd (__get_csv_from_download_csv refused constructed).

Lemma sample_refusal :
  __get_csv_from_download_csv refused constructed = (Ok None, after_refusal).
Proof. vm_compute. reflexivity. Qed.

Lemma sample_data_after_refusal :
  data after_refusal = (Ok (Some sample_data), snd (data after_refusal)).
Proof. vm_compute. reflexivity. Qed.

Lemma X12_csv_fallback_witness :
  exists (cm : colmap) (recs : list record),
    fst (column_by_id after_refusal) = Ok (Some cm)
    /\ fst (to_dict "records" true after_refusal) = Ok (Records recs)
    /\ fst (to_csv refused sample_suffix (Some "table.csv") constructed)
       = handed_back ".csv" sample_suffix (Some "table.csv")
           (csv_of_records (map (fun kc => name (snd kc)) cm) recs).
Proof.
  exact (X12_csv_fallback (L := lib) refused sample_suffix (Some "table.csv")
           constructed after_refusal _ None sample_data
           sample_refusal (or_introl eq_refl) sample_data_after_refusal).
Defined.

Lemma ro_view_id : reads_only view_id view_id.
Proof.
  unfold view_id. apply ro_guarded. unfold _get_view_id.
  apply ro_get_self. intros s1 s2 H. same_fields s1 s2 H.
  unfold table_present, logger_error. cbn [__table __page]. ro_auto.
Qed.

Lemma stringified_object_params_state (st st' : state) (p : string) :
  __get_stringified_object_params st = (Ok p, st') -> st' = st.
Proof.
  unfold __get_stringified_object_params, bind, get_self, lift, logger_error, emit,
    raise, ret.
  destruct (group_1 _) as [g|]; [|discriminate].
  destruct (String.eqb g ""); [discriminate|]. now intros [= _ <-].
Qed.

(** the answer that let [__get_csv_from_download_csv] return *)
Definition answered {L : PyLib} (resp : response) (downloaded : option string) : Prop :=
  (status_code resp = 200 /\ downloaded = Some (resp_text resp))
  \/ (status_code resp <> 200 /\ json_loads (resp_content resp) <> None
      /\ downloaded = None).

Lemma get_csv_inv {L : PyLib} (requests_get : string -> pydict -> response)
  (st st1 : state) (downloaded : option string) :
  __get_csv_from_download_csv requests_get st = (Ok downloaded, st1) ->
  exists url,
    requests st1 = requests st ++ [url]
    /\ same_object (self st) (self st1)
    /\ answered (requests_get url csv_headers) downloaded.
Proof.
  unfold __get_csv_from_download_csv. rewrite bind_unfold.
  destruct (_get_auth_data st) as [[auth|e] sa] eqn:Ea; [|discriminate].
  apply get_auth_data_state in Ea. subst sa. rewrite bind_unfold.
  destruct (__get_stringified_object_params st) as [[p|e] sb] eqn:Eb; [|discriminate].
  apply stringified_object_params_state in Eb. subst sb. rewrite bind_unfold.
  destruct (view_id st) as [[view|e] sc] eqn:Ec; [|discriminate].
  destruct (ro_frame _ ro_view_id _ _ _ Ec) as [Hs Hr].
  rewrite bind_unfold. unfold get_self at 1. cbv beta iota.
  rewrite bind_unfold. unfold lift at 1.
  destruct (py_subscript auth "x-user-locale") as [locale|e]; [|discriminate].
  rewrite bind_unfold. unfold lift at 1.
  destruct (py_subscript auth "x-airtable-application-id") as [app|e]; [|discriminate].
  rewrite bind_unfold. unfold lift at 1.
  destruct (_get_download_csv_url _) as [url|e]; [|discriminate].
  rewrite bind_unfold. unfold download at 1. cbv beta iota.
  intros H. exists url. unfold answered.
  destruct (status_code (requests_get url csv_headers) =? 200) eqn:Es.
  - cbn [ret] in H. injection H as <- <-. cbn [self requests]. rewrite Hr.
    apply Z.eqb_eq in Es. auto.
  - rewrite bind_unfold in H.
    destruct (json_loads (resp_content (requests_get url csv_headers))) as [body|] eqn:Ej;
      [|discriminate H].
    cbn [ret] in H. rewrite bind_unfold in H.
    unfold logger_warning, emit in H. cbn [ret] in H.
    injection H as <- <-. cbn [self requests]. rewrite Hr.
    apply Z.eqb_neq in Es. split; [reflexivity|]. split; [exact Hs|].
    right. split; [exact Es|]. split; [discriminate | reflexivity].
Qed.

(** X13. Whenever [to_csv] returns, it has sent exactly one request, the
    download; a given path has the suffix [.csv], whatever its case; and the
    text is either the text of the download, answered with status 200 and
    not empty, or the text built from the rows and the columns of the
    table, which happens only when the answer has status 200 and an empty
    text, or another status and a body that reads as JSON. *)
Theorem X13_csv_outcome {L : PyLib} (requests_get : string -> pydict -> response)
  (path_suffix : string -> string) (path : option string)
  (st st' : state) (result : export_result) :
  to_csv requests_get path_suffix path st = (Ok result, st') ->
  exists (url csv : string),
    requests st' = requests st ++ [url]
    /\ handed_back ".csv" path_suffix path csv = Ok result
    /\ let resp := requests_get url csv_headers in
       (status_code resp = 200 /\ resp_text resp <> "" /\ csv = resp_text resp)
       \/ ((status_code resp = 200 /\ resp_text resp = ""
            \/ status_code resp <> 200 /\ json_loads (resp_content resp) <> None)
           /\ exists rows cm,
                fst (data st) = Ok (Some rows)
                /\ fst (column_by_id st) = Ok (Some cm)
                /\ csv = csv_of_rows (map snd cm) rows).
Proof.
  unfold to_csv. rewrite bind_unfold.
  destruct (__get_csv_from_download_csv requests_get st) as [[downloaded|e] st1] eqn:E1;
    [|discriminate].
  destruct (get_csv_inv requests_get st st1 downloaded E1) as (url & Hreq & Hs1 & Hans).
  rewrite bind_unfold.
  assert (Hfall :
    forall st2 csv,
      bind data
        (fun d => bind match d with
                       | Some rows => ret rows
                       | None => raise TypeError
                       end
                    (fun rows => bind column_by_id
                       (fun cm => bind (lift (colmap_values cm))
                          (fun cds => ret (csv_of_rows cds rows))))) st1
      = (Ok csv, st2) ->
      requests st2 = requests st1
      /\ exists rows cm,
           fst (data st) = Ok (Some rows)
           /\ fst (column_by_id st) = Ok (Some cm)
           /\ csv = csv_of_rows (map snd cm) rows).
  { intros st2 csv H. rewrite bind_unfold in H.
    destruct (data st1) as [[d|e] sd] eqn:Ed; [|discriminate H].
    destruct (ro_frame _ ro_data _ _ _ Ed) as [Hsd Hrd].
    rewrite bind_unfold in H. destruct d as [rows|]; [|discriminate H].
    cbn [ret] in H. rewrite bind_unfold in H.
    destruct (column_by_id sd) as [[cmo|e] sc] eqn:Ec; [|discriminate H].
    destruct (ro_frame _ ro_column_by_id _ _ _ Ec) as [Hsc Hrc].
    rewrite bind_unfold in H. unfold lift at 1 in H.
    destruct cmo as [cm|]; [|discriminate H]. cbn [colmap_values ret] in H.
    injection H as <- <-. split; [congruence|]. exists rows, cm.
    split; [now rewrite (ro_result _ ro_data st st1 Hs1), Ed|].
    split; [|reflexivity].
    rewrite (ro_result _ ro_column_by_id st sd), Ec; [reflexivity|].
    eauto using same_object_trans. }
  intros H.
  match type of H with
  | match ?m st1 with _ => _ end = _ => destruct (m st1) as [[csv|e] st2] eqn:Ecsv
  end; [|discriminate H].
  rewrite (hands_back ".csv") in H. injection H as Hres <-.
  exists url, csv.
  destruct downloaded as [[|c r]|].
  - destruct (Hfall _ _ Ecsv) as (Hr & Hrows).
    split; [congruence|]. split; [exact Hres|]. right. split; [|exact Hrows].
    destruct Hans as [[Hst [= Htext]]|[_ [_ [=]]]]. left. auto.
  - cbn [ret] in Ecsv. injection Ecsv as <- <-.
    split; [exact Hreq|]. split; [exact Hres|]. left.
    destruct Hans as [[Hst [= Htext]]|[_ [_ [=]]]].
    rewrite <- Htext. repeat split; [exact Hst | discriminate].
  - destruct (Hfall _ _ Ecsv) as (Hr & Hrows).
    split; [congruence|]. split; [exact Hres|]. right. split; [|exact Hrows].
    destruct Hans as [[_ [=]]|[Hst [Hj _]]]. right. auto.
Qed.

(** the text of the sample table, as [to_csv] builds it *)
Definition sample_csv : string :=
  PyStr.join nl
    ["Full Name,Amount ($),Status,When,Mystery";
     "Ada,5,Done," +:+ dq +:+ "January 01, 2024" +:+ dq +:+ ",[1, 2]";
     "Bob,,,,raw"].

Lemma sample_csv_run :
  to_csv refused sample_suffix (Some "table.csv") constructed
  = (Ok (Written "table.csv" sample_csv),
     snd (to_csv refused sample_suffix (Some "table.csv") constructed)).
Proof. vm_compute. reflexivity. Qed.

Lemma X13_csv_outcome_witness :
  exists (url csv : string),
    requests (snd (to_csv refused sample_suffix (Some "table.csv") constructed))
    = requests constructed ++ [url]
    /\ handed_back ".csv" sample_suffix (Some "table.csv") csv
       = Ok (Written "table.csv" sample_csv)
    /\ let resp := refused url csv_headers in
       (status_code resp = 200 /\ resp_text resp <> "" /\ csv = resp_text resp)
       \/ ((status_code resp = 200 /\ resp_text resp = ""
            \/ status_code resp <> 200 /\ json_loads (resp_content resp) <> None)
           /\ exists rows cm,
                fst (data constructed) = Ok (Some rows)
                /\ fst (column_by_id constructed) = Ok (Some cm)
                /\ csv = csv_of_rows (map snd cm) rows).
Proof.
  exact (X13_csv_outcome (L := lib) refused sample_suffix (Some "table.csv")
           constructed _ (Written "table.csv" sample_csv) sample_csv_run).
Defined.

(** ** Cells that no table can hold *)

Lemma rmap_In {A B} (f : A -> res B) (l : list A) (out : list B) (y : B) :
  rmap f l = Ok out -> In y out -> exists x, In x l /\ f x = Ok y.
Proof.
  revert out. induction l as [|a r IH]; intros out H Hin; simpl in H.
  - injection H as <-. destruct Hin.
  - destruct (f a) as [b|] eqn:E; [|discriminate H]. cbn [rbind] in H.
    destruct (rmap f r) as [bs|]; [|discriminate H]. injection H as <-.
    destruct Hin as [<-|Hin]; [exists a; split; [now left | exact E]|].
    destruct (IH bs eq_refl Hin) as (x & Hx & Hfx). exists x. split; [now right | exact Hfx].
Qed.

Lemma row_items_inv (raw : pyval) (items : list pydict) (cells : pydict) :
  row_items_of raw = Ok items -> In cells items ->
  exists rs r cur_row,
    py_iter raw = Ok rs /\ In r rs
    /\ py_subscript r "cellValuesByColumnId" = Ok cur_row
    /\ py_items cur_row = Ok cells.
Proof.
  unfold row_items_of. intros H Hin.
  destruct (py_iter raw) as [rs|e]; [|discriminate H]. cbn [rbind] in H.
  destruct (rmap _ rs) as [rows_list|e] eqn:E1; [|discriminate H]. cbn [rbind] in H.
  destruct (rmap_In _ _ _ _ H Hin) as (cur & Hcur & Hitems).
  destruct (rmap_In _ _ _ _ E1 Hcur) as (r & Hr & Hsub).
  now exists rs, r, cur.
Qed.

Lemma dtypes_inv (st st' : state) (tc : dtypes_t) :
  dtypes st = (Ok (Some tc), st') ->
  exists raw cmo,
    fst (raw_rows_json st) = Ok raw
    /\ fst (column_by_id st) = Ok cmo
    /\ ColumnTypeAnalyzer_dtypes raw cmo = Ok tc.
Proof.
  unfold dtypes, guarded. intros H.
  match type of H with
  | match ?m st with _ => _ end = _ => destruct (m st) as [[tc'|e] s1] eqn:E
  end; [|discriminate H].
  injection H as -> ->. rewrite bind_unfold in E.
  destruct (raw_rows_json st) as [[raw|e] sa] eqn:Ea; [|discriminate E].
  destruct (ro_frame _ ro_raw_rows_json _ _ _ Ea) as [Hsa _].
  rewrite bind_unfold in E.
  destruct (column_by_id sa) as [[cmo|e] sb] eqn:Eb; [|discriminate E].
  unfold lift in E. exists raw, cmo. split; [reflexivity|]. split.
  - now rewrite (ro_result _ ro_column_by_id st sa Hsa), Eb.
  - now injection E as E _.
Qed.

Lemma create_row_model_resolvable {L : PyLib} (tc : dtypes_t) (cm : colmap)
  (model : row_model) (k : pyval) (cd : ColumnDefinition) (t : pytype) :
  create_row_model (Some tc) (Some cm) = Ok model ->
  In (k, cd) cm -> In t (dtypes_get tc (type cd)) ->
  resolvable (type_name t) = true.
Proof.
  unfold create_row_model. cbn [colmap_values rbind]. intros H Hin Ht.
  destruct (rmap _ (map snd cm)) as [fields|] eqn:Hf; [|discriminate H].
  cbn [rbind] in H. unfold eval_create_model in H.
  destruct (negb _ || has_dup (map fst fields)); [discriminate H|].
  destruct (forallb (fun f => forallb resolvable (snd f)) fields) eqn:Hres;
    [|discriminate H].
  assert (Hfield : In (field_name_of (name cd),
                       map type_name (dtypes_get tc (type cd)) ++ ["Any"]) fields).
  { clear H Hres. revert fields Hf.
    assert (Hcd : In cd (map snd cm)) by exact (in_map snd cm (k, cd) Hin).
    induction (map snd cm) as [|c r IH]; intros fields Hf; [destruct Hcd|].
    cbn [rmap rbind] in Hf.
    destruct (rmap _ r) as [fs|]; [|discriminate Hf]. injection Hf as <-.
    destruct Hcd as [->|Hcd]; [now left | right; now apply IH]. }
  rewrite forallb_forall in Hres. specialize (Hres _ Hfield). cbn [snd] in Hres.
  rewrite forallb_forall in Hres. apply Hres, in_or_app. left. now apply in_map.
Qed.

(** X14. A table of which one cell holds the JSON value null cannot be
    read: whatever the columns, [data] returns null, because the row model
    cannot be created from a type collection that records [NoneType]. *)
Theorem X14_null_cell {L : PyLib} (st : state) (raw : pyval) (items : list pydict)
  (cells : pydict) (k : pyval) :
  fst (raw_rows_json st) = Ok raw ->
  row_items_of raw = Ok items ->
  In cells items -> In (k, PNone) cells ->
  fst (data st) = Ok None.
Proof.
  intros Hraw Hitems Hcells Hcell. apply data_none. intros rows st' E.
  destruct (data_rows st st' rows E)
    as (cm & raw' & items' & ub & Hcm & Hraw' & _ & _ & _ & _ & _ & dt & model & Hdt & Hmodel).
  rewrite Hraw in Hraw'. injection Hraw' as <-.
  destruct (row_items_inv raw items cells Hitems Hcells)
    as (rs & r & cur & Hrs & Hr & Hcur & Hcur_items).
  destruct dt as [tc|].
  - destruct (dtypes st) as [rd sd] eqn:Ed. cbn [fst] in Hdt. subst rd.
    destruct (dtypes_inv st sd tc Ed) as (raw'' & cmo & Hr1 & Hc1 & Han).
    rewrite Hraw in Hr1. injection Hr1 as <-.
    rewrite Hcm in Hc1. injection Hc1 as <-.
    unfold ColumnTypeAnalyzer_dtypes in Han. cbn [colmap_values rbind] in Han.
    destruct (analyze_complete raw (Some cm) tc Han rs r cur cells k PNone
                Hrs Hr Hcur Hcur_items Hcell) as (cd & Hcd & Hty).
    unfold colmap_getitem in Hcd. destruct (hashable k); [|discriminate Hcd].
    destruct (colmap_find cm k) as [cd'|] eqn:Hfind; [|discriminate Hcd].
    injection Hcd as ->.
    destruct (colmap_find_In _ _ _ Hfind) as (k' & Hin & _).
    pose proof (create_row_model_resolvable tc cm model k' cd TNoneType Hmodel Hin Hty)
      as Hres.
    discriminate Hres.
  - assert (Hcm_nonempty : cm <> []).
    { destruct (data_rows st st' rows E)
        as (cm2 & raw2 & items2 & ub2 & Hcm2 & Hraw2 & Hitems2 & _ & _ & _ & HF & _).
      rewrite Hcm in Hcm2. injection Hcm2 as <-.
      rewrite Hraw in Hraw2. injection Hraw2 as <-.
      rewrite Hitems in Hitems2. injection Hitems2 as <-.
      destruct (Forall2_In_l _ _ _ _ HF Hcells) as (r0 & rv & model0 & Hfold & _).
      destruct (rfold_step _ _ _ _ _ Hfold Hcell) as (a1 & a2 & Hstep).
      destruct (decode_cell_inv _ _ _ _ _ _ Hstep) as (cd & v & Hc & _).
      destruct (column_of_In _ _ _ Hc) as (k' & Hin & _).
      intros ->. destruct Hin. }
    unfold create_row_model in Hmodel. cbn [colmap_values rbind] in Hmodel.
    destruct cm as [|[k0 cd0] cm']; [now apply Hcm_nonempty|].
    cbn [map rmap rbind] in Hmodel. discriminate Hmodel.
Qed.

(** a table of which one cell holds the JSON value [null] *)
Definition null_session : session :=
  mk_session share_url "America/New_York" [] "" "" PNone
    (str_dict [("id", PStr "tblSample");
               ("columns", PList [column "fldName" "Name" "text" PNone;
                                  column "fldNote" "Note" "text" PNone]);
               ("rows", PList [raw_row "rec1" [("fldName", PStr "Ada");
                                               ("fldNote", PNone)]])])
    "success" false.

Lemma X14_null_cell_witness : fst (data (fresh null_session)) = Ok None.
Proof.
  eapply (X14_null_cell (L := lib) (fresh null_session) _ _
            [(PStr "fldName", PStr "Ada"); (PStr "fldNote", PNone)] (PStr "fldNote")).
  - vm_compute. reflexivity.
  - vm_compute. reflexivity.
  - left. reflexivity.
  - right. left. reflexivity.
Defined.

(** ** Texts that read as dates *)

(** X15. On a text that the date parser accepts and that is not written
    in the one format [strptime] is given, the [date], [formula] and
    [rollup] handlers raise [ValueError], and so does the decoding of a cell
    of a column of one of these types. *)
Theorem X15_date_like_text {L : PyLib} (user_by_id : option pydict) (tz : string)
  (cd : ColumnDefinition) (s : string) :
  dateutil_parse s = None -> strptime_iso s = None ->
  handle user_by_id tz cd "date" (PStr s) = Some (Raise ValueError)
  /\ handle user_by_id tz cd "formula" (PStr s) = Some (Raise ValueError)
  /\ handle user_by_id tz cd "rollup" (PStr s) = Some (Raise ValueError)
  /\ forall ty, In ty ["date"; "formula"; "rollup"] -> type cd = ty ->
                decode user_by_id tz cd (PStr s) = Raise ValueError.
Proof.
  intros Hparse Hiso.
  assert (Hcast : forall kw, cast_to_str (PStr s) kw = Raise ValueError).
  { intros kw. unfold cast_to_str, is_date. now rewrite Hparse, Hiso. }
  unfold handle, decode.
  repeat split.
  - cbn [type_handlers sdict_find String.eqb Ascii.eqb Bool.eqb andb option_map].
    now rewrite Hcast.
  - cbn [type_handlers sdict_find String.eqb Ascii.eqb Bool.eqb andb option_map].
    now rewrite Hcast.
  - cbn [type_handlers sdict_find String.eqb Ascii.eqb Bool.eqb andb option_map].
    now rewrite Hcast.
  - intros ty Hty ->. destruct Hty as [Hty|[Hty|[Hty|[]]]]; rewrite <- Hty;
      cbn [type_handlers sdict_find String.eqb Ascii.eqb Bool.eqb andb];
      now rewrite Hcast.
Qed.

(** a library whose date parser also reads a number as a date, as
    [dateutil] does *)
Definition lenient : PyLib := {|
  float_repr := float_text;
  str_repr := repr_of_str;
  dateutil_parse := fun s => if all_chars PyStr.isdigit s then None else parse_date s;
  strptime_iso := parse_iso;
  pytz_timezone := zone_of;
  json_loads := loads;
  is_identifier := identifier;
  pydantic_field_check := field_check;
  http_get_text := serve;
  str_lower := lower_text;
  str_strip := strip_text
|}.

Lemma X15_date_like_text_witness :
  @handle lenient None "UTC" status_column "formula" (PStr "2024")
  = Some (Raise ValueError).
Proof.
  exact (proj1 (proj2 (X15_date_like_text (L := lenient) None "UTC" status_column "2024"
                         eq_refl eq_refl))).
Defined.

(** ** [to_json] *)

Lemma append_assoc (a b c : string) : (a +:+ b) +:+ c = a +:+ (b +:+ c).
Proof. induction a as [|x a IH]; simpl; [reflexivity | now rewrite IH]. Qed.

Lemma append_nil_r (a : string) : a +:+ "" = a.
Proof. induction a as [|x a IH]; simpl; [reflexivity | now rewrite IH]. Qed.

(** the removal of the escaped quotes *)
Definition unescape (s : string) : string := PyStr.replace escaped_quote "" s.

Lemma replace_from_0 (old new : string) (c : ascii) (r : string) :
  PyStr.replace_from old new 0 (String c r)
  = if String.prefix old (String c r)
    then new +:+ PyStr.replace_from old new (String.length old - 1) r
    else String c (PyStr.replace_from old new 0 r).
Proof. reflexivity. Qed.

Lemma prefix_escaped_quote (c : ascii) (r : string) :
  String.prefix escaped_quote (String c r)
  = Ascii.eqb c PyStr.backslash
    && match r with String d _ => Ascii.eqb d PyStr.quote | EmptyString => false end.
Proof.
  unfold escaped_quote, escaped. destruct r as [|d r']; cbn [String.prefix].
  - destruct (ascii_dec PyStr.backslash c); now rewrite andb_false_r.
  - destruct (ascii_dec PyStr.backslash c) as [<-|Hne].
    + rewrite Ascii.eqb_refl. cbn [andb].
      destruct (ascii_dec PyStr.quote d) as [<-|Hd].
      * rewrite Ascii.eqb_refl. now destruct r'.
      * destruct (Ascii.eqb_spec d PyStr.quote) as [->|_];
          [now contradiction Hd | reflexivity].
    + destruct (Ascii.eqb_spec c PyStr.backslash) as [->|_];
        [now contradiction Hne | reflexivity].
Qed.

Lemma unescape_quote (r : string) :
  unescape (String PyStr.backslash (String PyStr.quote r)) = unescape r.
Proof.
  unfold unescape, PyStr.replace.
  rewrite replace_from_0, prefix_escaped_quote, !Ascii.eqb_refl. reflexivity.
Qed.

Lemma unescape_char (c : ascii) (r : string) :
  c <> PyStr.backslash -> unescape (String c r) = String c (unescape r).
Proof.
  intros Hc. unfold unescape, PyStr.replace.
  rewrite replace_from_0, prefix_escaped_quote.
  destruct (Ascii.eqb_spec c PyStr.backslash) as [->|_]; [now contradiction Hc | reflexivity].
Qed.

Lemma unescape_backslash (c : ascii) (r : string) :
  c <> PyStr.quote ->
  unescape (String PyStr.backslash (String c r))
  = String PyStr.backslash (unescape (String c r)).
Proof.
  intros Hc. unfold unescape, PyStr.replace.
  rewrite replace_from_0, prefix_escaped_quote, Ascii.eqb_refl.
  destruct (Ascii.eqb_spec c PyStr.quote) as [->|_]; [now contradiction Hc | reflexivity].
Qed.

(** [cleans s t]: wherever [s] stands in a text, the removal leaves [t] for
    it and goes on after it *)
Definition cleans (s t : string) : Prop :=
  forall rest, unescape (s +:+ rest) = t +:+ unescape rest.

Lemma cleans_unescape (s t : string) : cleans s t -> unescape s = t.
Proof. intros H. specialize (H ""). now rewrite !append_nil_r in H. Qed.

Lemma cleans_nil : cleans "" "".
Proof. intros rest. reflexivity. Qed.

Lemma cleans_app (s t s' t' : string) :
  cleans s t -> cleans s' t' -> cleans (s +:+ s') (t +:+ t').
Proof. intros H H' rest. now rewrite !append_assoc, H, H'. Qed.

Lemma cleans_char (c : ascii) : c <> PyStr.backslash -> cleans (String c "") (String c "").
Proof. intros Hc rest. cbn [String.append]. now apply unescape_char. Qed.

Lemma cleans_quote : cleans escaped_quote "".
Proof. intros rest. apply unescape_quote. Qed.

Lemma cleans_escaped (c : ascii) :
  c <> PyStr.quote -> c <> PyStr.backslash -> cleans (escaped c) (escaped c).
Proof.
  intros Hq Hb rest. unfold escaped. cbn [String.append].
  now rewrite unescape_backslash, unescape_char.
Qed.

Lemma cleans_text (s : string) :
  ~ PyStr.contains_char PyStr.backslash s -> cleans s s.
Proof.
  unfold PyStr.contains_char. induction s as [|c r IH]; intros H; [apply cleans_nil|].
  cbn [list_ascii_of_string In] in H.
  apply (cleans_app (String c "") (String c "") r r).
  - apply cleans_char. intros ->. apply H. now left.
  - apply IH. intros Hin. apply H. now right.
Qed.

(** a text without its double quotes *)
Definition unquote (s : string) : string := PyStr.replace dq "" s.

Lemma unquote_cons (c : ascii) (r : string) :
  unquote (String c r)
  = if Ascii.eqb PyStr.quote c then unquote r else String c (unquote r).
Proof. apply replace_quote_step. Qed.

Definition no_backslash (s : string) : Prop := ~ PyStr.contains_char PyStr.backslash s.

Lemma no_backslash_cons (c : ascii) (r : string) :
  no_backslash (String c r) <-> c <> PyStr.backslash /\ no_backslash r.
Proof.
  unfold no_backslash, PyStr.contains_char. cbn [list_ascii_of_string In]. split.
  - intros H. split; [intros -> | intros Hin]; apply H; auto.
  - intros [Hc Hr] [Heq|Hin]; [now apply Hc | now apply Hr].
Qed.

Lemma unquote_no_backslash (s : string) : no_backslash s -> no_backslash (unquote s).
Proof.
  induction s as [|c r IH]; intros H; [exact H|].
  apply no_backslash_cons in H. destruct H as [Hc Hr]. rewrite unquote_cons.
  destruct (Ascii.eqb PyStr.quote c); [now apply IH|].
  apply no_backslash_cons. split; [exact Hc | now apply IH].
Qed.

Lemma unquote_idempotent (s : string) : unquote (unquote s) = unquote s.
Proof.
  induction s as [|c r IH]; [reflexivity|]. rewrite unquote_cons.
  destruct (Ascii.eqb PyStr.quote c) eqn:E; [exact IH|].
  now rewrite unquote_cons, E, IH.
Qed.

Lemma json_hex_plain (n : nat) : (n < 16)%nat -> json_hex n <> PyStr.backslash.
Proof.
  intros H. do 16 (destruct n as [|n]; [discriminate|]). lia.
Qed.

Lemma json_escape_cleans (c : ascii) :
  c <> PyStr.backslash ->
  cleans (json_escape c) (if Ascii.eqb PyStr.quote c then "" else json_escape c).
Proof.
  intros Hc. unfold json_escape. rewrite (Ascii.eqb_sym c PyStr.quote).
  destruct (Ascii.eqb_spec PyStr.quote c) as [_|Hq]; [apply cleans_quote|].
  destruct (Ascii.eqb_spec c PyStr.backslash) as [->|_]; [now contradiction Hc|].
  repeat match goal with
         | |- cleans (if ?b then _ else _) _ =>
             destruct b; [first [ apply cleans_escaped; discriminate
                                | apply cleans_char; exact Hc ]|]
         end.
  apply cleans_app; [apply cleans_escaped; discriminate|].
  apply cleans_text, no_backslash_cons. split; [discriminate|].
  apply no_backslash_cons. split; [discriminate|].
  pose proof (nat_ascii_bounded c) as Hb.
  apply no_backslash_cons. split.
  { apply json_hex_plain. apply Nat.Div0.div_lt_upper_bound. exact Hb. }
  apply no_backslash_cons. split.
  { apply json_hex_plain. apply Nat.mod_upper_bound. discriminate. }
  intros [].
Qed.

Lemma json_escape_all_cleans (s : string) :
  no_backslash s -> cleans (json_escape_all s) (json_escape_all (unquote s)).
Proof.
  induction s as [|c r IH]; intros H; [apply cleans_nil|].
  apply no_backslash_cons in H. destruct H as [Hc Hr].
  cbn [json_escape_all]. rewrite unquote_cons.
  pose proof (cleans_app _ _ _ _ (json_escape_cleans c Hc) (IH Hr)) as Happ.
  destruct (Ascii.eqb PyStr.quote c); exact Happ.
Qed.

Lemma json_string_cleans (s : string) :
  no_backslash s -> cleans (json_string s) (json_string (unquote s)).
Proof.
  intros H. unfold json_string.
  apply cleans_app; [apply cleans_char; discriminate|].
  apply cleans_app; [now apply json_escape_all_cleans | apply cleans_char; discriminate].
Qed.

Lemma cleans_join (sep : string) (l l' : list string) :
  cleans sep sep -> Forall2 cleans l l' -> cleans (PyStr.join sep l) (PyStr.join sep l').
Proof.
  intros Hsep H. induction H as [|x y r r' Hxy Hr IH]; [apply cleans_nil|].
  destruct Hr as [|x2 y2 r2 r2' Hxy2 Hr2]; [exact Hxy|].
  cbn [PyStr.join] in *.
  apply cleans_app; [exact Hxy|]. apply cleans_app; [exact Hsep | exact IH].
Qed.

Lemma cleans_separator : cleans ", " ", ".
Proof. apply cleans_text. intros H. cbn in H. intuition discriminate. Qed.

Lemma cleans_colon : cleans ": " ": ".
Proof. apply cleans_text. intros H. cbn in H. intuition discriminate. Qed.

(** a record without the double quotes of its names and of its values *)
Definition unquoted (r : record) : record :=
  map (fun kv => (unquote (fst kv), unquote (snd kv))) r.

Definition plain (r : record) : Prop :=
  forall k v, In (k, v) r -> no_backslash k /\ no_backslash v.

Lemma json_record_cleans (r : record) :
  plain r -> cleans (json_record r) (json_record (unquoted r)).
Proof.
  intros Hr. unfold json_record.
  apply cleans_app; [apply cleans_char; discriminate|].
  apply cleans_app; [|apply cleans_char; discriminate].
  apply cleans_join; [apply cleans_separator|].
  unfold unquoted. rewrite map_map. cbn [fst snd].
  induction r as [|[k v] r IH]; [constructor|]. cbn [map fst snd]. constructor.
  - destruct (Hr k v (or_introl eq_refl)) as [Hk Hv].
    apply cleans_app; [now apply json_string_cleans|].
    apply cleans_app; [apply cleans_colon | now apply json_string_cleans].
  - apply IH. intros k' v' Hin. apply Hr. now right.
Qed.

Lemma json_dumps_cleans (recs : list record) :
  Forall plain recs ->
  cleans (json_dumps (Records recs)) (json_dumps (Records (map unquoted recs))).
Proof.
  intros H. cbn [json_dumps].
  apply cleans_app; [apply cleans_char; discriminate|].
  apply cleans_app; [|apply cleans_char; discriminate].
  apply cleans_join; [apply cleans_separator|].
  induction H as [|r recs' Hr _ IH]; cbn [map]; constructor;
    [now apply json_record_cleans | exact IH].
Qed.

Lemma unquoted_plain (r : record) : plain r -> plain (unquoted r).
Proof.
  intros Hr k v Hin. unfold unquoted in Hin. apply in_map_iff in Hin.
  destruct Hin as ([k0 v0] & [= <- <-] & Hin). destruct (Hr k0 v0 Hin).
  split; now apply unquote_no_backslash.
Qed.

Lemma unquoted_idempotent (r : record) : unquoted (unquoted r) = unquoted r.
Proof.
  unfold unquoted. rewrite map_map. apply map_ext. intros [k v]. cbn [fst snd].
  now rewrite !unquote_idempotent.
Qed.

(** the two removals of [to_json] on the records of a table whose names and
    values hold no backslash *)
Lemma unescape_twice (recs : list record) :
  Forall plain recs ->
  unescape (unescape (json_dumps (Records recs)))
  = json_dumps (Records (map unquoted recs)).
Proof.
  intros H.
  assert (H' : Forall plain (map unquoted recs)).
  { rewrite Forall_map. revert H. apply Forall_impl. apply unquoted_plain. }
  rewrite (cleans_unescape _ _ (json_dumps_cleans recs H)).
  rewrite (cleans_unescape _ _ (json_dumps_cleans (map unquoted recs) H')).
  rewrite map_map. f_equal. f_equal. apply map_ext. apply unquoted_idempotent.
Qed.

(** X16. When the download gave no text and [to_dict] returns the records
    of the table, none of whose column names and values holds a backslash,
    the text of [to_json] is the JSON text of these records with the double
    quotes removed from the names and from the values; it is returned when
    no path is given, written when the suffix of the path is [.json], and
    [AssertionError] is raised for any other path. *)
Theorem X16_json_fallback {L : PyLib} (requests_get : string -> pydict -> response)
  (path_suffix : string -> string) (csv_to_json : string -> string)
  (path : option string) (st st1 st2 : state) (downloaded : option string)
  (recs : list record) :
  __get_csv_from_download_csv requests_get st = (Ok downloaded, st1) ->
  downloaded = None \/ downloaded = Some "" ->
  to_dict "records" true st1 = (Ok (Records recs), st2) ->
  Forall plain recs ->
  fst (to_json requests_get path_suffix csv_to_json path st)
  = handed_back ".json" path_suffix path (json_dumps (Records (map unquoted recs))).
Proof.
  intros Hdl Hnone Hdict Hplain.
  unfold to_json. rewrite bind_unfold, Hdl. cbv beta iota.
  assert (Hfall : forall k : M string,
             match downloaded with
             | Some (String c r) => ret (csv_to_json (String c r))
             | _ => k
             end = k).
  { intros k. now destruct Hnone as [-> | ->]. }
  rewrite Hfall. rewrite !bind_unfold. rewrite Hdict. cbv beta iota.
  cbn [ret]. cbv beta iota.
  rewrite (hands_back ".json"). cbn [fst]. f_equal.
  exact (unescape_twice recs Hplain).
Qed.

(** the records of the sample table, as [to_json] reads them *)
Definition sample_json_records : list record :=
  [[("Full Name", "Ada"); ("Amount ($)", "5"); ("Status", "Done");
    ("When", dq +:+ "January 01, 2024" +:+ dq); ("Mystery", "[1, 2]")];
   [("Full Name", "Bob"); ("Amount ($)", ""); ("Status", ""); ("When", "");
    ("Mystery", "raw")]].

Lemma sample_json_run :
  to_dict "records" true after_refusal
  = (Ok (Records sample_json_records), snd (to_dict "records" true after_refusal)).
Proof. vm_compute. reflexivity. Qed.

Lemma sample_json_plain : Forall plain sample_json_records.
Proof.
  apply Forall_cons; [|apply Forall_cons; [|apply Forall_nil]];
    intros k v Hin; cbn [In] in Hin;
    repeat (destruct Hin as [Hin|Hin];
            [injection Hin as <- <-; split; intros H; cbn in H; intuition discriminate|]);
    destruct Hin.
Qed.

Lemma X16_json_fallback_witness :
  fst (to_json refused sample_suffix (fun _ => "[]") None constructed)
  = Ok (Returned (json_dumps (Records (map unquoted sample_json_records)))).
Proof.
  exact (X16_json_fallback (L := lib) refused sample_suffix (fun _ => "[]") None
           constructed after_refusal _ None sample_json_records
           sample_refusal (or_introl eq_refl) sample_json_run sample_json_plain).
Defined.

(** Without the hypothesis on the backslashes the text need not be JSON: a
    value that ends with a backslash loses the quote that closes it. *)
Lemma to_json_backslash :
  unescape (unescape (json_dumps (Records [[("k", String PyStr.backslash "")]])))
  = "[{" +:+ dq +:+ "k" +:+ dq +:+ ": " +:+ dq +:+ String PyStr.backslash "}]".
Proof. vm_compute. reflexivity. Qed.
